(** * AutoCheckRH: the fetch, extract, match and classify pipeline

    A shallow embedding of the Python sources
    [compare_planilha.py], [tests/make_planilha.py], [qr_crawler.py],
    [crawler.py] and [tests/crawler.py], followed by the properties of the
    specification that were checked against them.

    Conventions of the embedding.
    - A Python [str] is a [string]; its characters are the code points
      below 256, so [\d] is the range '0'..'9' and [str.isspace] is the
      set listed in [PyStr.isspace].
    - A Python [int] is a [Z]; [None] is the [None] of [option].
    - A Python [float] is a [pyfloat]: the rational it denotes, an
      infinity, or a NaN.  Comparisons are exact.  The sums and
      differences of the throttle are rounded to binary64 ([Binary64]);
      the value [float()] reads from a numeral is not rounded.
    - A raised exception is the [Raise] of [result].
    - A [dict] is an association list in insertion order with distinct
      keys. *)

From stdpp Require Import gmap strings list pretty.
From Stdlib Require Import QArith Qround Qcanon Qpower Qabs Lqa.
From Stdlib Require Import Ascii.
From Stdlib Require SpecFloat.

Local Open Scope Z_scope.

(** ** Outcomes of fallible code *)

Inductive result (A : Type) : Type :=
| Ok (a : A)
| Raise (msg : string).
Arguments Ok {A} a.
Arguments Raise {A} msg.

Definition result_bind {A B : Type} (r : result A) (k : A -> result B) : result B :=
  match r with
  | Ok a => k a
  | Raise m => Raise m
  end.

(** ** Python strings *)

Module PyStr.

Definition code (c : ascii) : N := N_of_ascii c.

(** The double quote character. *)
Definition dquote : ascii := ascii_of_N 34.

(** [\d] and [str.isdecimal] below code point 256. *)
Definition isdecimal (c : ascii) : bool :=
  ((48 <=? code c) && (code c <=? 57))%N.

Definition digit_value (c : ascii) : Z := Z.of_N (code c) - 48.

(** [str.isspace] and [\s] below code point 256: TAB..CR, FS..US,
    space, NEL and the no-break space. *)
Definition isspace (c : ascii) : bool :=
  (((9 <=? code c) && (code c <=? 13))
   || ((28 <=? code c) && (code c <=? 32))
   || (code c =? 133) || (code c =? 160))%N.

Fixpoint lstrip (s : string) : string :=
  match s with
  | EmptyString => EmptyString
  | String c r => if isspace c then lstrip r else s
  end.

Fixpoint rstrip (s : string) : string :=
  match s with
  | EmptyString => EmptyString
  | String c r =>
      match rstrip r with
      | EmptyString => if isspace c then EmptyString else String c EmptyString
      | r' => String c r'
      end
  end.

(** [s.strip()] *)
Definition strip (s : string) : string := lstrip (rstrip s).

(** [s.replace(x, '')] for a one-character [x]. *)
Fixpoint remove_char (x : ascii) (s : string) : string :=
  match s with
  | EmptyString => EmptyString
  | String c r => if Ascii.eqb c x then remove_char x r else String c (remove_char x r)
  end.

(** [s.replace(x, y)] for one-character [x] and [y]. *)
Fixpoint replace_char (x y : ascii) (s : string) : string :=
  match s with
  | EmptyString => EmptyString
  | String c r => String (if Ascii.eqb c x then y else c) (replace_char x y r)
  end.

(** [s.lstrip(x)] for a one-character [x]. *)
Fixpoint lstrip_char (x : ascii) (s : string) : string :=
  match s with
  | EmptyString => EmptyString
  | String c r => if Ascii.eqb c x then lstrip_char x r else s
  end.

(** [x in s] for a one-character [x]. *)
Fixpoint contains_char (x : ascii) (s : string) : bool :=
  match s with
  | EmptyString => false
  | String c r => Ascii.eqb c x || contains_char x r
  end.

Fixpoint all_chars (p : ascii -> bool) (s : string) : bool :=
  match s with
  | EmptyString => true
  | String c r => p c && all_chars p r
  end.

Fixpoint any_char (p : ascii -> bool) (s : string) : bool :=
  match s with
  | EmptyString => false
  | String c r => p c || any_char p r
  end.

(** The longest prefix of decimal digits, and what follows it. *)
Fixpoint span_digits (s : string) : string * string :=
  match s with
  | EmptyString => (EmptyString, EmptyString)
  | String c r =>
      if isdecimal c
      then let '(d, rest) := span_digits r in (String c d, rest)
      else (EmptyString, s)
  end.

(** [re.search(r"(\d+)", s)]: group 1 of the leftmost match, which is
    greedy, or [None]. *)
Fixpoint search_digit_run (s : string) : option string :=
  match s with
  | EmptyString => None
  | String c r =>
      if isdecimal c then Some (fst (span_digits s)) else search_digit_run r
  end.

(** The value of a string of decimal digits read left to right. *)
Fixpoint digits_acc (acc : Z) (s : string) : Z :=
  match s with
  | EmptyString => acc
  | String c r => digits_acc (10 * acc + digit_value c) r
  end.

Definition digits_value (s : string) : Z := digits_acc 0 s.

(** [digitpart ::= digit (["_"] digit)*] of the numeric literals accepted
    by [int()] and [float()]: the digits read (underscores dropped) and
    the rest of the input; [None] when the input does not start with a
    digit. *)
Fixpoint digitpart_tail (s : string) : string * string :=
  match s with
  | EmptyString => (EmptyString, EmptyString)
  | String c r =>
      if isdecimal c
      then let '(d, rest) := digitpart_tail r in (String c d, rest)
      else if Ascii.eqb c "_"
      then match r with
           | String c' r' =>
               if isdecimal c'
               then let '(d, rest) := digitpart_tail r' in (String c' d, rest)
               else (EmptyString, s)
           | EmptyString => (EmptyString, s)
           end
      else (EmptyString, s)
  end.

Definition digitpart (s : string) : option (string * string) :=
  match s with
  | String c r =>
      if isdecimal c
      then let '(d, rest) := digitpart_tail r in Some (String c d, rest)
      else None
  | EmptyString => None
  end.

Definition split_sign (s : string) : bool * string :=
  match s with
  | String "+" r => (false, r)
  | String "-" r => (true, r)
  | _ => (false, s)
  end.

(** [int(s)] in base ten; [None] stands for [ValueError]. *)
Definition py_int (s : string) : option Z :=
  let '(neg, body) := split_sign (strip s) in
  match digitpart body with
  | Some (d, EmptyString) =>
      Some (if neg then - digits_value d else digits_value d)
  | _ => None
  end.

(** [str.lower] below code point 256: A..Z and the accented capitals
    192..222 (the multiplication sign 215 apart). *)
Definition lower_char (c : ascii) : ascii :=
  if (((65 <=? code c) && (code c <=? 90))
      || ((192 <=? code c) && (code c <=? 222) && negb (code c =? 215)))%N
  then ascii_of_N (code c + 32)
  else c.

Fixpoint lower (s : string) : string :=
  match s with
  | EmptyString => EmptyString
  | String c r => String (lower_char c) (lower r)
  end.

(** [s.startswith(p)] *)
Fixpoint startswith (p s : string) : bool :=
  match p, s with
  | EmptyString, _ => true
  | String a p', String b s' => Ascii.eqb a b && startswith p' s'
  | String _ _, EmptyString => false
  end.

(** [s[n:]] *)
Fixpoint drop (n : nat) (s : string) : string :=
  match n, s with
  | O, _ => s
  | S n', String _ r => drop n' r
  | S _, EmptyString => EmptyString
  end.

(** [s.find(p)]: the least index where [p] occurs, [None] for -1. *)
Fixpoint find (p s : string) : option nat :=
  if startswith p s then Some O
  else match s with
       | EmptyString => None
       | String _ r => option_map S (find p r)
       end.

(** [truthy s]: a string is true in a condition unless it is empty. *)
Definition truthy (s : string) : bool :=
  match s with
  | EmptyString => false
  | _ => true
  end.

End PyStr.

(** ** Python floats *)

Inductive pyfloat : Type :=
| PFin (q : Q)
| PInf
| PNegInf
| PNan.

Module PyFloat.
Import PyStr.

(** [v > n] for a float [v] and an int literal [n]. *)
Definition gt_int (v : pyfloat) (n : Z) : bool :=
  match v with
  | PFin q => negb (Qle_bool q (inject_Z n))
  | PInf => true
  | PNegInf | PNan => false
  end.

(** [n <= v] *)
Definition int_le (n : Z) (v : pyfloat) : bool :=
  match v with
  | PFin q => Qle_bool (inject_Z n) q
  | PInf => true
  | PNegInf | PNan => false
  end.

(** [v <= n] *)
Definition le_int (v : pyfloat) (n : Z) : bool :=
  match v with
  | PFin q => Qle_bool q (inject_Z n)
  | PNegInf => true
  | PInf | PNan => false
  end.

Definition neg (v : pyfloat) : pyfloat :=
  match v with
  | PFin q => PFin (Qred (- q))
  | PInf => PNegInf
  | PNegInf => PInf
  | PNan => PNan
  end.

(** [number ::= [digitpart] "." digitpart | digitpart ["."]]: the integer
    digits, the fraction digits and the rest of the input. *)
Definition number (s : string) : option (string * string * string) :=
  match digitpart s with
  | Some (ip, String "." r) =>
      match digitpart r with
      | Some (fp, r') => Some (ip, fp, r')
      | None => Some (ip, EmptyString, r)
      end
  | Some (ip, r) => Some (ip, EmptyString, r)
  | None =>
      match s with
      | String "." r =>
          match digitpart r with
          | Some (fp, r') => Some (EmptyString, fp, r')
          | None => None
          end
      | _ => None
      end
  end.

(** [exponent ::= ("e" | "E") [sign] digitpart], up to the end of the
    input; an empty input is the exponent 0. *)
Definition exponent (s : string) : option Z :=
  match s with
  | EmptyString => Some 0
  | String c r =>
      if Ascii.eqb c "e" || Ascii.eqb c "E"
      then let '(sg, body) := split_sign r in
           match digitpart body with
           | Some (d, EmptyString) =>
               Some (if sg then - digits_value d else digits_value d)
           | _ => None
           end
      else None
  end.

(** The rational denoted by [ip.fp e ex]. *)
Definition decimal (ip fp : string) (ex : Z) : Q :=
  Qred (inject_Z (digits_value (ip +:+ fp))
        * Qpower (10 # 1) (ex - Z.of_nat (String.length fp))).

(** [float(s)]; [None] stands for [ValueError]. *)
Definition py_float (s : string) : option pyfloat :=
  let '(sg, body) := split_sign (strip s) in
  let low := lower body in
  let signed (v : pyfloat) := if sg then neg v else v in
  if String.eqb low "inf" || String.eqb low "infinity" then Some (signed PInf)
  else if String.eqb low "nan" then Some PNan
  else match number body with
       | Some (ip, fp, r) =>
           match exponent r with
           | Some ex => Some (signed (PFin (decimal ip fp ex)))
           | None => None
           end
       | None => None
       end.

End PyFloat.

(** ** Floating-point arithmetic *)

(** The arithmetic of Python floats, which are binary64 numbers: 53
    significant bits, a unit in the last place of 2^-1074 at least,
    finite below 2^1024, rounded to the nearest number and to the even
    one of two equally near.  The two zeros are not told apart. *)
Module Binary64.

Definition pow2 (e : Z) : Q := Qpower (2 # 1) e.

(** The floor of the binary logarithm of a positive rational. *)
Definition ilog2 (q : Q) : Z :=
  let k := Z.log2 (Qnum q) - Z.log2 (Zpos (Qden q)) in
  if Qle_bool (pow2 k) q then k else k - 1.

(** The nearest integer, the even one of two equally near. *)
Definition nearest_even (q : Q) : Z :=
  let f := Qfloor q in
  match Qcompare (q - inject_Z f) (1 # 2) with
  | Lt => f
  | Gt => f + 1
  | Eq => if Z.even f then f else f + 1
  end.

(** The exponent of the unit in the last place at a rational that is
    not 0. *)
Definition quantum (q : Q) : Z := Z.max (ilog2 (Qabs q) - 52) (-1074).

(** The float an exact result is rounded to. *)
Definition round (q : Q) : pyfloat :=
  let q := Qred q in
  if Qeq_bool q 0 then PFin 0
  else
    let e := quantum q in
    let r := Qred (inject_Z (nearest_even (q / pow2 e)) * pow2 e) in
    if Qle_bool (pow2 1024) (Qabs r) then (if Qle_bool 0 q then PInf else PNegInf)
    else PFin r.

(** [x + y] *)
Definition add (x y : pyfloat) : pyfloat :=
  match x, y with
  | PFin a, PFin b => round (a + b)
  | PNan, _ | _, PNan => PNan
  | PInf, PNegInf | PNegInf, PInf => PNan
  | PInf, _ | _, PInf => PInf
  | PNegInf, _ | _, PNegInf => PNegInf
  end.

(** [x - y] *)
Definition sub (x y : pyfloat) : pyfloat := add x (PyFloat.neg y).

(** [x > y] *)
Definition gt (x y : pyfloat) : bool :=
  match x, y with
  | PNan, _ | _, PNan => false
  | PFin a, PFin b => negb (Qle_bool a b)
  | PInf, PInf => false
  | PInf, _ => true
  | _, PInf => false
  | PNegInf, _ => false
  | PFin _, PNegInf => true
  end.

End Binary64.

(** ** Dictionaries *)

Module PyDict.

Section Dict.
Context {V : Type}.

(** [d.get(k)]: [None] when the key is missing. *)
Fixpoint get (d : list (string * V)) (k : string) : option V :=
  match d with
  | [] => None
  | (k', v) :: d' => if String.eqb k' k then Some v else get d' k
  end.

(** [d[k] = v]: the value is replaced in place when the key exists,
    and the pair is appended otherwise. *)
Fixpoint set (d : list (string * V)) (k : string) (v : V) : list (string * V) :=
  match d with
  | [] => [(k, v)]
  | (k', v') :: d' =>
      if String.eqb k' k then (k', v) :: d' else (k', v') :: set d' k v
  end.

(** [d.update(e)] *)
Definition update (d e : list (string * V)) : list (string * V) :=
  fold_left (fun acc kv => set acc (fst kv) (snd kv)) e d.

(** [list(d.keys())] *)
Definition keys (d : list (string * V)) : list string := map fst d.

End Dict.

End PyDict.

(** A row read by [csv.DictReader]: a field is a string, or [None] when
    the line was shorter than the header. *)
Definition csv_row : Type := list (string * option string).

(** [r.get(k)] on such a row: a missing key and a [None] field both give
    [None]. *)
Definition row_get (r : csv_row) (k : string) : option string :=
  match PyDict.get r k with
  | Some v => v
  | None => None
  end.

(** [r.get(k, '')]: the default covers a missing key only. *)
Definition row_get_default (r : csv_row) (k : string) : option string :=
  match PyDict.get r k with
  | Some v => v
  | None => Some EmptyString
  end.

(** ** The matcher, shared by [find_best] and [find_best_match]

    Both functions run the same two loops over the candidates and differ
    only in how a candidate's normalized number is read; [num] is that
    reading.  The loop variables [best] and [bd] are assigned together, so
    the state of the second loop is one optional pair. *)

Section Matcher.
Context {Row : Type}.
Variable num : Row -> option Z.

(** [for r in resultados: if num(r) == target: return r, 0] *)
Fixpoint scan_exact (target : Z) (rs : list Row) : option Row :=
  match rs with
  | [] => None
  | r :: rs' =>
      match num r with
      | Some n => if n =? target then Some r else scan_exact target rs'
      | None => scan_exact target rs'
      end
  end.

(** One iteration of the nearest-candidate loop. *)
Definition nearest_step (target : Z) (st : option (Row * Z)) (r : Row)
  : option (Row * Z) :=
  match num r with
  | None => st
  | Some n =>
      let diff := Z.abs (n - target) in
      match st with
      | None => Some (r, diff)
      | Some (_, bd) => if diff <? bd then Some (r, diff) else st
      end
  end.

Definition scan_nearest (target : Z) (rs : list Row) : option (Row * Z) :=
  fold_left (nearest_step target) rs None.

Definition best_of (target : option Z) (rs : list Row) (maxdiff : Z)
  : option Row * option Z :=
  match target with
  | None => (None, None)
  | Some t =>
      match scan_exact t rs with
      | Some r => (Some r, Some 0)
      | None =>
          match scan_nearest t rs with
          | Some (best, bd) =>
              if bd <=? maxdiff then (Some best, Some bd) else (None, None)
          | None => (None, None)
          end
      end
  end.

End Matcher.

(** The default of [maxdiff] and of [max_diff]. *)
Definition default_tolerance : Z := 5.

(** ** [datetime] and the three [strptime] formats of the pipeline *)

Record datetime : Type := mk_datetime {
  year : Z; month : Z; day : Z; hour : Z; minute : Z; second : Z
}.

Module Strptime.
Import PyStr.

(** The directives that occur in the formats, a literal character, and
    a blank of the format, which the library turns into [\s+]. *)
Inductive directive : Type :=
| DDay | DMonth | DYear | DHour | DMinute | DSecond
| DBlank
| DLit (c : ascii).

Definition between (lo hi c : ascii) : bool :=
  ((code lo <=? code c) && (code c <=? code hi))%N.

(** A branch of an alternation that reads two characters, or one. *)
Definition two (p : ascii -> ascii -> bool) (s : string) : list (string * string) :=
  match s with
  | String a (String b r) =>
      if p a b then [(String a (String b EmptyString), r)] else []
  | _ => []
  end.

Definition one (p : ascii -> bool) (s : string) : list (string * string) :=
  match s with
  | String a r => if p a then [(String a EmptyString, r)] else []
  | EmptyString => []
  end.

(** [\s+]: the rests after each possible run of blanks, longest run
    first (the quantifier is greedy and gives back one at a time). *)
Fixpoint blank_rests (s : string) : list string :=
  match s with
  | String c r => if isspace c then blank_rests r ++ [r] else []
  | EmptyString => []
  end.

(** The alternatives of a directive on an input, in the order the
    regular expression of the library tries them:
    [%d] is [3[0-1]|[1-2]\d|0[1-9]|[1-9]| [1-9]],
    [%m] is [1[0-2]|0[1-9]|[1-9]], [%Y] is [\d\d\d\d],
    [%H] is [2[0-3]|[0-1]\d|\d], [%M] is [[0-5]\d|\d] and
    [%S] is [6[0-1]|[0-5]\d|\d]. *)
Definition alternatives (d : directive) (s : string) : list (string * string) :=
  match d with
  | DDay =>
      two (fun a b => Ascii.eqb a "3" && between "0" "1" b) s
      ++ two (fun a b => between "1" "2" a && isdecimal b) s
      ++ two (fun a b => Ascii.eqb a "0" && between "1" "9" b) s
      ++ one (between "1" "9") s
      ++ two (fun a b => Ascii.eqb a " " && between "1" "9" b) s
  | DMonth =>
      two (fun a b => Ascii.eqb a "1" && between "0" "2" b) s
      ++ two (fun a b => Ascii.eqb a "0" && between "1" "9" b) s
      ++ one (between "1" "9") s
  | DYear =>
      match s with
      | String a (String b (String c (String d r))) =>
          if isdecimal a && isdecimal b && isdecimal c && isdecimal d
          then [(String a (String b (String c (String d EmptyString))), r)]
          else []
      | _ => []
      end
  | DHour =>
      two (fun a b => Ascii.eqb a "2" && between "0" "3" b) s
      ++ two (fun a b => between "0" "1" a && isdecimal b) s
      ++ one isdecimal s
  | DMinute =>
      two (fun a b => between "0" "5" a && isdecimal b) s
      ++ one isdecimal s
  | DSecond =>
      two (fun a b => Ascii.eqb a "6" && between "0" "1" b) s
      ++ two (fun a b => between "0" "5" a && isdecimal b) s
      ++ one isdecimal s
  | DBlank => map (fun r => (EmptyString, r)) (blank_rests s)
  | DLit c => one (Ascii.eqb c) s
  end.

(** [int(found_dict[...])]; the groups are always numerals. *)
Definition group_int (g : string) : Z :=
  match py_int g with
  | Some n => n
  | None => 0
  end.

Definition store (d : directive) (g : string) (t : datetime) : datetime :=
  match d with
  | DDay => mk_datetime (year t) (month t) (group_int g) (hour t) (minute t) (second t)
  | DMonth => mk_datetime (year t) (group_int g) (day t) (hour t) (minute t) (second t)
  | DYear => mk_datetime (group_int g) (month t) (day t) (hour t) (minute t) (second t)
  | DHour => mk_datetime (year t) (month t) (day t) (group_int g) (minute t) (second t)
  | DMinute => mk_datetime (year t) (month t) (day t) (hour t) (group_int g) (second t)
  | DSecond => mk_datetime (year t) (month t) (day t) (hour t) (minute t) (group_int g)
  | DBlank | DLit _ => t
  end.

(** All the ways the format matches a prefix of the input, first
    choice first. *)
Fixpoint matches (fmt : list directive) (t : datetime) (s : string)
  : list (datetime * string) :=
  match fmt with
  | [] => [(t, s)]
  | d :: fmt' =>
      flat_map (fun gr => matches fmt' (store d (fst gr) t) (snd gr))
               (alternatives d s)
  end.

Definition is_leap (y : Z) : bool :=
  ((y mod 4 =? 0) && negb (y mod 100 =? 0)) || (y mod 400 =? 0).

Definition days_in_month (y m : Z) : Z :=
  if m =? 2 then (if is_leap y then 29 else 28)
  else if (m =? 4) || (m =? 6) || (m =? 9) || (m =? 11) then 30
  else 31.

(** The checks of the [datetime] constructor. *)
Definition valid (t : datetime) : bool :=
  (1 <=? year t) && (year t <=? 9999)
  && (1 <=? month t) && (month t <=? 12)
  && (1 <=? day t) && (day t <=? days_in_month (year t) (month t))
  && (0 <=? hour t) && (hour t <=? 23)
  && (0 <=? minute t) && (minute t <=? 59)
  && (0 <=? second t) && (second t <=? 59).

(** The fields the library starts from. *)
Definition initial : datetime := mk_datetime 1900 1 1 0 0 0.

(** [datetime.datetime.strptime(s, fmt)]: the first match of the format
    at the start of the input; the input must be used up and the fields
    must form a date. *)
Definition strptime (s : string) (fmt : list directive) : result datetime :=
  match matches fmt initial s with
  | [] => Raise "time data does not match format"
  | (t, EmptyString) :: _ =>
      if valid t then Ok t else Raise "value out of range"
  | (_, String _ _) :: _ => Raise "unconverted data remains"
  end.

(** ['%d/%m/%Y'] *)
Definition fmt_date : list directive :=
  [DDay; DLit "/"; DMonth; DLit "/"; DYear].

(** ['%d/%m/%Y %H:%M'] *)
Definition fmt_date_hm : list directive :=
  fmt_date ++ [DBlank; DHour; DLit ":"; DMinute].

(** ['%d/%m/%Y %H:%M:%S'] *)
Definition fmt_date_hms : list directive :=
  fmt_date_hm ++ [DLit ":"; DSecond].

End Strptime.

(** ** Labels *)

Definition SEM_VALOR : string := "SEM_VALOR".
Definition HOTEL : string := "HOTEL".
Definition ALMOCO : string := "ALMOCO".
Definition JANTA : string := "JANTA".
Definition ALMOCO_unknown : string := "ALMOCO?".
Definition OUTRO : string := "OUTRO".
Definition NAO_ENCONTRADO : string := "NAO_ENCONTRADO".

(** ** compare_planilha.py *)

Module ComparePlanilha.
Import PyStr.

(** [parse_currency] *)
Definition parse_currency (s : option string) : option pyfloat :=
  match s with
  | None => None
  | Some s =>
      let s := remove_char " " (remove_char dquote (strip s)) in
      if String.eqb s EmptyString then None
      else
        let s := replace_char "," "." (remove_char "." s) in
        PyFloat.py_float s
  end.

(** [normalize_num] *)
Definition normalize_num (s : option string) : option Z :=
  match s with
  | None => None
  | Some s =>
      match search_digit_run s with
      | None => None
      | Some g =>
          let v := if truthy (lstrip_char "0" g) then lstrip_char "0" g else "0" in
          py_int v
      end
  end.

(** [find_best]: a candidate's number is normalized from its [numero]
    field at each comparison. *)
Definition find_best (target : option Z) (resultados : list csv_row) (maxdiff : Z)
  : option csv_row * option Z :=
  best_of (fun r => normalize_num (row_get r "numero")) target resultados maxdiff.

(** [re.search(r"(\d{2}):(\d{2})", s)]: group 1 of the leftmost match. *)
Fixpoint search_hh_mm (s : string) : option string :=
  match s with
  | EmptyString => None
  | String a r =>
      match r with
      | String b (String c (String d (String e _))) =>
          if isdecimal a && isdecimal b && Ascii.eqb c ":"
             && isdecimal d && isdecimal e
          then Some (String a (String b EmptyString))
          else search_hh_mm r
      | _ => search_hh_mm r
      end
  end.

(** [classify].  The parameter is annotated [str], but [main] passes a
    field that [DictReader] may have left [None]; the search of the hour
    then raises [TypeError].  The date parsed into [em] is never used
    and its exceptions are swallowed, so it leaves no trace here. *)
Definition classify (valor : option pyfloat) (emissao_str : option string)
  : result string :=
  match valor with
  | None => Ok SEM_VALOR
  | Some v =>
      if PyFloat.gt_int v 100 then Ok HOTEL
      else if PyFloat.int_le 40 v && PyFloat.le_int v 55 then
        match emissao_str with
        | None => Raise "TypeError: expected string or bytes-like object"
        | Some e =>
            match search_hh_mm e with
            | None => Ok ALMOCO_unknown
            | Some g =>
                match py_int g with
                | Some h => Ok (if h <? 16 then ALMOCO else JANTA)
                | None => Raise "ValueError: invalid literal for int()"
                end
            end
        end
      else Ok OUTRO
  end.

(** A value of an output row. *)
Inductive pyval : Type :=
| VStr (s : string)
| VNone
| VFloat (f : pyfloat).

Definition out_row : Type := list (string * pyval).

Definition of_field (v : option string) : pyval :=
  match v with
  | Some s => VStr s
  | None => VNone
  end.

Definition of_float (v : option pyfloat) : pyval :=
  match v with
  | Some f => VFloat f
  | None => VNone
  end.

(** [dict(c)] *)
Definition dict_of_row (c : csv_row) : out_row :=
  map (fun kv => (fst kv, of_field (snd kv))) c.

(** The columns the comparison adds, in the order [main] lists them. *)
Definition extra_columns : list string :=
  ["classificacao"; "matched_num"; "matched_valor"; "matched_emissao"; "observacao"].

(** The body of the loop of [main] over [comps]: the row appended to
    [out_rows] for the reference row [c]. *)
Definition compare_row (resultados : list csv_row) (c : csv_row) : result out_row :=
  let num_raw := row_get c "numNotaFiscal" in
  let target := normalize_num num_raw in
  let '(matched, diff) := find_best target resultados default_tolerance in
  let fields : result (string * pyval * pyval * pyval * string) :=
    match matched with
    | None => Ok (NAO_ENCONTRADO, VStr EmptyString, VStr EmptyString, VStr EmptyString, NAO_ENCONTRADO)
    | Some m =>
        let matched_num :=
          match normalize_num (row_get m "numero") with
          | Some n => if n =? 0 then EmptyString else pretty n
          | None => EmptyString
          end in
        let matched_val := parse_currency (row_get m "valor_pagar") in
        let matched_em := row_get_default m "emissao" in
        result_bind (classify matched_val matched_em) (fun classification =>
        let note :=
          match diff with
          | Some 0 => "OK"
          | Some d => "VERIFICAR_NUMNOTA (dif=" +:+ pretty d +:+ ")"
          | None => "VERIFICAR_NUMNOTA (dif=None)"
          end in
        Ok (classification, VStr matched_num, of_float matched_val,
            of_field matched_em, note))
    end in
  result_bind fields (fun f =>
    let '(classification, matched_num, matched_val, matched_em, note) := f in
    Ok (PyDict.update (dict_of_row c)
          [("classificacao", VStr classification);
           ("matched_num", matched_num);
           ("matched_valor", matched_val);
           ("matched_emissao", matched_em);
           ("observacao", VStr note)])).

(** The loop of [main]: rows are appended to [out_rows] one reference
    row at a time; an exception ends the run. *)
Fixpoint compare_loop (resultados : list csv_row) (comps : list csv_row)
         (out_rows : list out_row) : result (list out_row) :=
  match comps with
  | [] => Ok out_rows
  | c :: comps' =>
      match compare_row resultados c with
      | Ok out => compare_loop resultados comps' (out_rows ++ [out])
      | Raise m => Raise m
      end
  end.

Definition header (comps : list csv_row) : list string :=
  match comps with
  | c :: _ => PyDict.keys c
  | [] => ["numNotaFiscal"; "Data"; "Valor"]
  end ++ extra_columns.

(** [{k: r.get(k,'') for k in header}], the cells handed to the writer
    in header order. *)
Definition written_row (hdr : list string) (r : out_row) : list pyval :=
  map (fun k => match PyDict.get r k with Some v => v | None => VStr EmptyString end) hdr.

(** [main] from the two loaded tables to the lines written after the
    header line. *)
Definition main (comps resultados : list csv_row) : result (list (list pyval)) :=
  result_bind (compare_loop resultados comps [])
              (fun out_rows => Ok (map (written_row (header comps)) out_rows)).

End ComparePlanilha.

(** ** tests/make_planilha.py *)

Module MakePlanilha.
Import PyStr.

(** [parse_brazil_currency] *)
Definition parse_brazil_currency (s : option string) : option pyfloat :=
  match s with
  | None => None
  | Some s =>
      let s := remove_char " " (remove_char dquote (strip s)) in
      if String.eqb s EmptyString then None
      else
        let s := remove_char "." s in
        let s := replace_char "," "." s in
        PyFloat.py_float s
  end.

(** [parse_result_emissao] *)
Definition parse_result_emissao (s : option string) : option datetime :=
  match s with
  | None => None
  | Some s =>
      if truthy s then
        let s := remove_char dquote (strip s) in
        match Strptime.strptime s Strptime.fmt_date_hms with
        | Ok t => Some t
        | Raise _ =>
            match Strptime.strptime s Strptime.fmt_date_hm with
            | Ok t => Some t
            | Raise _ =>
                match Strptime.strptime s Strptime.fmt_date with
                | Ok t => Some t
                | Raise _ => None
                end
            end
        end
      else None
  end.

(** [normalize_num_for_compare] *)
Definition normalize_num_for_compare (s : option string) : option Z :=
  match s with
  | None => None
  | Some s =>
      let s := strip s in
      if String.eqb s EmptyString then None
      else
        match search_digit_run s with
        | None => None
        | Some g =>
            let num := if truthy (lstrip_char "0" g) then lstrip_char "0" g else "0" in
            py_int num
        end
  end.

(** A row built by [load_resultados]. *)
Record resultado : Type := mk_resultado {
  numero_raw : option string;
  numero : option Z;
  valor : option pyfloat;
  emissao : option datetime;
  orig : csv_row
}.

(** The row [load_resultados] builds from a line of the table. *)
Definition load_row (r : csv_row) : resultado :=
  {| numero_raw := row_get_default r "numero";
     numero := normalize_num_for_compare (row_get_default r "numero");
     valor := parse_brazil_currency (row_get_default r "valor_pagar");
     emissao := parse_result_emissao (row_get_default r "emissao");
     orig := r |}.

(** [find_best_match] *)
Definition find_best_match (target_num : option Z) (resultados : list resultado)
           (max_diff : Z) : option resultado * option Z :=
  best_of numero target_num resultados max_diff.

(** [classify_by_valor_emissao] *)
Definition classify_by_valor_emissao (valor : option pyfloat)
           (emissao : option datetime) : string :=
  match valor with
  | None => SEM_VALOR
  | Some v =>
      if PyFloat.gt_int v 100 then HOTEL
      else if PyFloat.int_le 40 v && PyFloat.le_int v 55 then
        match emissao with
        | None => ALMOCO_unknown
        | Some t => if hour t <? 16 then ALMOCO else JANTA
        end
      else OUTRO
  end.

End MakePlanilha.

(** ** The part of urllib.parse the throttle relies on *)

Module Urllib.
Import PyStr.

Fixpoint take_while (p : ascii -> bool) (s : string) : string :=
  match s with
  | String c r => if p c then String c (take_while p r) else EmptyString
  | EmptyString => EmptyString
  end.

Fixpoint drop_while (p : ascii -> bool) (s : string) : string :=
  match s with
  | String c r => if p c then drop_while p r else s
  | EmptyString => EmptyString
  end.

(** [s.partition(x)]: what precedes the first [x], whether [x] occurs,
    and what follows it. *)
Fixpoint partition (x : ascii) (s : string) : string * bool * string :=
  match s with
  | EmptyString => (EmptyString, false, EmptyString)
  | String c r =>
      if Ascii.eqb c x then (EmptyString, true, r)
      else let '(a, found, b) := partition x r in (String c a, found, b)
  end.

(** [s.rpartition(x)[2]]: what follows the last [x], the whole string
    when [x] does not occur. *)
Fixpoint after_last (x : ascii) (s : string) : string :=
  match s with
  | EmptyString => EmptyString
  | String c r =>
      if contains_char x r then after_last x r
      else if Ascii.eqb c x then r else s
  end.

Definition c0_or_space (c : ascii) : bool := (code c <=? 32)%N.

(** TAB, LF and CR are deleted from the whole URL. *)
Definition unsafe (c : ascii) : bool :=
  ((code c =? 9) || (code c =? 10) || (code c =? 13))%N.

Fixpoint remove_unsafe (s : string) : string :=
  match s with
  | EmptyString => EmptyString
  | String c r => if unsafe c then remove_unsafe r else String c (remove_unsafe r)
  end.

Definition ascii_alpha (c : ascii) : bool :=
  (((65 <=? code c) && (code c <=? 90)) || ((97 <=? code c) && (code c <=? 122)))%N.

Definition scheme_char (c : ascii) : bool :=
  ascii_alpha c || isdecimal c
  || Ascii.eqb c "+" || Ascii.eqb c "-" || Ascii.eqb c ".".

(** The URL after its scheme and colon, when it has a scheme. *)
Definition after_scheme (url : string) : string :=
  let '(pre, found, rest) := partition ":" url in
  match pre with
  | String c _ =>
      if found && ascii_alpha c && all_chars scheme_char pre then rest else url
  | EmptyString => url
  end.

Definition netloc_end (c : ascii) : bool :=
  Ascii.eqb c "/" || Ascii.eqb c "?" || Ascii.eqb c "#".

(** The network location: what stands between a leading [//] and the
    first of [/], [?] and [#]. *)
Definition netloc_of (url : string) : string :=
  if startswith "//" url then take_while (fun c => negb (netloc_end c)) (drop 2 url)
  else EmptyString.

(** The [hostname] attribute computed from the network location. *)
Definition hostname_of_netloc (netloc : string) : option string :=
  let hostinfo := after_last "@" netloc in
  let '(_, have_open_br, bracketed) := partition "[" hostinfo in
  let host :=
    if have_open_br then fst (fst (partition "]" bracketed))
    else fst (fst (partition ":" hostinfo)) in
  if truthy host then
    let '(h, percent, zone) := partition "%" host in
    Some (lower h +:+ (if percent then "%" else EmptyString) +:+ zone)
  else None.

(** [urlparse(url).hostname].  [ip_literal_ok] stands for the check of
    a bracketed host by the ipaddress module; brackets that do not pair
    up and a bracketed host that fails the check raise [ValueError]. *)
Definition urlparse_hostname (ip_literal_ok : string -> bool) (url : string)
  : result (option string) :=
  let url := remove_unsafe (drop_while c0_or_space url) in
  let netloc := netloc_of (after_scheme url) in
  let opened := contains_char "[" netloc in
  let closed := contains_char "]" netloc in
  if (opened && negb closed) || (closed && negb opened)
  then Raise "Invalid IPv6 URL"
  else if opened && closed
          && negb (ip_literal_ok
                     (fst (fst (partition "]" (snd (partition "[" netloc))))))
  then Raise "Invalid IPv6 URL"
  else Ok (hostname_of_netloc netloc).

End Urllib.

(** ** The per-host throttle *)

Module Throttle.

(** [max(0, x)]: [x] when it is above 0, and 0 otherwise. *)
Definition max0 (x : pyfloat) : pyfloat :=
  if Binary64.gt x (PFin 0) then x else PFin 0.

(** [_LAST_REQUEST.get(host, 0)] *)
Definition last_of (reg : gmap string pyfloat) (host : string) : pyfloat :=
  match reg !! host with
  | Some t => t
  | None => PFin 0
  end.

(** The critical section of qr_crawler.py: the wait and the registry
    it leaves.  [now] is the clock read inside the lock; it and the
    delay are floats, and so is every sum and difference. *)
Definition reserve (per_host_delay : Q) (host : string) (now : Q)
           (reg : gmap string pyfloat) : pyfloat * gmap string pyfloat :=
  let last := last_of reg host in
  let allowed := Binary64.add last (PFin per_host_delay) in
  let wait := max0 (Binary64.sub allowed (PFin now)) in
  (wait, <[host := Binary64.add (PFin now) wait]> reg).

(** The critical section of tests/crawler.py. *)
Definition reserve_scheduled (per_host_delay : Q) (host : string) (now : Q)
           (reg : gmap string pyfloat) : pyfloat * gmap string pyfloat :=
  let last := last_of reg host in
  let allowed_at := Binary64.add last (PFin per_host_delay) in
  let '(wait, scheduled) :=
    if Binary64.gt allowed_at (PFin now)
    then (Binary64.sub allowed_at (PFin now), allowed_at)
    else (PFin 0, PFin now) in
  (wait, <[host := scheduled]> reg).

(** [host = urlparse(u).hostname or u], with [host = u] when parsing
    raises. *)
Definition throttle_key (ip_literal_ok : string -> bool) (u : string) : string :=
  match Urllib.urlparse_hostname ip_literal_ok u with
  | Ok (Some h) => if PyStr.truthy h then h else u
  | Ok None => u
  | Raise _ => u
  end.

(** The critical sections are serialized by [_LAST_REQUEST_LOCK], so a
    run of the workers is a sequence of reservations, each with the
    host it is for and the clock it read; the instant each reserves is
    what it stores in the registry. *)
Fixpoint reservations
         (step : string -> Q -> gmap string pyfloat -> pyfloat * gmap string pyfloat)
         (reqs : list (string * Q)) (reg : gmap string pyfloat)
  : list (string * pyfloat) :=
  match reqs with
  | [] => []
  | (host, now) :: reqs' =>
      let reg' := snd (step host now reg) in
      (host, last_of reg' host) :: reservations step reqs' reg'
  end.

End Throttle.

(** ** The world a fetch runs in *)

(** What answers a request: the fields of [requests.Response] that
    [fetch_url] reads. *)
Record response : Type := mk_response {
  resp_status : Z;
  resp_url : string;
  resp_content_type : string;
  resp_text : string
}.

(** What the block under [if soup:] writes into [out]. *)
Record page : Type := mk_page {
  page_title : string;
  page_emails : string;
  page_numero : string;
  page_emissao : string;
  page_valor : string
}.

(** The environment: the clock (the n-th call of [time.time()] returns
    [clock n]), the file system, the network, the HTML library with the
    field extraction that follows it, and the check of IP literals. *)
Record env : Type := mk_env {
  clock : nat -> Q;
  path_exists : string -> bool;
  read_text : string -> result string;
  http_get : string -> result response;
  extract : string -> result page;
  ip_literal_ok : string -> bool
}.

(** The process state: how often the clock was read, the module-level
    [_LAST_REQUEST], and the arguments of the calls of [time.sleep]. *)
Record state : Type := mk_state {
  reads : nat;
  last_request : gmap string pyfloat;
  slept : list pyfloat
}.

(** The dictionary [out]; [None] in [status_code] and [fetch_time] is the
    empty string they are created with. *)
Record fetch_result : Type := mk_fetch_result {
  orig_url : string;
  final_url : string;
  numero : string;
  emissao : string;
  valor_pagar : string;
  status_code : option Z;
  title : string;
  emails : string;
  fetch_time : option Q;
  error : string
}.

Module Fetch.
Import PyStr.

Definition blank (url : string) : fetch_result :=
  mk_fetch_result url EmptyString EmptyString EmptyString EmptyString None
                  EmptyString EmptyString None EmptyString.

Definition with_error (m : string) (o : fetch_result) : fetch_result :=
  mk_fetch_result (orig_url o) (final_url o) (numero o) (emissao o) (valor_pagar o)
                  (status_code o) (title o) (emails o) (fetch_time o) m.

Definition with_fetch_time (t : Q) (o : fetch_result) : fetch_result :=
  mk_fetch_result (orig_url o) (final_url o) (numero o) (emissao o) (valor_pagar o)
                  (status_code o) (title o) (emails o) (Some t) (error o).

Definition with_response (code : Z) (final : string) (o : fetch_result) : fetch_result :=
  mk_fetch_result (orig_url o) final (numero o) (emissao o) (valor_pagar o)
                  (Some code) (title o) (emails o) (fetch_time o) (error o).

Definition with_page (p : page) (o : fetch_result) : fetch_result :=
  mk_fetch_result (orig_url o) (final_url o)
                  (if truthy (page_numero p) then page_numero p else numero o)
                  (if truthy (page_emissao p) then page_emissao p else emissao o)
                  (page_valor p)
                  (status_code o) (page_title p) (page_emails p)
                  (fetch_time o) (error o).

(** [time.time()] *)
Definition read_clock (e : env) (st : state) : Q * state :=
  (clock e (reads st), mk_state (S (reads st)) (last_request st) (slept st)).

(** Rounding to the nearest integer, ties to even. *)
Definition round_half_even (q : Q) : Z :=
  let f := Qfloor q in
  match Qcompare (q - inject_Z f) (1 # 2) with
  | Lt => f
  | Gt => f + 1
  | Eq => if Z.even f then f else f + 1
  end.

(** [round(x, 3)] *)
Definition round3 (q : Q) : Q :=
  Qred (inject_Z (round_half_even (q * inject_Z 1000)) / inject_Z 1000).

(** How the body of the [try] statement ends: it runs to its end, it
    executes [return out], or it raises; each with [out] as it then
    is. *)
Inductive completion : Type :=
| Fell (o : fetch_result)
| Returned (o : fetch_result)
| Threw (m : string) (o : fetch_result).

(** [except Exception as e: out['error'] = str(e)], then
    [finally: out['fetch_time'] = round(time.time() - start, 3)], then
    the [return out] that ends the function or the one that was
    pending. *)
Definition except_finally (e : env) (start : Q) (c : completion) (st : state)
  : fetch_result * state :=
  let o :=
    match c with
    | Fell o => o
    | Returned o => o
    | Threw m o => with_error m o
    end in
  let '(now, st) := read_clock e st in
  (with_fetch_time (round3 (now - start)) o, st).

(** The block under [if soup:], for a document that was parsed. *)
Definition extract_into (e : env) (text : string) (o : fetch_result) : completion :=
  match extract e text with
  | Ok p => Fell (with_page p o)
  | Raise m => Threw m o
  end.

(** ['text' in ct or 'html' in ct] *)
Definition textual (ct : string) : bool :=
  match find "text" ct, find "html" ct with
  | None, None => false
  | _, _ => true
  end.

End Fetch.

(** ** qr_crawler.py *)

Module QrCrawler.
Import PyStr Fetch.

(** [u[idx:]] for the first of the three schemes found at an index
    above 0. *)
Definition cut_to_scheme (u : string) : string :=
  let low := lower u in
  match find "http://" low with
  | Some (S i) => drop (S i) u
  | _ =>
      match find "https://" low with
      | Some (S i) => drop (S i) u
      | _ =>
          match find "file://" low with
          | Some (S i) => drop (S i) u
          | _ => u
          end
      end
  end.

(** The characters [normalize_url] deletes one after the other: U+FEFF,
    U+200B and U+00A0.  The strings here hold code points below 256, so
    the first two occur in none of them and stand here as [None]. *)
Definition invisible : list (option ascii) := [None; None; Some (ascii_of_N 160)].

(** [u.replace(ch, '')] *)
Definition delete (ch : option ascii) (u : string) : string :=
  match ch with
  | Some c => remove_char c u
  | None => u
  end.

(** [for ch in (...): u = u.replace(ch, '')] *)
Definition without_invisible (u : string) : string :=
  fold_left (fun u ch => delete ch u) invisible u.

(** [normalize_url] *)
Definition normalize_url (u : string) : string :=
  let u := without_invisible (strip u) in
  if negb (truthy u) then u
  else
    let u := cut_to_scheme u in
    if startswith "file://" u then u
    else if negb (startswith "http://" u) && negb (startswith "https://" u)
    then "http://" +:+ u
    else u.

(** The throttle of [fetch_url]: the reservation under the lock, then
    the sleep outside it. *)
Definition throttle (e : env) (per_host_delay : Q) (u : string) (st : state) : state :=
  if negb (Qle_bool per_host_delay 0) then
    let host := Throttle.throttle_key (ip_literal_ok e) u in
    let '(now, st) := read_clock e st in
    let '(wait, reg) := Throttle.reserve per_host_delay host now (last_request st) in
    mk_state (reads st) reg
             (if Binary64.gt wait (PFin 0) then slept st ++ [wait] else slept st)
  else st.

(** The body of the [try] statement. *)
Definition attempt (e : env) (per_host_delay : Q) (u : string)
           (o : fetch_result) (st : state) : completion * state :=
  if startswith "file://" u then
    let path := drop 7 u in
    if path_exists e path then
      let o := with_response 200 u o in
      match read_text e path with
      | Ok text => (extract_into e text o, st)
      | Raise m => (Threw m o, st)
      end
    else (Returned (with_error ("file not found: " +:+ path) o), st)
  else
    let st := throttle e per_host_delay u st in
    match http_get e u with
    | Raise m => (Threw m o, st)
    | Ok r =>
        let o := with_response (resp_status r) (resp_url r) o in
        let text := if textual (resp_content_type r) then resp_text r else EmptyString in
        if truthy text then (extract_into e text o, st) else (Fell o, st)
    end.

(** [fetch_url] *)
Definition fetch_url (e : env) (url : string) (per_host_delay : Q) (st : state)
  : fetch_result * state :=
  let '(start, st) := read_clock e st in
  let out := blank url in
  if negb (truthy url) then (with_error "empty url" out, st)
  else
    let u := normalize_url url in
    let '(c, st) := attempt e per_host_delay u out st in
    except_finally e start c st.

(** The loop that removes duplicates at the end of [read_input_csv]:
    [seen] is the set, [uniq] the list. *)
Definition dedupe_step (st : gset string * list string) (u : string)
  : gset string * list string :=
  if decide (u ∈ fst st) then st else ({[u]} ∪ fst st, snd st ++ [u]).

Definition dedupe (urls : list string) : list string :=
  snd (fold_left dedupe_step urls (∅, [])).

(** [row[1] if len(row) >= 2 else row[0]], for a row that is not empty. *)
Definition data_cell (row : list string) : option string :=
  match row with
  | [] => None
  | [a] => Some a
  | _ :: b :: _ => Some b
  end.

(** What the loop over the rows does to a cell before it keeps it: of
    the three invisible characters only the no-break space lies below
    code point 256. *)
Definition clean_cell (val : string) : string :=
  strip (remove_char (ascii_of_N 160) val).

(** The list [urls] before the duplicates are removed. *)
Fixpoint collect (rows : list (list string)) : list string :=
  match rows with
  | [] => []
  | row :: rows' =>
      match data_cell row with
      | None => collect rows'
      | Some val =>
          let val := clean_cell val in
          if truthy val then val :: collect rows' else collect rows'
      end
  end.

(** [read_input_csv] on the rows the CSV reader yields; the first one is
    the header and is skipped. *)
Definition read_input_csv (rows : list (list string)) : list string :=
  dedupe (collect (tail rows)).

End QrCrawler.

(** ** crawler.py *)

Module Crawler.
Import PyStr Fetch.

(** [normalize_url] *)
Definition normalize_url (u : string) : string :=
  let u := strip u in
  if negb (truthy u) then u
  else if startswith "file://" u then u
  else if negb (startswith "http://" u) && negb (startswith "https://" u)
  then "http://" +:+ u
  else u.

(** ['text' in ct or 'html' in ct or ct == ''] *)
Definition textual_or_unknown (ct : string) : bool :=
  textual ct || negb (truthy ct).

(** The body of the [try] statement; the branch of a missing file
    stores the elapsed time itself before it returns. *)
Definition attempt (e : env) (start : Q) (u : string)
           (o : fetch_result) (st : state) : completion * state :=
  if startswith "file://" u then
    let path := drop 7 u in
    if path_exists e path then
      let o := with_response 200 u o in
      match read_text e path with
      | Ok text => (extract_into e text o, st)
      | Raise m => (Threw m o, st)
      end
    else
      let o := with_error ("file not found: " +:+ path) o in
      let '(now, st) := read_clock e st in
      (Returned (with_fetch_time (round3 (now - start)) o), st)
  else
    match http_get e u with
    | Raise m => (Threw m o, st)
    | Ok r =>
        let o := with_response (resp_status r) (resp_url r) o in
        let text :=
          if textual_or_unknown (resp_content_type r) then resp_text r
          else EmptyString in
        if truthy text then (extract_into e text o, st) else (Fell o, st)
    end.

(** [fetch_url] *)
Definition fetch_url (e : env) (url : string) (st : state) : fetch_result * state :=
  let '(start, st) := read_clock e st in
  let out := blank url in
  if negb (truthy url) then (with_error "empty url" out, st)
  else
    let u := normalize_url url in
    let '(c, st) := attempt e start u out st in
    except_finally e start c st.

(** The list [urls] before the duplicates are removed: the cells are
    taken as they are. *)
Fixpoint collect (rows : list (list string)) : list string :=
  match rows with
  | [] => []
  | row :: rows' =>
      match QrCrawler.data_cell row with
      | None => collect rows'
      | Some val => val :: collect rows'
      end
  end.

(** [read_input_csv] *)
Definition read_input_csv (rows : list (list string)) : list string :=
  QrCrawler.dedupe (collect (tail rows)).

End Crawler.

(** ** Sequential file names (compare_planilha.py and qr_crawler.py) *)

Module SeqFile.
Import PyStr.

(** [$] after the extension: the end of the name, or a line feed that
    ends it. *)
Definition tail_ok (ext tail : string) : bool :=
  String.eqb tail ext || String.eqb tail (ext +:+ String (ascii_of_N 10) EmptyString).

(** [(\d+)] followed by the extension and [$], on the digits [ds] at
    hand and what follows them: the group of the longest run of digits
    after which the rest of the pattern matches. *)
Fixpoint longest_group (ext ds rest : string) : option string :=
  match ds with
  | EmptyString => None
  | String c ds' =>
      match longest_group ext ds' rest with
      | Some g => Some (String c g)
      | None => if tail_ok ext (ds' +:+ rest) then Some (String c EmptyString) else None
      end
  end.

(** The pattern matched at the start of [s]: group 1. *)
Definition match_here (prefix ext s : string) : option string :=
  if startswith (prefix +:+ "-") s then
    let '(ds, rest) := span_digits (drop (String.length prefix + 1) s) in
    longest_group ext ds rest
  else None.

(** [pat.search(name)]: group 1 of the leftmost match. *)
Fixpoint search (prefix ext s : string) : option string :=
  match match_here prefix ext s with
  | Some g => Some g
  | None =>
      match s with
      | EmptyString => None
      | String _ r => search prefix ext r
      end
  end.

(** [nums]: the numbers of the names that match. *)
Fixpoint numbers (prefix ext : string) (existing : list string) : list Z :=
  match existing with
  | [] => []
  | name :: rest =>
      match search prefix ext name with
      | Some g =>
          match py_int g with
          | Some n => n :: numbers prefix ext rest
          | None => numbers prefix ext rest
          end
      | None => numbers prefix ext rest
      end
  end.

(** [max(nums) + 1 if nums else 1] *)
Definition next_number (nums : list Z) : Z :=
  match nums with
  | [] => 1
  | n :: ns => fold_left Z.max ns n + 1
  end.

(** The name built from the prefix, the number and the extension. *)
Definition seq_name (prefix : string) (n : Z) (ext : string) : string :=
  prefix +:+ "-" +:+ pretty n +:+ ext.

(** [os.path.join(a, b)] on a POSIX system. *)
Definition path_join (a b : string) : string :=
  if startswith "/" b then b
  else if negb (truthy a) then b
  else match String.get (String.length a - 1) a with
       | Some c => if Ascii.eqb c "/" then a +:+ b else a +:+ "/" +:+ b
       | None => a +:+ "/" +:+ b
       end.

(** [next_seq_file], given the names [os.listdir(directory)] returns. *)
Definition next_seq_file (existing : list string) (directory prefix ext : string)
  : string :=
  path_join directory (seq_name prefix (next_number (numbers prefix ext existing)) ext).

End SeqFile.

(** ** Regular expressions *)

(** A pattern of [re], as the backtracking matcher runs it: at a
    position it yields the ways to match there, each with the text it
    takes and the text it leaves, in the order the matcher tries them. *)
Module Regex.
Import PyStr.

Definition matcher : Type := string -> list (string * string).

(** One character of a class. *)
Definition cls (p : ascii -> bool) : matcher := fun s =>
  match s with
  | String c r => if p c then [(String c EmptyString, r)] else []
  | EmptyString => []
  end.

(** A literal character. *)
Definition lit (x : ascii) : matcher := cls (Ascii.eqb x).

(** A literal character under [re.I], and a word of them. *)
Definition lit_i (x : ascii) : matcher :=
  cls (fun c => Ascii.eqb (lower_char c) (lower_char x)).

(** A class repeated [lo] to [hi] times, without bound for [None];
    greedy: the longer takes come first. *)
Fixpoint rep (p : ascii -> bool) (lo : nat) (hi : option nat) (s : string)
  : list (string * string) :=
  let stop := if (lo =? 0)%nat then [(EmptyString, s)] else [] in
  match s with
  | String c r =>
      if p c && match hi with Some O => false | _ => true end
      then map (fun gr => (String c (fst gr), snd gr))
               (rep p (Nat.pred lo) (Nat.pred <$> hi) r) ++ stop
      else stop
  | EmptyString => stop
  end.

(** One pattern after another. *)
Definition seq (a b : matcher) : matcher := fun s =>
  flat_map (fun gr => map (fun gr' => (fst gr +:+ fst gr', snd gr')) (b (snd gr))) (a s).

(** [a] and then the group [b], of which alone the text is kept. *)
Definition before_group (a b : matcher) : matcher := fun s =>
  flat_map (fun gr => b (snd gr)) (a s).

(** [(?:a)?] *)
Definition opt (a : matcher) : matcher := fun s => a s ++ [(EmptyString, s)].

(** [a|b] *)
Definition alt (a b : matcher) : matcher := fun s => a s ++ b s.

Fixpoint word_i (w : string) : matcher :=
  match w with
  | EmptyString => fun s => [(EmptyString, s)]
  | String x w' => seq (lit_i x) (word_i w')
  end.

(** [search]: the text of the first way to match at the leftmost
    position that has one. *)
Fixpoint search (m : matcher) (s : string) : option string :=
  match m s with
  | gr :: _ => Some (fst gr)
  | [] =>
      match s with
      | String _ r => search m r
      | EmptyString => None
      end
  end.

End Regex.

(** The patterns of qr_crawler.py and the fields [fetch_url] takes from
    the text of a page with them. *)
Module QrFields.
Import PyStr Regex.

Definition digits2 : matcher := rep isdecimal 2 (Some 2%nat).

(** [(\d{3,44})] *)
Definition NUMERO_RE : matcher := rep isdecimal 3 (Some 44%nat).

(** [(\d{2}/\d{2}/\d{4}(?:\s+\d{2}:\d{2}(?::\d{2})?)?)] *)
Definition EMISSAO_RE : matcher :=
  seq digits2 (seq (lit "/") (seq digits2 (seq (lit "/")
    (seq (rep isdecimal 4 (Some 4%nat))
         (opt (seq (rep isspace 1 None)
                   (seq digits2 (seq (lit ":")
                     (seq digits2 (opt (seq (lit ":") digits2))))))))))).

(** [[0-9\.,]] and [[.,]] *)
Definition valor_char (c : ascii) : bool :=
  isdecimal c || Ascii.eqb c "." || Ascii.eqb c ",".

Definition separator (c : ascii) : bool := Ascii.eqb c "." || Ascii.eqb c ",".

(** [R\$\s*([0-9\.,]+)|([0-9]{1,3}(?:[.,][0-9]{2}))]; the text of a
    match is that of the group that took part,
    [mval.group(1) or mval.group(2)]. *)
Definition VALOR_RE : matcher :=
  alt (before_group (seq (lit "R") (seq (lit "$") (rep isspace 0 None)))
                    (rep valor_char 1 None))
      (seq (rep isdecimal 1 (Some 3%nat)) (seq (cls separator) digits2)).

(** What is written into [out['numero']], [out['emissao']] and
    [out['valor_pagar']]; a field without a match keeps the empty string
    it was created with. *)
Definition numero_of (page_text : string) : string :=
  default EmptyString (search NUMERO_RE page_text).

Definition emissao_of (page_text : string) : string :=
  default EmptyString (search EMISSAO_RE page_text).

Definition valor_of (page_text : string) : string :=
  match search VALOR_RE page_text with
  | Some g => strip g
  | None => EmptyString
  end.

End QrFields.

(** The patterns of crawler.py, all compiled with [re.I], and the two
    fields [fetch_url] takes from the text of a page with them alone. *)
Module CrawlerFields.
Import PyStr Regex.

Definition nbsp : ascii := ascii_of_N 160.
Definition u_acute : ascii := ascii_of_N 250.
Definition a_tilde : ascii := ascii_of_N 227.

(** [\s*[:\u00A0]?\s*] *)
Definition gap : matcher :=
  seq (rep isspace 0 None)
      (seq (opt (cls (fun c => Ascii.eqb c ":" || Ascii.eqb c nbsp)))
           (rep isspace 0 None)).

(** [N[uú]mero\s*[:\u00A0]?\s*(\d+)] *)
Definition NUMERO_RE : matcher :=
  before_group
    (seq (lit_i "N")
         (seq (cls (fun c => Ascii.eqb (lower_char c) "u"
                             || Ascii.eqb (lower_char c) u_acute))
              (seq (word_i "mero") gap)))
    (rep isdecimal 1 None).

(** [Emiss(?:ão|ao)\s*[:\u00A0]?\s*([0-9]{2}/[0-9]{2}/[0-9]{4}\s+[0-9]{2}:[0-9]{2}:[0-9]{2})] *)
Definition EMISSAO_RE : matcher :=
  before_group
    (seq (word_i "Emiss")
         (seq (alt (seq (lit_i a_tilde) (lit_i "o")) (word_i "ao")) gap))
    (seq QrFields.digits2 (seq (lit "/") (seq QrFields.digits2 (seq (lit "/")
      (seq (rep isdecimal 4 (Some 4%nat))
           (seq (rep isspace 1 None)
                (seq QrFields.digits2 (seq (lit ":")
                  (seq QrFields.digits2 (seq (lit ":") QrFields.digits2)))))))))).

Definition numero_of (page_text : string) : string :=
  default EmptyString (search NUMERO_RE page_text).

Definition emissao_of (page_text : string) : string :=
  default EmptyString (search EMISSAO_RE page_text).

End CrawlerFields.

(** ** Vocabulary of the statements *)

(** Whether a string begins with a decimal digit. *)
Definition starts_with_digit (s : string) : bool :=
  match s with
  | String c _ => PyStr.isdecimal c
  | EmptyString => false
  end.

(** The string both normalizers hand to [int()]: the digit run without
    its leading zeros, or ["0"] when nothing is left. *)
Definition stripped_run (g : string) : string :=
  if PyStr.truthy (PyStr.lstrip_char "0" g) then PyStr.lstrip_char "0" g else "0".

(** [best] is the nearest candidate of [rs] to [t], at distance [d]: it
    has a number at distance [d], every candidate before it is strictly
    farther, and no candidate after it is nearer. *)
Definition nearest_candidate {Row : Type} (num : Row -> option Z) (t : Z)
           (rs : list Row) (best : Row) (d : Z) : Prop :=
  exists (pre post : list Row) (n : Z),
    rs = pre ++ best :: post
    /\ num best = Some n
    /\ d = Z.abs (n - t)
    /\ (forall x m, In x pre -> num x = Some m -> d < Z.abs (m - t))
    /\ (forall x m, In x post -> num x = Some m -> d <= Z.abs (m - t)).

(** [best] is the first candidate of [rs] whose number is [t]. *)
Definition first_exact {Row : Type} (num : Row -> option Z) (t : Z)
           (rs : list Row) (best : Row) : Prop :=
  exists pre post : list Row,
    rs = pre ++ best :: post
    /\ num best = Some t
    /\ (forall x, In x pre -> num x <> Some t).

(** The state of the nearest-candidate loop after the candidates
    [seen]. *)
Definition loop_inv {Row : Type} (num : Row -> option Z) (t : Z)
           (seen : list Row) (st : option (Row * Z)) : Prop :=
  match st with
  | None => forall x, In x seen -> num x = None
  | Some (best, bd) => nearest_candidate num t seen best bd
  end.

(** The number [find_best] compares a candidate by. *)
Definition candidate_number (r : csv_row) : option Z :=
  ComparePlanilha.normalize_num (row_get r "numero").

(** A line of the table of results. *)
Definition result_line (numero emissao valor_pagar : string) : csv_row :=
  [("numero", Some numero); ("emissao", Some emissao); ("valor_pagar", Some valor_pagar)].

(** The hour [classify] reads from an issuance string: the two digits
    before the first colon that stands between two pairs of digits. *)
Definition emissao_hour (e : string) : option Z :=
  match ComparePlanilha.search_hh_mm e with
  | Some g => PyStr.py_int g
  | None => None
  end.

(** The labels a classification can be. *)
Definition labels : list string :=
  [SEM_VALOR; HOTEL; ALMOCO; JANTA; ALMOCO_unknown; OUTRO].

(** A directive that reads no part of the time of day. *)
Definition dateless (d : Strptime.directive) : bool :=
  match d with
  | Strptime.DHour | Strptime.DMinute | Strptime.DSecond => false
  | _ => true
  end.

(** What both currency parsers do before they look at separators: the
    string is stripped, then its double quotes and its spaces are
    deleted. *)
Definition cleaned (s : string) : string :=
  PyStr.remove_char " " (PyStr.remove_char PyStr.dquote (PyStr.strip s)).

(** A number is a float, and a sum or a difference is exact: rounding
    it to binary64 leaves it as it is. *)
Definition representable (q : Q) : Prop :=
  exists r : Q, Binary64.round q = PFin r /\ (r == q)%Q.

(** The same as a test. *)
Definition representableb (q : Q) : bool :=
  match Binary64.round q with
  | PFin r => Qeq_bool r q
  | _ => false
  end.

(** The float a number of the Standard Library's specification of
    binary64 denotes, and what it is to agree with that specification
    on a sum. *)
Definition of_spec_float (x : SpecFloat.spec_float) : pyfloat :=
  match x with
  | SpecFloat.S754_zero _ => PFin 0
  | SpecFloat.S754_infinity s => if s then PNegInf else PInf
  | SpecFloat.S754_nan => PNan
  | SpecFloat.S754_finite s m e =>
      PFin (Qred ((if s then - 1 else 1) * inject_Z (Zpos m) * Binary64.pow2 e))
  end.

Definition sum_agrees (x y : SpecFloat.spec_float) : Prop :=
  of_spec_float (SpecFloat.SFadd 53 1024 x y)
  = Binary64.add (of_spec_float x) (of_spec_float y).

(** Nothing is rounded in a reservation made at the clock reading [now]
    for a host whose last instant is [last]: the reading is a float, the
    instant is finite, its sum with the delay is exact and so is, when
    the sum lies ahead, the time left until it. *)
Definition exact_reservation (d now : Q) (last : pyfloat) : Prop :=
  match last with
  | PFin l =>
      representable now /\ representable (l + d)
      /\ ((now < l + d)%Q -> representable (l + d - now))
  | _ => False
  end.

(** Every reservation a run makes for [host] satisfies [P], which is
    about the clock it reads and the last instant of the host. *)
Fixpoint run_where (P : Q -> pyfloat -> Prop)
         (step : string -> Q -> gmap string pyfloat -> pyfloat * gmap string pyfloat)
         (host : string) (reqs : list (string * Q))
         (reg : gmap string pyfloat) : Prop :=
  match reqs with
  | [] => True
  | (h, now) :: reqs' =>
      (h = host -> P now (Throttle.last_of reg h))
      /\ run_where P step host reqs' (snd (step h now reg))
  end.

(** Nothing is rounded in the reservations a run makes for [host]. *)
Definition exact_run
           (step : string -> Q -> gmap string pyfloat -> pyfloat * gmap string pyfloat)
           (d : Q) : string -> list (string * Q) -> gmap string pyfloat -> Prop :=
  run_where (exact_reservation d) step.

(** A reservation stays below 2^k: the clock reading and the last
    instant of the host are not negative, and the reading and the sum
    of the instant and the delay are below 2^k. *)
Definition bounded_reservation (d : Q) (k : Z) (now : Q) (last : pyfloat) : Prop :=
  match last with
  | PFin l =>
      (0 <= now)%Q /\ (now < Binary64.pow2 k)%Q
      /\ (0 <= l)%Q /\ (l + d < Binary64.pow2 k)%Q
  | _ => False
  end.

(** The reservations a run makes for [host] stay below 2^k. *)
Definition bounded_run
           (step : string -> Q -> gmap string pyfloat -> pyfloat * gmap string pyfloat)
           (d : Q) (k : Z) : string -> list (string * Q) -> gmap string pyfloat -> Prop :=
  run_where (bounded_reservation d k) step.

(** What rounding can take from or add to a sum or a difference that is
    below 2^(k+1) in magnitude: half a unit in the last place there. *)
Definition rounding_error (k : Z) : Q := Binary64.pow2 (k - 53).

(** Two instants are finite and the second lies [d] or more after the
    first. *)
Definition apart (d : Q) (ti tj : pyfloat) : Prop :=
  match ti, tj with
  | PFin a, PFin b => (a + d <= b)%Q
  | _, _ => False
  end.

(** A character of a plain host name: none of the delimiters of a URL or
    of its network location, and none of the characters the parser
    deletes. *)
Definition host_char (c : ascii) : bool :=
  negb (Urllib.netloc_end c || Urllib.unsafe c
        || Ascii.eqb c "@" || Ascii.eqb c ":" || Ascii.eqb c "["
        || Ascii.eqb c "]" || Ascii.eqb c "%").

(** What may follow the host in a target: nothing, or a path, a query or
    a fragment. *)
Definition path_like (rest : string) : bool :=
  match rest with
  | EmptyString => true
  | String c _ => Urllib.netloc_end c
  end.

(** What the comparison promises about its rows, for the reference rows
    [comps] and the table of results [resultados]: the run ends with one
    row per reference row, in the same order; the row at a position is
    the one computed from the reference row at that position; it keeps
    every field of the reference row whose name is not one of the added
    columns, holds every added column, and holds nothing else; and the
    lines written are these rows laid out along the header. *)
Definition rows_follow_references (comps resultados : list csv_row) : Prop :=
  exists out_rows : list ComparePlanilha.out_row,
    ComparePlanilha.compare_loop resultados comps [] = Ok out_rows
    /\ length out_rows = length comps
    /\ (forall (i : nat) (c : csv_row),
           comps !! i = Some c ->
           exists out : ComparePlanilha.out_row,
             out_rows !! i = Some out
             /\ ComparePlanilha.compare_row resultados c = Ok out
             /\ (forall k, ~ In k ComparePlanilha.extra_columns ->
                           PyDict.get out k = ComparePlanilha.of_field <$> PyDict.get c k)
             /\ (forall k, In k ComparePlanilha.extra_columns ->
                           is_Some (PyDict.get out k))
             /\ (forall k, is_Some (PyDict.get out k) ->
                           is_Some (PyDict.get c k)
                           \/ In k ComparePlanilha.extra_columns)
             /\ (forall (p : nat) (k : string),
                    ComparePlanilha.header comps !! p = Some k ->
                    ~ In k ComparePlanilha.extra_columns ->
                    ComparePlanilha.written_row (ComparePlanilha.header comps) out !! p
                    = Some (match PyDict.get c k with
                            | Some v => ComparePlanilha.of_field v
                            | None => ComparePlanilha.VStr EmptyString
                            end)))
    /\ ComparePlanilha.main comps resultados
       = Ok (map (ComparePlanilha.written_row (ComparePlanilha.header comps)) out_rows).

(** The first occurrence of each element, in order. *)
Fixpoint first_occurrences (l : list string) : list string :=
  match l with
  | [] => []
  | x :: l' => x :: filter (fun y => y <> x) (first_occurrences l')
  end.

(** What a matcher may return for the target [target], the candidates
    [rs] and the tolerance [maxdiff]: nothing at all, or a candidate of the
    list together with the distance of its number to the target, the
    number being the target itself or within the tolerance. *)
Definition sound_match {Row : Type} (num : Row -> option Z) (target : option Z)
           (rs : list Row) (maxdiff : Z) (res : option Row * option Z) : Prop :=
  res = (None, None)
  \/ exists (row : Row) (t n : Z),
      target = Some t /\ In row rs /\ num row = Some n
      /\ res = (Some row, Some (Z.abs (n - t)))
      /\ (n = t \/ Z.abs (n - t) <= maxdiff).

(** A character no numeral accepted by [float()] contains: not a blank,
    a digit, a sign, a dot, an underscore or an exponent mark, and not a
    letter of [inf], [infinity] or [nan] in either case. *)
Definition outside_numerals (x : ascii) : bool :=
  negb (PyStr.isspace x || PyStr.isdecimal x
        || PyStr.contains_char x "+-._eE"
        || PyStr.contains_char (PyStr.lower_char x) "infinityan").

(** The five columns the comparison adds hold these values in the row
    [out]. *)
Definition added_columns (out : ComparePlanilha.out_row)
           (classificacao : string) (matched_num matched_valor matched_emissao : ComparePlanilha.pyval)
           (observacao : string) : Prop :=
  PyDict.get out "classificacao" = Some (ComparePlanilha.VStr classificacao)
  /\ PyDict.get out "matched_num" = Some matched_num
  /\ PyDict.get out "matched_valor" = Some matched_valor
  /\ PyDict.get out "matched_emissao" = Some matched_emissao
  /\ PyDict.get out "observacao" = Some (ComparePlanilha.VStr observacao).

(** The row of a reference without a match. *)
Definition not_found_row (out : ComparePlanilha.out_row) : Prop :=
  added_columns out NAO_ENCONTRADO (ComparePlanilha.VStr EmptyString)
                (ComparePlanilha.VStr EmptyString) (ComparePlanilha.VStr EmptyString)
                NAO_ENCONTRADO.

(** The number of a matched row as [main] writes it: a number 0 is
    written as the empty string. *)
Definition written_number (n : Z) : string :=
  if n =? 0 then EmptyString else pretty n.

(** No field of the page was written into the result. *)
Definition nothing_extracted (o : fetch_result) : Prop :=
  numero o = EmptyString /\ emissao o = EmptyString /\ valor_pagar o = EmptyString
  /\ title o = EmptyString /\ emails o = EmptyString.

(** A result that records a failure: the message, and nothing of a
    response or of a page. *)
Definition failure_result (url message : string) (o : fetch_result) : Prop :=
  orig_url o = url /\ error o = message /\ status_code o = None
  /\ final_url o = EmptyString /\ nothing_extracted o.

(** A result that records a response whose body was not parsed. *)
Definition unparsed_result (url : string) (r : response) (o : fetch_result) : Prop :=
  orig_url o = url /\ error o = EmptyString /\ status_code o = Some (resp_status r)
  /\ final_url o = resp_url r /\ nothing_extracted o.

(** A URL as both [normalize_url] leave it: empty, or with one of the
    three schemes in front. *)
Definition has_scheme (u : string) : Prop :=
  PyStr.startswith "file://" u = true
  \/ PyStr.startswith "http://" u = true
  \/ PyStr.startswith "https://" u = true.

(** A date of ten characters, white space, and a time of day that
    begins with the two digits [hh] and a colon. *)
Definition timed (g hh : string) : Prop :=
  exists date ws rest,
    g = date +:+ ws +:+ hh +:+ ":" +:+ rest
    /\ String.length date = 10%nat
    /\ ws <> EmptyString /\ PyStr.all_chars PyStr.isspace ws = true
    /\ String.length hh = 2%nat /\ PyStr.all_chars PyStr.isdecimal hh = true.

(** The markers [normalize_url] looks for in a target. *)
Definition scheme_markers : list string := ["http://"; "https://"; "file://"].

(** [normalize_url] cuts nothing off the target: none of the markers is
    first found, whatever the case of its letters, at an index above
    0. *)
Definition uncut (target : string) : Prop :=
  forall m i, In m scheme_markers -> PyStr.find m (PyStr.lower target) <> Some (S i).

(** A character of the user information of a network location. *)
Definition userinfo_char (c : ascii) : bool :=
  negb (Urllib.netloc_end c || PyStr.isspace c
        || Ascii.eqb c "@" || Ascii.eqb c "[" || Ascii.eqb c "]").

(** The network location [userinfo@host:port], of which the user
    information and the port may be missing. *)
Definition authority (userinfo : option string) (host : string) (port : option string)
  : string :=
  match userinfo with Some u => u +:+ "@" | None => EmptyString end
  +:+ host
  +:+ match port with Some p => ":" +:+ p | None => EmptyString end.

Definition network_target (scheme : string) (userinfo : option string) (host : string)
           (port : option string) (rest : string) : string :=
  scheme +:+ "://" +:+ authority userinfo host port +:+ rest.

(** A well-formed network target: the scheme http or https in lower
    case, a network location with a non-empty host name, then nothing or
    a path, a query or a fragment; no white space anywhere. *)
Definition well_formed (scheme : string) (userinfo : option string) (host : string)
           (port : option string) (rest : string) : Prop :=
  (scheme = "http" \/ scheme = "https")
  /\ (forall u, userinfo = Some u -> PyStr.all_chars userinfo_char u = true)
  /\ PyStr.all_chars host_char host = true
  /\ PyStr.any_char PyStr.isspace host = false
  /\ host <> EmptyString
  /\ (forall p, port = Some p -> PyStr.all_chars PyStr.isdecimal p = true)
  /\ path_like rest = true
  /\ PyStr.any_char PyStr.isspace rest = false.

(** * Properties *)

(** ** Strings and numerals *)

Section StringFacts.
Import PyStr.

Lemma isdecimal_not_space c : isdecimal c = true -> isspace c = false.
Proof.
  unfold isdecimal, isspace. generalize (code c). intros n H.
  apply andb_true_iff in H as [H1 H2].
  apply N.leb_le in H1. apply N.leb_le in H2.
  rewrite !orb_false_iff, !andb_false_iff, !N.leb_gt, !N.eqb_neq. lia.
Qed.

Lemma digit_value_range c : isdecimal c = true -> 0 <= digit_value c <= 9.
Proof.
  unfold isdecimal, digit_value. generalize (code c). intros n H.
  apply andb_true_iff in H as [H1 H2].
  apply N.leb_le in H1. apply N.leb_le in H2. lia.
Qed.

Lemma search_digit_run_none s :
  any_char isdecimal s = false <-> search_digit_run s = None.
Proof.
  induction s as [|c r IH]; simpl; [tauto|].
  destruct (isdecimal c); simpl; [split; discriminate | exact IH].
Qed.

Lemma span_digits_run run post :
  all_chars isdecimal run = true ->
  starts_with_digit post = false ->
  span_digits (run +:+ post) = (run, post).
Proof.
  induction run as [|c r IH]; simpl; intros Hrun Hpost.
  - destruct post as [|p post']; [reflexivity|].
    simpl in *. now rewrite Hpost.
  - apply andb_true_iff in Hrun as [-> Hr]. now rewrite IH.
Qed.

Lemma search_digit_run_first pre run post :
  any_char isdecimal pre = false ->
  run <> EmptyString ->
  all_chars isdecimal run = true ->
  starts_with_digit post = false ->
  search_digit_run (pre +:+ run +:+ post) = Some run.
Proof.
  intros Hpre Hne Hrun Hpost.
  induction pre as [|c r IH]; simpl in *.
  - destruct run as [|d run']; [congruence|].
    pose proof (span_digits_run _ _ Hrun Hpost) as Hs.
    simpl in Hrun. apply andb_true_iff in Hrun as [Hd _].
    change (search_digit_run (String d (run' +:+ post)) = Some (String d run')).
    change (span_digits (String d (run' +:+ post)) = (String d run', post)) in Hs.
    unfold search_digit_run. rewrite Hd, Hs. reflexivity.
  - apply orb_false_iff in Hpre as [-> Hr]. auto.
Qed.

Lemma search_digit_run_digits s g :
  search_digit_run s = Some g -> all_chars isdecimal g = true /\ g <> EmptyString.
Proof.
  assert (Hspan : forall t, all_chars isdecimal (fst (span_digits t)) = true).
  { induction t as [|c r IH]; simpl; [reflexivity|].
    destruct (isdecimal c) eqn:Hc; [|reflexivity].
    destruct (span_digits r); simpl in *. now rewrite Hc. }
  induction s as [|c r IH]; simpl; [discriminate|].
  destruct (isdecimal c) eqn:Hc; [|exact IH].
  intros [= <-]. split; [|destruct (span_digits r); discriminate].
  specialize (Hspan (String c r)). simpl in Hspan. now rewrite Hc in Hspan.
Qed.

Lemma lstrip_digits g : all_chars isdecimal g = true -> lstrip g = g.
Proof.
  destruct g as [|c r]; simpl; [reflexivity|].
  intros H. apply andb_true_iff in H as [Hc _].
  now rewrite (isdecimal_not_space _ Hc).
Qed.

Lemma rstrip_digits g : all_chars isdecimal g = true -> rstrip g = g.
Proof.
  induction g as [|c r IH]; simpl; [reflexivity|].
  intros H. apply andb_true_iff in H as [Hc Hr].
  rewrite (IH Hr). destruct r; [|reflexivity].
  now rewrite (isdecimal_not_space _ Hc).
Qed.

Lemma digitpart_tail_digits g :
  all_chars isdecimal g = true -> digitpart_tail g = (g, EmptyString).
Proof.
  induction g as [|c r IH]; simpl; [reflexivity|].
  intros H. apply andb_true_iff in H as [-> Hr]. now rewrite (IH Hr).
Qed.

Lemma isdecimal_not_sign c :
  isdecimal c = true -> c <> "+"%char /\ c <> "-"%char.
Proof. intros H. split; intros ->; discriminate. Qed.

(** [int()] of a non-empty string of digits is the value of the
    digits: the conversions of the normalizers never raise. *)
Lemma py_int_digits g :
  all_chars isdecimal g = true -> g <> EmptyString ->
  py_int g = Some (digits_value g).
Proof.
  intros Hg Hne. unfold py_int, strip.
  rewrite (rstrip_digits _ Hg), (lstrip_digits _ Hg).
  destruct g as [|c r]; [congruence|].
  pose proof Hg as Hg'. simpl in Hg'. apply andb_true_iff in Hg' as [Hc Hr].
  destruct (isdecimal_not_sign _ Hc) as [Hp Hm].
  assert (Hsign : split_sign (String c r) = (false, String c r)).
  { unfold split_sign.
    destruct c as [[] [] [] [] [] [] [] []]; try reflexivity; congruence. }
  rewrite Hsign. unfold digitpart. rewrite Hc.
  now rewrite (digitpart_tail_digits _ Hr).
Qed.

Lemma lstrip_zero_digits g :
  all_chars isdecimal g = true -> all_chars isdecimal (lstrip_char "0" g) = true.
Proof.
  induction g as [|c r IH]; simpl; [reflexivity|].
  intros H. destruct (Ascii.eqb c "0"); [|exact H].
  apply andb_true_iff in H as [_ Hr]. auto.
Qed.

Lemma lstrip_zero_value g : digits_value (lstrip_char "0" g) = digits_value g.
Proof.
  unfold digits_value. induction g as [|c r IH]; simpl; [reflexivity|].
  destruct (Ascii.eqb_spec c "0") as [->|]; [|reflexivity].
  rewrite IH. reflexivity.
Qed.

Lemma lstrip_zero_empty g :
  lstrip_char "0" g = EmptyString -> digits_value g = 0.
Proof. intros H. rewrite <- lstrip_zero_value, H. reflexivity. Qed.

Lemma lstrip_zero_head g c r :
  lstrip_char "0" g = String c r -> c <> "0"%char.
Proof.
  induction g as [|d g' IH]; simpl; [discriminate|].
  destruct (Ascii.eqb_spec d "0") as [->|Hd]; [exact IH|].
  intros [= <- _]. exact Hd.
Qed.

Lemma digits_acc_nonneg g acc :
  all_chars isdecimal g = true -> 0 <= acc -> 0 <= digits_acc acc g.
Proof.
  revert acc. induction g as [|c r IH]; simpl; intros acc H Hacc; [exact Hacc|].
  apply andb_true_iff in H as [Hc Hr].
  apply IH; [exact Hr|]. pose proof (digit_value_range _ Hc). lia.
Qed.

Lemma digits_value_nonneg g : all_chars isdecimal g = true -> 0 <= digits_value g.
Proof. intros H. apply digits_acc_nonneg; [exact H | lia]. Qed.

Lemma stripped_run_int g :
  all_chars isdecimal g = true -> g <> EmptyString ->
  py_int (stripped_run g) = Some (digits_value g).
Proof.
  intros Hg Hne. unfold stripped_run.
  destruct (lstrip_char "0" g) as [|c r] eqn:Hl; simpl.
  - rewrite (lstrip_zero_empty _ Hl). reflexivity.
  - rewrite <- Hl, py_int_digits.
    + now rewrite lstrip_zero_value.
    + now apply lstrip_zero_digits.
    + rewrite Hl. discriminate.
Qed.

End StringFacts.

(** ** The normalizers of document numbers *)

Section NormFacts.
Import PyStr.

Lemma space_not_decimal c : isspace c = true -> isdecimal c = false.
Proof.
  intros H. destruct (isdecimal c) eqn:Hc; [|reflexivity].
  rewrite (isdecimal_not_space _ Hc) in H. discriminate.
Qed.

Lemma search_digit_run_lstrip s : search_digit_run (lstrip s) = search_digit_run s.
Proof.
  induction s as [|c r IH]; simpl; [reflexivity|].
  destruct (isspace c) eqn:Hc; [|reflexivity].
  now rewrite (space_not_decimal _ Hc).
Qed.

Lemma rstrip_empty s : rstrip s = EmptyString -> all_chars isspace s = true.
Proof.
  induction s as [|c r IH]; simpl; [reflexivity|].
  destruct (rstrip r) eqn:Hr; [|discriminate].
  destruct (isspace c); [auto | discriminate].
Qed.

Lemma span_digits_spaces s :
  all_chars isspace s = true -> fst (span_digits s) = EmptyString.
Proof.
  destruct s as [|c r]; simpl; [reflexivity|].
  intros H. apply andb_true_iff in H as [Hc _].
  now rewrite (space_not_decimal _ Hc).
Qed.

Lemma search_digit_run_spaces s :
  all_chars isspace s = true -> search_digit_run s = None.
Proof.
  induction s as [|c r IH]; simpl; [reflexivity|].
  intros H. apply andb_true_iff in H as [Hc Hr].
  now rewrite (space_not_decimal _ Hc), IH.
Qed.

Lemma span_digits_cons c r :
  fst (span_digits (String c r))
  = if isdecimal c then String c (fst (span_digits r)) else EmptyString.
Proof. simpl. destruct (isdecimal c), (span_digits r); reflexivity. Qed.

Lemma span_digits_rstrip s : fst (span_digits (rstrip s)) = fst (span_digits s).
Proof.
  induction s as [|c r IH]; [reflexivity|].
  cbn [rstrip]. destruct (rstrip r) as [|c' r'] eqn:Hr.
  - pose proof (span_digits_spaces _ (rstrip_empty _ Hr)) as Hs.
    rewrite (span_digits_cons c r), Hs.
    destruct (isspace c) eqn:Hc.
    + now rewrite (space_not_decimal _ Hc).
    + now rewrite span_digits_cons.
  - now rewrite !(span_digits_cons c), IH.
Qed.

Lemma search_digit_run_rstrip s : search_digit_run (rstrip s) = search_digit_run s.
Proof.
  induction s as [|c r IH]; [reflexivity|].
  pose proof (span_digits_rstrip (String c r)) as Hs.
  cbn [rstrip] in *. destruct (rstrip r) as [|c' r'] eqn:Hr.
  - pose proof (search_digit_run_spaces _ (rstrip_empty _ Hr)) as Hn.
    destruct (isspace c) eqn:Hc.
    + simpl. now rewrite (space_not_decimal _ Hc), Hn.
    + cbn [search_digit_run] in *. destruct (isdecimal c); [now rewrite Hs|].
      now rewrite Hn.
  - cbn [search_digit_run] in *. destruct (isdecimal c); [now rewrite Hs|].
    exact IH.
Qed.

Lemma search_digit_run_strip s : search_digit_run (strip s) = search_digit_run s.
Proof.
  unfold strip. now rewrite search_digit_run_lstrip, search_digit_run_rstrip.
Qed.

(** Both normalizers return the value of the first digit run. *)
Lemma normalize_num_value s :
  ComparePlanilha.normalize_num (Some s) = digits_value <$> search_digit_run s.
Proof.
  unfold ComparePlanilha.normalize_num.
  destruct (search_digit_run s) as [g|] eqn:Hs; [|reflexivity].
  destruct (search_digit_run_digits _ _ Hs) as [Hg Hne].
  apply (stripped_run_int _ Hg Hne).
Qed.

Lemma normalize_num_for_compare_value s :
  MakePlanilha.normalize_num_for_compare (Some s) = digits_value <$> search_digit_run s.
Proof.
  unfold MakePlanilha.normalize_num_for_compare.
  rewrite <- (search_digit_run_strip s).
  destruct (String.eqb_spec (strip s) EmptyString) as [->|_]; [reflexivity|].
  destruct (search_digit_run (strip s)) as [g|] eqn:Hs; [|reflexivity].
  destruct (search_digit_run_digits _ _ Hs) as [Hg Hne].
  apply (stripped_run_int _ Hg Hne).
Qed.
End NormFacts.

Lemma stripped_run_zeros run :
  run <> EmptyString ->
  PyStr.all_chars (fun c => Ascii.eqb c "0") run = true ->
  stripped_run run = "0".
Proof.
  intros Hne Hz. unfold stripped_run.
  assert (H : PyStr.lstrip_char "0" run = EmptyString).
  { clear Hne. induction run as [|c r IH]; simpl in *; [reflexivity|].
    apply andb_true_iff in Hz as [-> Hr]. auto. }
  now rewrite H.
Qed.

Lemma stripped_run_canonical run :
  stripped_run run = "0" \/ PyStr.startswith "0" (stripped_run run) = false.
Proof.
  unfold stripped_run.
  destruct (PyStr.lstrip_char "0" run) as [|c r] eqn:Hl; [now left|].
  right. pose proof (lstrip_zero_head _ _ _ Hl) as Hc.
  cbn [PyStr.truthy PyStr.startswith].
  apply andb_false_iff. left. apply Ascii.eqb_neq. congruence.
Qed.

(** C5. Normalization of a document number, in [normalize_num] and in
    [normalize_num_for_compare] alike: a string without any decimal digit
    normalizes to absent; in a string [pre ++ run ++ post], where [pre]
    has no digit, [run] is a non-empty run of digits and [post] does not
    go on with a digit, the run is taken, its leading zeros are stripped
    (a run of zeros only becomes "0", and otherwise no leading zero is
    left) and the integer read from what remains is returned; a result is
    an integer that is never negative; "00123-X" normalizes to 123. *)
Theorem normalize_num_first_digit_run :
  (forall s : string,
      PyStr.any_char PyStr.isdecimal s = false ->
      ComparePlanilha.normalize_num (Some s) = None
      /\ MakePlanilha.normalize_num_for_compare (Some s) = None)
  /\ (forall pre run post : string,
         PyStr.any_char PyStr.isdecimal pre = false ->
         run <> EmptyString ->
         PyStr.all_chars PyStr.isdecimal run = true ->
         starts_with_digit post = false ->
         exists n : Z,
           PyStr.py_int (stripped_run run) = Some n
           /\ ComparePlanilha.normalize_num (Some (pre +:+ run +:+ post)) = Some n
           /\ MakePlanilha.normalize_num_for_compare (Some (pre +:+ run +:+ post)) = Some n
           /\ 0 <= n
           /\ (PyStr.all_chars (fun c => Ascii.eqb c "0") run = true ->
               stripped_run run = "0" /\ n = 0)
           /\ (stripped_run run = "0"
               \/ PyStr.startswith "0" (stripped_run run) = false))
  /\ (forall (s : string) (n : Z),
         ComparePlanilha.normalize_num (Some s) = Some n
         \/ MakePlanilha.normalize_num_for_compare (Some s) = Some n ->
         0 <= n)
  /\ ComparePlanilha.normalize_num (Some "00123-X") = Some 123
  /\ MakePlanilha.normalize_num_for_compare (Some "00123-X") = Some 123
  /\ ComparePlanilha.normalize_num None = None
  /\ MakePlanilha.normalize_num_for_compare None = None.
Proof.
  split; [|split; [|split]].
  - intros s Hs. apply search_digit_run_none in Hs.
    now rewrite normalize_num_value, normalize_num_for_compare_value, Hs.
  - intros pre run post Hpre Hne Hrun Hpost.
    exists (PyStr.digits_value run).
    rewrite normalize_num_value, normalize_num_for_compare_value.
    rewrite (search_digit_run_first _ _ _ Hpre Hne Hrun Hpost).
    repeat split.
    + now apply stripped_run_int.
    + now apply digits_value_nonneg.
    + now apply stripped_run_zeros.
    + pose proof (stripped_run_int _ Hrun Hne) as Hi.
      rewrite (stripped_run_zeros _ Hne H) in Hi.
      assert (H0 : PyStr.py_int "0" = Some 0) by reflexivity. congruence.
    + apply stripped_run_canonical.
  - intros s n H.
    rewrite normalize_num_value, normalize_num_for_compare_value in H.
    assert (Hn : PyStr.digits_value <$> PyStr.search_digit_run s = Some n) by tauto.
    destruct (PyStr.search_digit_run s) as [g|] eqn:Hs; [|discriminate].
    injection Hn as <-.
    apply digits_value_nonneg. now apply (search_digit_run_digits s).
  - repeat split; reflexivity.
Qed.

Lemma normalize_num_first_digit_run_witness :
  exists n : Z,
    PyStr.py_int (stripped_run "00123") = Some n
    /\ ComparePlanilha.normalize_num (Some ("NF " +:+ "00123" +:+ "-X")) = Some n
    /\ MakePlanilha.normalize_num_for_compare (Some ("NF " +:+ "00123" +:+ "-X")) = Some n
    /\ 0 <= n
    /\ (PyStr.all_chars (fun c => Ascii.eqb c "0") "00123" = true ->
        stripped_run "00123" = "0" /\ n = 0)
    /\ (stripped_run "00123" = "0"
        \/ PyStr.startswith "0" (stripped_run "00123") = false).
Proof.
  apply (proj1 (proj2 normalize_num_first_digit_run) "NF " "00123" "-X");
    [reflexivity | discriminate | reflexivity | reflexivity].
Defined.

(** ** The matcher *)

Section MatcherFacts.
Context {Row : Type}.
Variable num : Row -> option Z.

Lemma scan_exact_none t rs :
  (forall r, In r rs -> num r <> Some t) -> scan_exact num t rs = None.
Proof.
  induction rs as [|r rs IH]; simpl; intros H; [reflexivity|].
  destruct (num r) as [n|] eqn:Hn.
  - destruct (Z.eqb_spec n t) as [->|_].
    + exfalso. apply (H r); auto.
    + apply IH. intros x Hx. apply H. auto.
  - apply IH. intros x Hx. apply H. auto.
Qed.

Lemma scan_exact_first t rs :
  (exists r, In r rs /\ num r = Some t) ->
  exists best, first_exact num t rs best /\ scan_exact num t rs = Some best.
Proof.
  induction rs as [|r rs IH]; intros (x & Hx & Hnum); [destruct Hx|].
  destruct (num r) as [n|] eqn:Hn; [destruct (Z.eqb_spec n t) as [->|Hne]|].
  - exists r. split.
    + exists [], rs. repeat split; [exact Hn | intros ? []].
    + simpl. now rewrite Hn, Z.eqb_refl.
  - destruct IH as (best & (pre & post & -> & Hb & Hpre) & Hscan).
    { destruct Hx as [->|Hx]; [congruence | eauto]. }
    exists best. split.
    + exists (r :: pre), post. repeat split; [exact Hb|].
      intros y [<-|Hy]; [congruence | auto].
    + simpl. rewrite Hn. destruct (Z.eqb_spec n t); [contradiction | exact Hscan].
  - destruct IH as (best & (pre & post & -> & Hb & Hpre) & Hscan).
    { destruct Hx as [->|Hx]; [congruence | eauto]. }
    exists best. split.
    + exists (r :: pre), post. repeat split; [exact Hb|].
      intros y [<-|Hy]; [congruence | auto].
    + simpl. now rewrite Hn.
Qed.

Lemma nearest_step_inv t seen st r :
  loop_inv num t seen st -> loop_inv num t (seen ++ [r]) (nearest_step num t st r).
Proof.
  unfold nearest_step. intros Hinv.
  destruct (num r) as [n|] eqn:Hn.
  - destruct st as [[best bd]|]; simpl in *.
    + destruct Hinv as (pre & post & k & -> & Hk & -> & Hpre & Hpost).
      destruct (Z.ltb_spec (Z.abs (n - t)) (Z.abs (k - t))) as [Hlt|Hge].
      * exists (pre ++ best :: post), [], n. repeat split.
        -- exact Hn.
        -- intros x m Hx Hm. apply in_app_or in Hx as [Hx|[<-|Hx]].
           ++ specialize (Hpre _ _ Hx Hm). lia.
           ++ assert (m = k) by congruence. subst. lia.
           ++ specialize (Hpost _ _ Hx Hm). lia.
        -- intros ? ? [].
      * exists pre, (post ++ [r]), k. repeat split.
        -- now rewrite <- app_assoc.
        -- exact Hk.
        -- exact Hpre.
        -- intros x m Hx Hm. apply in_app_or in Hx as [Hx|[<-|[]]].
           ++ eauto.
           ++ assert (m = n) by congruence. subst. lia.
    + exists seen, [], n. repeat split.
      * exact Hn.
      * intros x m Hx Hm. rewrite (Hinv _ Hx) in Hm. discriminate.
      * intros ? ? [].
  - destruct st as [[best bd]|]; simpl in *.
    + destruct Hinv as (pre & post & k & -> & Hk & -> & Hpre & Hpost).
      exists pre, (post ++ [r]), k. repeat split.
      * now rewrite <- app_assoc.
      * exact Hk.
      * exact Hpre.
      * intros x m Hx Hm. apply in_app_or in Hx as [Hx|[<-|[]]]; [eauto | congruence].
    + intros x Hx. apply in_app_or in Hx as [Hx|[<-|[]]]; auto.
Qed.

Lemma nearest_loop_inv t rs seen st :
  loop_inv num t seen st ->
  loop_inv num t (seen ++ rs) (fold_left (nearest_step num t) rs st).
Proof.
  revert seen st. induction rs as [|r rs IH]; intros seen st Hinv; simpl.
  - now rewrite app_nil_r.
  - replace (seen ++ r :: rs) with ((seen ++ [r]) ++ rs) by now rewrite <- app_assoc.
    apply IH, nearest_step_inv, Hinv.
Qed.

Lemma scan_nearest_spec t rs :
  (exists r, In r rs /\ num r <> None) ->
  exists best d, scan_nearest num t rs = Some (best, d)
                 /\ nearest_candidate num t rs best d.
Proof.
  intros (r & Hr & Hnum).
  pose proof (nearest_loop_inv t rs [] None) as H. simpl in H.
  specialize (H (fun _ (F : False) => match F with end)).
  unfold scan_nearest. destruct (fold_left _ rs None) as [[best d]|].
  - eauto.
  - exfalso. apply Hnum. exact (H _ Hr).
Qed.

(** Without an exact match, the matcher returns the nearest candidate
    within the tolerance and nothing beyond it. *)
Lemma best_of_nearest t rs maxdiff :
  (forall r, In r rs -> num r <> Some t) ->
  (exists r, In r rs /\ num r <> None) ->
  exists best d,
    nearest_candidate num t rs best d
    /\ (d <= maxdiff -> best_of num (Some t) rs maxdiff = (Some best, Some d))
    /\ (maxdiff < d -> best_of num (Some t) rs maxdiff = (None, None)).
Proof.
  intros Hex Hdef.
  destruct (scan_nearest_spec t rs Hdef) as (best & d & Hscan & Hnear).
  exists best, d. unfold best_of.
  rewrite (scan_exact_none _ _ Hex), Hscan.
  repeat split; [exact Hnear | |]; intros Hd;
    destruct (Z.leb_spec d maxdiff); (reflexivity || lia).
Qed.

(** With an exact match, the matcher returns the first one at distance
    0, whatever the tolerance. *)
Lemma best_of_exact t rs maxdiff :
  (exists r, In r rs /\ num r = Some t) ->
  exists best,
    first_exact num t rs best
    /\ best_of num (Some t) rs maxdiff = (Some best, Some 0).
Proof.
  intros Hex. destruct (scan_exact_first t rs Hex) as (best & Hfirst & Hscan).
  exists best. split; [exact Hfirst|]. unfold best_of. now rewrite Hscan.
Qed.

End MatcherFacts.

(** C1. Approximate matching, in [find_best] and in [find_best_match]: for
    a defined target and candidates none of which has the target as its
    normalized number but one of which has a normalized number, there is a
    nearest candidate (ties go to the first in list order) at the minimum
    distance [d]; the matcher returns it with [d] whenever [d] is at most
    the tolerance, and returns (none, none) whenever [d] exceeds it.  The
    default tolerance is 5: a distance of 5 is accepted and a distance of
    6 is rejected. *)
Theorem matcher_nearest_within_tolerance :
  (forall (target maxdiff : Z) (resultados : list csv_row),
      (forall r, In r resultados -> candidate_number r <> Some target) ->
      (exists r, In r resultados /\ candidate_number r <> None) ->
      exists best d,
        nearest_candidate candidate_number target resultados best d
        /\ (d <= maxdiff ->
            ComparePlanilha.find_best (Some target) resultados maxdiff
            = (Some best, Some d))
        /\ (maxdiff < d ->
            ComparePlanilha.find_best (Some target) resultados maxdiff
            = (None, None)))
  /\ (forall (target max_diff : Z) (resultados : list MakePlanilha.resultado),
         (forall r, In r resultados -> MakePlanilha.numero r <> Some target) ->
         (exists r, In r resultados /\ MakePlanilha.numero r <> None) ->
         exists best d,
           nearest_candidate MakePlanilha.numero target resultados best d
           /\ (d <= max_diff ->
               MakePlanilha.find_best_match (Some target) resultados max_diff
               = (Some best, Some d))
           /\ (max_diff < d ->
               MakePlanilha.find_best_match (Some target) resultados max_diff
               = (None, None)))
  /\ default_tolerance = 5
  /\ (let r195 := result_line "195" "05/11/2025 12:30:00" "45,00" in
      let r194 := result_line "194" "05/11/2025 12:30:00" "45,00" in
      let r210 := result_line "210" "05/11/2025 12:30:00" "45,00" in
      ComparePlanilha.find_best (Some 200) [r195; r210] default_tolerance
      = (Some r195, Some 5)
      /\ ComparePlanilha.find_best (Some 200) [r194; r210] default_tolerance
         = (None, None)
      /\ MakePlanilha.find_best_match
           (Some 200) (map MakePlanilha.load_row [r195; r210]) default_tolerance
         = (Some (MakePlanilha.load_row r195), Some 5)
      /\ MakePlanilha.find_best_match
           (Some 200) (map MakePlanilha.load_row [r194; r210]) default_tolerance
         = (None, None)).
Proof.
  split; [|split; [|split; [reflexivity|]]].
  - intros target maxdiff resultados. apply best_of_nearest.
  - intros target max_diff resultados. apply best_of_nearest.
  - repeat split; vm_compute; reflexivity.
Qed.

Lemma matcher_nearest_within_tolerance_witness :
  exists best d,
    nearest_candidate candidate_number 200
      [result_line "195" "05/11/2025 12:30:00" "45,00"; result_line "210" "05/11/2025 12:30:00" "45,00"] best d
    /\ (d <= 5 ->
        ComparePlanilha.find_best (Some 200)
          [result_line "195" "05/11/2025 12:30:00" "45,00"; result_line "210" "05/11/2025 12:30:00" "45,00"] 5
        = (Some best, Some d))
    /\ (5 < d ->
        ComparePlanilha.find_best (Some 200)
          [result_line "195" "05/11/2025 12:30:00" "45,00"; result_line "210" "05/11/2025 12:30:00" "45,00"] 5
        = (None, None)).
Proof.
  apply (proj1 matcher_nearest_within_tolerance 200 5
           [result_line "195" "05/11/2025 12:30:00" "45,00"; result_line "210" "05/11/2025 12:30:00" "45,00"]).
  - intros r [<-|[<-|[]]]; vm_compute; discriminate.
  - exists (result_line "195" "05/11/2025 12:30:00" "45,00"). split; [left; reflexivity|].
    vm_compute. discriminate.
Defined.

(** C2. Exact matching, in [find_best] and in [find_best_match]: for a
    defined target and candidates one of which has the target as its
    normalized number, the matcher returns, at distance 0 and whatever the
    tolerance, the first such candidate in list order, whatever other
    candidates stand before or after it; with the numbers 100 and 101 and
    the target 101 the result is the candidate 101 at distance 0. *)
Theorem matcher_exact_first :
  (forall (target maxdiff : Z) (resultados : list csv_row),
      (exists r, In r resultados /\ candidate_number r = Some target) ->
      exists best,
        first_exact candidate_number target resultados best
        /\ ComparePlanilha.find_best (Some target) resultados maxdiff
           = (Some best, Some 0))
  /\ (forall (target max_diff : Z) (resultados : list MakePlanilha.resultado),
         (exists r, In r resultados /\ MakePlanilha.numero r = Some target) ->
         exists best,
           first_exact MakePlanilha.numero target resultados best
           /\ MakePlanilha.find_best_match (Some target) resultados max_diff
              = (Some best, Some 0))
  /\ (let r100 := result_line "100" "05/11/2025 12:30:00" "45,00" in
      let r101 := result_line "101" "05/11/2025 12:30:00" "45,00" in
      ComparePlanilha.find_best (Some 101) [r100; r101] default_tolerance
      = (Some r101, Some 0)
      /\ ComparePlanilha.find_best (Some 101) [r101; r100] default_tolerance
         = (Some r101, Some 0)
      /\ MakePlanilha.find_best_match
           (Some 101) (map MakePlanilha.load_row [r100; r101]) default_tolerance
         = (Some (MakePlanilha.load_row r101), Some 0)).
Proof.
  split; [|split].
  - intros target maxdiff resultados. apply best_of_exact.
  - intros target max_diff resultados. apply best_of_exact.
  - repeat split; vm_compute; reflexivity.
Qed.

Lemma matcher_exact_first_witness :
  exists best,
    first_exact candidate_number 101
      [result_line "100" "05/11/2025 12:30:00" "45,00"; result_line "101" "05/11/2025 12:30:00" "45,00"] best
    /\ ComparePlanilha.find_best (Some 101)
         [result_line "100" "05/11/2025 12:30:00" "45,00"; result_line "101" "05/11/2025 12:30:00" "45,00"] 5
       = (Some best, Some 0).
Proof.
  apply (proj1 matcher_exact_first 101 5
           [result_line "100" "05/11/2025 12:30:00" "45,00"; result_line "101" "05/11/2025 12:30:00" "45,00"]).
  exists (result_line "101" "05/11/2025 12:30:00" "45,00"). split; [right; left; reflexivity|].
  vm_compute. reflexivity.
Defined.

(** ** The classifier *)

Section ClassifyFacts.
Import PyStr.

Lemma Qle_bool_false x y : Qle_bool x y = false -> (y < x)%Q.
Proof.
  intros H. apply Qnot_le_lt. intros Hle.
  apply Qle_bool_iff in Hle. congruence.
Qed.

Lemma search_hh_mm_digits e g :
  ComparePlanilha.search_hh_mm e = Some g ->
  exists a b, g = String a (String b EmptyString)
              /\ isdecimal a = true /\ isdecimal b = true.
Proof.
  induction e as [|a r IH]; [discriminate|].
  cbn [ComparePlanilha.search_hh_mm].
  destruct r as [|b [|c [|d [|x r']]]]; try exact IH.
  destruct (isdecimal a) eqn:Ha; [|exact IH].
  destruct (isdecimal b) eqn:Hb; [|exact IH].
  cbn [andb].
  destruct (Ascii.eqb c ":" && isdecimal d && isdecimal x); [|exact IH].
  intros [= <-]. eauto.
Qed.

Lemma search_hh_mm_hour e g :
  ComparePlanilha.search_hh_mm e = Some g ->
  exists h, py_int g = Some h /\ 0 <= h <= 99.
Proof.
  intros H. destruct (search_hh_mm_digits _ _ H) as (a & b & -> & Ha & Hb).
  exists (digits_value (String a (String b EmptyString))). split.
  - apply py_int_digits; [simpl; now rewrite Ha, Hb | discriminate].
  - pose proof (digit_value_range _ Ha). pose proof (digit_value_range _ Hb).
    unfold digits_value. simpl. lia.
Qed.

Lemma emissao_hour_none e :
  emissao_hour e = None <-> ComparePlanilha.search_hh_mm e = None.
Proof.
  unfold emissao_hour. split; intros H; [|now rewrite H].
  destruct (ComparePlanilha.search_hh_mm e) as [g|] eqn:Hs; [|reflexivity].
  destruct (search_hh_mm_hour _ _ Hs) as (h & Hh & _). congruence.
Qed.

(** [classify] on an amount in the meal band. *)
Lemma classify_band q e :
  (inject_Z 40 <= q)%Q -> (q <= inject_Z 55)%Q ->
  ComparePlanilha.classify (Some (PFin q)) (Some e)
  = Ok match emissao_hour e with
       | None => ALMOCO_unknown
       | Some h => if h <? 16 then ALMOCO else JANTA
       end.
Proof.
  intros H40 H55. unfold ComparePlanilha.classify, PyFloat.gt_int, PyFloat.int_le, PyFloat.le_int.
  assert (H100 : Qle_bool q (inject_Z 100) = true).
  { apply Qle_bool_iff. apply Qle_trans with (inject_Z 55); [exact H55|].
    rewrite <- Zle_Qle. lia. }
  rewrite H100. apply Qle_bool_iff in H40, H55. rewrite H40, H55. cbn [negb andb].
  unfold emissao_hour.
  destruct (ComparePlanilha.search_hh_mm e) as [g|] eqn:Hs; [|reflexivity].
  destruct (search_hh_mm_hour _ _ Hs) as (h & -> & _). reflexivity.
Qed.

(** [classify_by_valor_emissao] on an amount in the meal band. *)
Lemma classify_by_valor_emissao_band q t :
  (inject_Z 40 <= q)%Q -> (q <= inject_Z 55)%Q ->
  MakePlanilha.classify_by_valor_emissao (Some (PFin q)) t
  = match t with
    | None => ALMOCO_unknown
    | Some t => if hour t <? 16 then ALMOCO else JANTA
    end.
Proof.
  intros H40 H55. unfold MakePlanilha.classify_by_valor_emissao.
  cbn [PyFloat.gt_int PyFloat.int_le PyFloat.le_int].
  assert (H100 : Qle_bool q (inject_Z 100) = true).
  { apply Qle_bool_iff. apply Qle_trans with (inject_Z 55); [exact H55|].
    rewrite <- Zle_Qle. lia. }
  rewrite H100. apply Qle_bool_iff in H40, H55. now rewrite H40, H55.
Qed.

Lemma digit_not_colon c : isdecimal c = true -> Ascii.eqb c ":" = false.
Proof. intros H. apply Ascii.eqb_neq. intros ->. discriminate. Qed.

Lemma space_not_colon c : isspace c = true -> Ascii.eqb c ":" = false.
Proof. intros H. apply Ascii.eqb_neq. intros ->. discriminate. Qed.

Lemma search_hh_mm_skip c r :
  isdecimal c = false ->
  ComparePlanilha.search_hh_mm (String c r) = ComparePlanilha.search_hh_mm r.
Proof.
  intros Hc. cbn [ComparePlanilha.search_hh_mm].
  destruct r as [|b [|x [|d [|y r']]]]; try reflexivity. now rewrite Hc.
Qed.

Lemma search_hh_mm_skip2 c b r :
  isdecimal b = false ->
  ComparePlanilha.search_hh_mm (String c (String b r))
  = ComparePlanilha.search_hh_mm (String b r).
Proof.
  intros Hb. cbn [ComparePlanilha.search_hh_mm].
  destruct r as [|x [|d [|y r']]]; try reflexivity.
  rewrite Hb, andb_false_r. reflexivity.
Qed.

Lemma search_hh_mm_skip3 c b x r :
  Ascii.eqb x ":" = false ->
  ComparePlanilha.search_hh_mm (String c (String b (String x r)))
  = ComparePlanilha.search_hh_mm (String b (String x r)).
Proof.
  intros Hx. cbn [ComparePlanilha.search_hh_mm].
  destruct r as [|d [|y r']]; try reflexivity.
  rewrite Hx, andb_false_r. reflexivity.
Qed.

Lemma search_hh_mm_spaces ws s :
  all_chars isspace ws = true ->
  ComparePlanilha.search_hh_mm (ws +:+ s) = ComparePlanilha.search_hh_mm s.
Proof.
  induction ws as [|c ws IH]; [reflexivity|].
  cbn [all_chars]. intros H. apply andb_true_iff in H as [Hc Hws].
  change (String c ws +:+ s) with (String c (ws +:+ s)).
  rewrite search_hh_mm_skip; [auto|]. now apply space_not_decimal.
Qed.

Lemma search_hh_mm_here a b c d r :
  isdecimal a = true -> isdecimal b = true -> isdecimal c = true -> isdecimal d = true ->
  ComparePlanilha.search_hh_mm
    (String a (String b (String ":" (String c (String d r)))))
  = Some (String a (String b EmptyString)).
Proof.
  intros Ha Hb Hc Hd. cbn [ComparePlanilha.search_hh_mm].
  now rewrite Ha, Hb, Hc, Hd.
Qed.

(** A date of two, two and four digits holds no hour: the search goes
    on behind it, provided what follows does not begin with a digit or
    a colon. *)
Lemma search_hh_mm_after_date a1 a2 b1 b2 y1 y2 y3 y4 tail :
  isdecimal y3 = true -> isdecimal y4 = true ->
  match tail with
  | String x _ => isdecimal x = false /\ Ascii.eqb x ":" = false
  | EmptyString => True
  end ->
  ComparePlanilha.search_hh_mm
    (String a1 (String a2 (String "/" (String b1 (String b2 (String "/"
       (String y1 (String y2 (String y3 (String y4 tail))))))))))
  = ComparePlanilha.search_hh_mm tail.
Proof.
  intros Hy3 Hy4 Htail.
  rewrite (search_hh_mm_skip3 a1 a2 "/") by reflexivity.
  rewrite (search_hh_mm_skip2 a2 "/") by reflexivity.
  rewrite (search_hh_mm_skip "/") by reflexivity.
  rewrite (search_hh_mm_skip3 b1 b2 "/") by reflexivity.
  rewrite (search_hh_mm_skip2 b2 "/") by reflexivity.
  rewrite (search_hh_mm_skip "/") by reflexivity.
  rewrite (search_hh_mm_skip3 y1 y2 y3) by now apply digit_not_colon.
  rewrite (search_hh_mm_skip3 y2 y3 y4) by now apply digit_not_colon.
  destruct tail as [|x tail]; [reflexivity|]. destruct Htail as [Hx1 Hx2].
  rewrite (search_hh_mm_skip3 y3 y4 x) by exact Hx2.
  rewrite (search_hh_mm_skip2 y4 x) by exact Hx1.
  reflexivity.
Qed.

(** A time of day written with one digit for the hour, after such a
    date and a space: the search finds the minutes and the seconds. *)
Lemma search_hh_mm_one_digit_hour a1 a2 b1 b2 y1 y2 y3 y4 h m1 m2 s1 s2 :
  isdecimal y3 = true -> isdecimal y4 = true ->
  isdecimal m1 = true -> isdecimal m2 = true ->
  isdecimal s1 = true -> isdecimal s2 = true ->
  ComparePlanilha.search_hh_mm
    (String a1 (String a2 (String "/" (String b1 (String b2 (String "/"
       (String y1 (String y2 (String y3 (String y4
          (String " " (String h (String ":" (String m1 (String m2
             (String ":" (String s1 (String s2 EmptyString))))))))))))))))))
  = Some (String m1 (String m2 EmptyString)).
Proof.
  intros Hy3 Hy4 Hm1 Hm2 Hs1 Hs2.
  rewrite search_hh_mm_after_date by (try assumption; split; reflexivity).
  rewrite (search_hh_mm_skip " ") by reflexivity.
  rewrite (search_hh_mm_skip2 h ":") by reflexivity.
  rewrite (search_hh_mm_skip ":") by reflexivity.
  now apply search_hh_mm_here.
Qed.

End ClassifyFacts.

(** C3. The decision table fails in [classify] of compare_planilha.py.
    An issuance whose hour is written with one digit is read wrongly:
    for 45.00 issued at "05/11/2025 9:30:00" [classify] answers JANTA,
    where [classify_by_valor_emissao] of make_planilha.py reads hour 9
    from the same string and answers ALMOCO; in every timestamp of that
    form [classify] takes the minutes for the hour.  And an issuance that
    is absent makes [classify] raise for an amount from 40 to 55, where
    [classify_by_valor_emissao] answers ALMOCO?. *)
Theorem classify_misreads_the_hour :
  ComparePlanilha.classify
    (ComparePlanilha.parse_currency (Some "45,00")) (Some "05/11/2025 9:30:00")
  = Ok JANTA
  /\ MakePlanilha.parse_result_emissao (Some "05/11/2025 9:30:00")
     = Some (mk_datetime 2025 11 5 9 30 0)
  /\ MakePlanilha.classify_by_valor_emissao
       (MakePlanilha.parse_brazil_currency (Some "45,00"))
       (MakePlanilha.parse_result_emissao (Some "05/11/2025 9:30:00"))
     = ALMOCO
  /\ (forall (a1 a2 b1 b2 y1 y2 y3 y4 h m1 m2 s1 s2 : ascii) (q : Q),
         PyStr.isdecimal y3 = true -> PyStr.isdecimal y4 = true ->
         PyStr.isdecimal m1 = true -> PyStr.isdecimal m2 = true ->
         PyStr.isdecimal s1 = true -> PyStr.isdecimal s2 = true ->
         (inject_Z 40 <= q)%Q -> (q <= inject_Z 55)%Q ->
         ComparePlanilha.classify (Some (PFin q))
           (Some (String a1 (String a2 (String "/" (String b1 (String b2 (String "/"
              (String y1 (String y2 (String y3 (String y4
                 (String " " (String h (String ":" (String m1 (String m2
                    (String ":" (String s1 (String s2 EmptyString)))))))))))))))))))
         = Ok (if PyStr.digits_value (String m1 (String m2 EmptyString)) <? 16
               then ALMOCO else JANTA))
  /\ (forall q : Q,
         (inject_Z 40 <= q)%Q -> (q <= inject_Z 55)%Q ->
         (exists m, ComparePlanilha.classify (Some (PFin q)) None = Raise m)
         /\ MakePlanilha.classify_by_valor_emissao (Some (PFin q)) None = ALMOCO_unknown).
Proof.
  split; [reflexivity|]. split; [reflexivity|]. split; [reflexivity|]. split.
  - intros a1 a2 b1 b2 y1 y2 y3 y4 h m1 m2 s1 s2 q Hy3 Hy4 Hm1 Hm2 Hs1 Hs2 H40 H55.
    rewrite (classify_band q _ H40 H55). unfold emissao_hour.
    rewrite search_hh_mm_one_digit_hour by assumption.
    rewrite py_int_digits;
      [reflexivity | cbn [PyStr.all_chars]; now rewrite Hm1, Hm2 | discriminate].
  - intros q H40 H55. split.
    + unfold ComparePlanilha.classify, PyFloat.gt_int, PyFloat.int_le, PyFloat.le_int.
      assert (H100 : Qle_bool q (inject_Z 100) = true).
      { apply Qle_bool_iff. apply Qle_trans with (inject_Z 55); [exact H55|].
        rewrite <- Zle_Qle. lia. }
      rewrite H100. apply Qle_bool_iff in H40, H55. rewrite H40, H55.
      cbn [negb andb]. eauto.
    + now rewrite (classify_by_valor_emissao_band q None H40 H55).
Qed.

(** ** Issuance timestamps without a time of day *)

Section StrptimeFacts.
Import Strptime.

Lemma matches_keep_time fmt :
  forallb dateless fmt = true ->
  forall t s t' r,
    In (t', r) (matches fmt t s) ->
    hour t' = hour t /\ minute t' = minute t /\ second t' = second t.
Proof.
  induction fmt as [|d fmt IH]; intros Hfmt t s t' r Hin.
  - destruct Hin as [[= <- _]|[]]. auto.
  - simpl in Hfmt. apply andb_true_iff in Hfmt as [Hd Hfmt].
    cbn [matches] in Hin. apply in_flat_map in Hin as ([g r0] & _ & Hin).
    destruct (IH Hfmt _ _ _ _ Hin) as (Hh & Hm & Hs).
    rewrite Hh, Hm, Hs. destruct d; try discriminate; auto.
Qed.

(** A timestamp parsed by the date-only format is at midnight. *)
Lemma strptime_date_midnight s t :
  strptime s fmt_date = Ok t -> hour t = 0 /\ minute t = 0 /\ second t = 0.
Proof.
  unfold strptime.
  destruct (matches fmt_date initial s) as [|[t' r] l] eqn:Hm; [discriminate|].
  destruct r; [|discriminate]. destruct (valid t'); [|discriminate].
  intros [= <-].
  apply (matches_keep_time fmt_date eq_refl initial s t' EmptyString).
  rewrite Hm. now left.
Qed.
End StrptimeFacts.

(** C4. An issuance string with a date and no time of day: in
    make_planilha.py, [parse_result_emissao] turns "05/11/2025" into a
    timestamp at midnight, and [classify_by_valor_emissao] then labels an
    amount of 45.00 ALMOCO, as it does for every string the date-only
    format accepts and every amount from 40 to 55; [classify] of
    compare_planilha.py gives ALMOCO? on the same input. *)
Theorem date_only_emissao_is_midnight :
  MakePlanilha.parse_result_emissao (Some "05/11/2025")
  = Some (mk_datetime 2025 11 5 0 0 0)
  /\ MakePlanilha.classify_by_valor_emissao
       (MakePlanilha.parse_brazil_currency (Some "45,00"))
       (MakePlanilha.parse_result_emissao (Some "05/11/2025"))
     = ALMOCO
  /\ ComparePlanilha.classify
       (ComparePlanilha.parse_currency (Some "45,00")) (Some "05/11/2025")
     = Ok ALMOCO_unknown
  /\ (forall (s : string) (t : datetime) (q : Q),
         Strptime.strptime s Strptime.fmt_date = Ok t ->
         (inject_Z 40 <= q)%Q -> (q <= inject_Z 55)%Q ->
         hour t = 0
         /\ MakePlanilha.classify_by_valor_emissao (Some (PFin q)) (Some t) = ALMOCO).
Proof.
  repeat split; try reflexivity.
  - now apply (strptime_date_midnight s).
  - destruct (strptime_date_midnight s t H) as (Hh & _).
    rewrite (classify_by_valor_emissao_band q (Some t) H0 H1), Hh. reflexivity.
Qed.

(** ** The currency parsers *)

Section CurrencyFacts.
Import PyStr.

Lemma replace_char_absent x y s :
  contains_char x s = false -> replace_char x y s = s.
Proof.
  induction s as [|c r IH]; simpl; [reflexivity|].
  intros H. apply orb_false_iff in H as [-> Hr]. now rewrite IH.
Qed.

Lemma remove_char_absent x s :
  contains_char x s = false -> remove_char x s = s.
Proof.
  induction s as [|c r IH]; simpl; [reflexivity|].
  intros H. apply orb_false_iff in H as [-> Hr]. now rewrite IH.
Qed.

Lemma contains_char_remove_self x s : contains_char x (remove_char x s) = false.
Proof.
  induction s as [|c r IH]; simpl; [reflexivity|].
  destruct (Ascii.eqb c x) eqn:Hc; [exact IH|]. simpl. now rewrite Hc.
Qed.

Lemma contains_char_remove x y s :
  contains_char x s = false -> contains_char x (remove_char y s) = false.
Proof.
  induction s as [|c r IH]; simpl; [reflexivity|].
  intros H. apply orb_false_iff in H as [Hc Hr].
  destruct (Ascii.eqb c y); [auto|]. simpl. now rewrite Hc, IH.
Qed.

Lemma contains_char_lstrip x s :
  contains_char x s = false -> contains_char x (lstrip s) = false.
Proof.
  induction s as [|c r IH]; simpl; [reflexivity|].
  intros H. destruct (isspace c); [|exact H].
  apply orb_false_iff in H as [_ Hr]. auto.
Qed.

Lemma contains_char_rstrip x s :
  contains_char x s = false -> contains_char x (rstrip s) = false.
Proof.
  induction s as [|c r IH]; simpl; [reflexivity|].
  intros H. apply orb_false_iff in H as [Hc Hr]. specialize (IH Hr).
  destruct (rstrip r) as [|c' r'].
  - destruct (isspace c); [reflexivity|]. simpl. now rewrite Hc.
  - cbn [contains_char] in *. now rewrite Hc, IH.
Qed.

Lemma contains_char_cleaned x s :
  contains_char x s = false -> contains_char x (cleaned s) = false.
Proof.
  intros H. unfold cleaned, strip.
  now apply contains_char_remove, contains_char_remove, contains_char_lstrip,
    contains_char_rstrip.
Qed.

(** Without a comma, the string handed to [float()] is the cleaned
    string with every dot deleted. *)
Lemma parse_currency_no_comma s :
  contains_char "," s = false ->
  ComparePlanilha.parse_currency (Some s)
  = if String.eqb (cleaned s) EmptyString then None
    else PyFloat.py_float (remove_char "." (cleaned s)).
Proof.
  intros H. unfold ComparePlanilha.parse_currency. fold (cleaned s).
  rewrite replace_char_absent; [reflexivity|].
  now apply contains_char_remove, contains_char_cleaned.
Qed.

Lemma parse_brazil_currency_eq s :
  MakePlanilha.parse_brazil_currency s = ComparePlanilha.parse_currency s.
Proof. reflexivity. Qed.

(** Strings of digits and dots. *)

Lemma all_chars_app p s t :
  all_chars p (s +:+ t) = all_chars p s && all_chars p t.
Proof.
  induction s as [|c r IH]; simpl; [reflexivity|]. now rewrite IH, andb_assoc.
Qed.

Lemma contains_char_app x s t :
  contains_char x (s +:+ t) = contains_char x s || contains_char x t.
Proof.
  induction s as [|c r IH]; simpl; [reflexivity|]. now rewrite IH, orb_assoc.
Qed.

Lemma remove_char_app x s t :
  remove_char x (s +:+ t) = remove_char x s +:+ remove_char x t.
Proof.
  induction s as [|c r IH]; simpl; [reflexivity|].
  destruct (Ascii.eqb c x); simpl; now rewrite IH.
Qed.

Lemma all_chars_dotted p a b :
  all_chars p (a +:+ "." +:+ b) = all_chars p a && (p "."%char && all_chars p b).
Proof. now rewrite all_chars_app. Qed.

Lemma contains_char_dotted x a b :
  contains_char x (a +:+ "." +:+ b)
  = contains_char x a || (Ascii.eqb "." x || contains_char x b).
Proof. now rewrite contains_char_app. Qed.

Lemma digits_lack x s :
  isdecimal x = false -> all_chars isdecimal s = true -> contains_char x s = false.
Proof.
  intros Hx. induction s as [|c r IH]; simpl; [reflexivity|].
  intros H. apply andb_true_iff in H as [Hc Hr]. rewrite (IH Hr), orb_false_r.
  apply Ascii.eqb_neq. intros ->. congruence.
Qed.

Lemma lower_digits s : all_chars isdecimal s = true -> lower s = s.
Proof.
  induction s as [|c r IH]; simpl; [reflexivity|].
  intros H. apply andb_true_iff in H as [Hc Hr]. rewrite (IH Hr). f_equal.
  unfold lower_char. unfold isdecimal in Hc.
  apply andb_true_iff in Hc as [H1 H2]. apply N.leb_le in H1, H2.
  replace (_ || _)%bool with false; [reflexivity|]. symmetry.
  rewrite orb_false_iff, !andb_false_iff, !N.leb_gt. lia.
Qed.

Lemma split_sign_digit c r :
  isdecimal c = true -> split_sign (String c r) = (false, String c r).
Proof.
  intros Hc. destruct (isdecimal_not_sign _ Hc) as [Hp Hm]. unfold split_sign.
  destruct c as [[] [] [] [] [] [] [] []]; try reflexivity; congruence.
Qed.

Lemma rstrip_no_space s :
  all_chars (fun c => negb (isspace c)) s = true -> rstrip s = s.
Proof.
  induction s as [|c r IH]; simpl; [reflexivity|].
  intros H. apply andb_true_iff in H as [Hc Hr]. rewrite (IH Hr).
  apply negb_true_iff in Hc. rewrite Hc. now destruct r.
Qed.

Lemma strip_no_space s :
  all_chars (fun c => negb (isspace c)) s = true -> strip s = s.
Proof.
  intros H. unfold strip. rewrite (rstrip_no_space _ H).
  destruct s as [|c r]; [reflexivity|]. simpl in *.
  apply andb_true_iff in H as [Hc _]. apply negb_true_iff in Hc. now rewrite Hc.
Qed.

Lemma digits_no_space s :
  all_chars isdecimal s = true -> all_chars (fun c => negb (isspace c)) s = true.
Proof.
  induction s as [|c r IH]; simpl; [reflexivity|].
  intros H. apply andb_true_iff in H as [Hc Hr].
  now rewrite (isdecimal_not_space _ Hc), IH.
Qed.

Lemma digitpart_tail_stop r c t :
  all_chars isdecimal r = true ->
  isdecimal c = false -> c <> "_"%char ->
  digitpart_tail (r +:+ String c t) = (r, String c t).
Proof.
  intros Hr Hc Hu. induction r as [|d r IH]; simpl in *.
  - rewrite Hc. now apply Ascii.eqb_neq in Hu as ->.
  - apply andb_true_iff in Hr as [-> Hr]. now rewrite (IH Hr).
Qed.

Lemma digitpart_digits d :
  all_chars isdecimal d = true -> d <> EmptyString ->
  digitpart d = Some (d, EmptyString).
Proof.
  intros Hd Hne. destruct d as [|c r]; [congruence|]. simpl in *.
  apply andb_true_iff in Hd as [-> Hr]. now rewrite (digitpart_tail_digits _ Hr).
Qed.

Lemma digitpart_stop d c t :
  all_chars isdecimal d = true -> d <> EmptyString ->
  isdecimal c = false -> c <> "_"%char ->
  digitpart (d +:+ String c t) = Some (d, String c t).
Proof.
  intros Hd Hne Hc Hu. destruct d as [|c0 r]; [congruence|].
  simpl in Hd. apply andb_true_iff in Hd as [Hc0 Hr].
  change (String c0 r +:+ String c t) with (String c0 (r +:+ String c t)).
  unfold digitpart. now rewrite Hc0, (digitpart_tail_stop _ _ _ Hr Hc Hu).
Qed.

Lemma not_keyword c r :
  isdecimal c = true ->
  (String.eqb (String c r) "inf" || String.eqb (String c r) "infinity") = false
  /\ String.eqb (String c r) "nan" = false.
Proof.
  intros Hc.
  assert (Hi : Ascii.eqb c "i" = false) by (apply Ascii.eqb_neq; intros ->; discriminate).
  assert (Hn : Ascii.eqb c "n" = false) by (apply Ascii.eqb_neq; intros ->; discriminate).
  cbn [String.eqb]. now rewrite Hi, Hn.
Qed.

Lemma append_empty s : s +:+ EmptyString = s.
Proof.
  induction s as [|c r IH]; [reflexivity|].
  change (String c (r +:+ EmptyString) = String c r). now rewrite IH.
Qed.

Lemma Qred_inject z : Qred (inject_Z z) = inject_Z z.
Proof.
  unfold inject_Z. apply Qred_identity. apply Z.gcd_1_r.
Qed.

(** [float()] of a string of digits is the integer they denote. *)
Lemma py_float_digits d :
  all_chars isdecimal d = true -> d <> EmptyString ->
  PyFloat.py_float d = Some (PFin (inject_Z (digits_value d))).
Proof.
  intros Hd Hne. destruct d as [|c r]; [congruence|].
  pose proof Hd as Hd'. simpl in Hd'. apply andb_true_iff in Hd' as [Hc Hr].
  unfold PyFloat.py_float.
  rewrite (strip_no_space _ (digits_no_space _ Hd)), (split_sign_digit _ _ Hc).
  cbv beta iota zeta. rewrite (lower_digits _ Hd).
  destruct (not_keyword c r Hc) as [-> ->].
  unfold PyFloat.number. rewrite (digitpart_digits _ Hd Hne).
  cbn [PyFloat.exponent]. do 2 f_equal. set (d := String c r).
  unfold PyFloat.decimal.
  change (Qpower (10 # 1) (0 - Z.of_nat (String.length EmptyString))) with 1%Q.
  rewrite (append_empty d). rewrite <- (Qred_inject (digits_value d)) at 2.
  apply Qred_complete. apply Qmult_1_r.
Qed.

(** [float()] of digits, a dot and digits is their decimal reading. *)
Lemma py_float_dotted a b :
  all_chars isdecimal a = true -> a <> EmptyString ->
  all_chars isdecimal b = true -> b <> EmptyString ->
  PyFloat.py_float (a +:+ "." +:+ b) = Some (PFin (PyFloat.decimal a b 0)).
Proof.
  intros Ha Hane Hb Hbne. unfold PyFloat.py_float.
  assert (Hns : all_chars (fun c => negb (isspace c)) (a +:+ "." +:+ b) = true).
  { now rewrite all_chars_dotted, (digits_no_space _ Ha), (digits_no_space _ Hb). }
  rewrite (strip_no_space _ Hns).
  destruct a as [|c r]; [congruence|].
  assert (Hc : isdecimal c = true).
  { simpl in Ha. now apply andb_true_iff in Ha as [? _]. }
  assert (Hl : lower_char c = c).
  { pose proof (lower_digits (String c EmptyString)) as Hl. simpl in Hl.
    rewrite Hc in Hl. specialize (Hl eq_refl). congruence. }
  change (String c r +:+ "." +:+ b) with (String c (r +:+ "." +:+ b)).
  rewrite (split_sign_digit _ _ Hc). cbv beta iota zeta.
  change (lower (String c (r +:+ "." +:+ b)))
    with (String (lower_char c) (lower (r +:+ "." +:+ b))).
  rewrite Hl. destruct (not_keyword c (lower (r +:+ "." +:+ b)) Hc) as [-> ->].
  unfold PyFloat.number.
  change (String c (r +:+ "." +:+ b)) with (String c r +:+ String "." b).
  rewrite (digitpart_stop (String c r) "." b Ha); [|discriminate|reflexivity|discriminate].
  rewrite (digitpart_digits _ Hb Hbne). reflexivity.
Qed.

Lemma decimal_scaled a b :
  (PyFloat.decimal a b 0 * Qpower (10 # 1) (Z.of_nat (String.length b))
   == inject_Z (digits_value (a +:+ b)))%Q.
Proof.
  unfold PyFloat.decimal. rewrite Qred_correct.
  rewrite <- Qmult_assoc, <- Qpower_plus by discriminate.
  replace (0 - Z.of_nat (String.length b) + Z.of_nat (String.length b)) with 0 by lia.
  simpl. ring.
Qed.

(** A dotted numeral loses its dot: the parsers return the integer
    spelled by all of its digits. *)
Lemma parse_currency_dotted a b :
  all_chars isdecimal a = true -> a <> EmptyString ->
  all_chars isdecimal b = true -> b <> EmptyString ->
  ComparePlanilha.parse_currency (Some (a +:+ "." +:+ b))
  = Some (PFin (inject_Z (digits_value (a +:+ b)))).
Proof.
  intros Ha Hane Hb Hbne.
  assert (Hlack : forall x, isdecimal x = false -> x <> "."%char ->
                            contains_char x (a +:+ "." +:+ b) = false).
  { intros x Hx Hdot. rewrite contains_char_dotted.
    rewrite (digits_lack x a Hx Ha), (digits_lack x b Hx Hb).
    apply not_eq_sym, Ascii.eqb_neq in Hdot. now rewrite Hdot. }
  rewrite parse_currency_no_comma by (apply Hlack; [reflexivity | discriminate]).
  assert (Hclean : cleaned (a +:+ "." +:+ b) = a +:+ "." +:+ b).
  { unfold cleaned. rewrite strip_no_space.
    - rewrite (remove_char_absent dquote) by (apply Hlack; [reflexivity | discriminate]).
      apply remove_char_absent, Hlack; [reflexivity | discriminate].
    - now rewrite all_chars_dotted, (digits_no_space _ Ha), (digits_no_space _ Hb). }
  rewrite Hclean. destruct a as [|c r] eqn:E; [congruence|]. rewrite <- E in *.
  replace (String.eqb (a +:+ "." +:+ b) EmptyString) with false
    by (rewrite E; reflexivity).
  rewrite remove_char_app.
  replace (remove_char "." ("." +:+ b)) with (remove_char "." b) by reflexivity.
  rewrite !remove_char_absent by (apply digits_lack; [reflexivity | assumption]).
  apply py_float_digits.
  - now rewrite all_chars_app, Ha, Hb.
  - rewrite E. discriminate.
Qed.

End CurrencyFacts.

(** C10. The currency parsers [parse_currency] and
    [parse_brazil_currency] on a string with a dot and without a comma:
    every dot is deleted before the conversion to a number, so the
    string converted contains no dot; a numeral written as digits, a dot
    and digits therefore parses to the integer spelled by all of its
    digits, which is its face value times ten to the number of digits
    after the dot; "47.50" parses to 4750.0 and not to 47.5. *)
Theorem currency_dot_is_deleted :
  (forall s : string,
      PyStr.contains_char "." s = true ->
      PyStr.contains_char "," s = false ->
      PyStr.contains_char "." (PyStr.remove_char "." (cleaned s)) = false
      /\ ComparePlanilha.parse_currency (Some s)
         = (if String.eqb (cleaned s) EmptyString then None
            else PyFloat.py_float (PyStr.remove_char "." (cleaned s)))
      /\ MakePlanilha.parse_brazil_currency (Some s)
         = (if String.eqb (cleaned s) EmptyString then None
            else PyFloat.py_float (PyStr.remove_char "." (cleaned s))))
  /\ (forall a b : string,
         PyStr.all_chars PyStr.isdecimal a = true -> a <> EmptyString ->
         PyStr.all_chars PyStr.isdecimal b = true -> b <> EmptyString ->
         ComparePlanilha.parse_currency (Some (a +:+ "." +:+ b))
         = Some (PFin (inject_Z (PyStr.digits_value (a +:+ b))))
         /\ MakePlanilha.parse_brazil_currency (Some (a +:+ "." +:+ b))
            = Some (PFin (inject_Z (PyStr.digits_value (a +:+ b))))
         /\ exists face : Q,
             PyFloat.py_float (a +:+ "." +:+ b) = Some (PFin face)
             /\ (face * Qpower (10 # 1) (Z.of_nat (String.length b))
                 == inject_Z (PyStr.digits_value (a +:+ b)))%Q)
  /\ ComparePlanilha.parse_currency (Some "47.50") = Some (PFin (inject_Z 4750))
  /\ MakePlanilha.parse_brazil_currency (Some "47.50") = Some (PFin (inject_Z 4750))
  /\ PyFloat.py_float "47.50" = Some (PFin (95 # 2)).
Proof.
  split; [|split; [|repeat split; reflexivity]].
  - intros s _ Hcomma. split; [apply contains_char_remove_self|].
    split; exact (parse_currency_no_comma s Hcomma).
  - intros a b Ha Hane Hb Hbne.
    split; [|split]; try exact (parse_currency_dotted a b Ha Hane Hb Hbne).
    exists (PyFloat.decimal a b 0). split.
    + now apply py_float_dotted.
    + apply decimal_scaled.
Qed.

Lemma currency_dot_is_deleted_witness :
  ComparePlanilha.parse_currency (Some ("47" +:+ "." +:+ "50"))
  = Some (PFin (inject_Z (PyStr.digits_value ("47" +:+ "50"))))
  /\ MakePlanilha.parse_brazil_currency (Some ("47" +:+ "." +:+ "50"))
     = Some (PFin (inject_Z (PyStr.digits_value ("47" +:+ "50"))))
  /\ exists face : Q,
      PyFloat.py_float ("47" +:+ "." +:+ "50") = Some (PFin face)
      /\ (face * Qpower (10 # 1) (Z.of_nat (String.length "50"))
          == inject_Z (PyStr.digits_value ("47" +:+ "50")))%Q.
Proof.
  apply (proj1 (proj2 currency_dot_is_deleted) "47" "50");
    [reflexivity | discriminate | reflexivity | discriminate].
Defined.

(** ** Floating-point arithmetic and the throttle *)

Section Binary64Facts.
Import Binary64.

Lemma pow2_pos e : (0 < pow2 e)%Q.
Proof. unfold pow2. apply Qpower_0_lt. reflexivity. Qed.

Lemma pow2_plus a b : (pow2 (a + b) == pow2 a * pow2 b)%Q.
Proof. unfold pow2. apply Qpower_plus. discriminate. Qed.

Lemma pow2_le a b : a <= b -> (pow2 a <= pow2 b)%Q.
Proof. intros H. unfold pow2. apply Qpower_le_compat_l; [exact H | discriminate]. Qed.

Lemma pow2_double e : (pow2 (e + 1) == 2 * pow2 e)%Q.
Proof. rewrite pow2_plus. change (pow2 1) with (2 # 1)%Q. ring. Qed.

Lemma pow2_Z n : 0 <= n -> (pow2 n == inject_Z (2 ^ n))%Q.
Proof. intros H. unfold pow2. now rewrite (Zpower_Qpower 2 n H). Qed.

(** The floor of the binary logarithm is not above the logarithm. *)
Lemma ilog2_lower q : (0 < q)%Q -> (pow2 (ilog2 q) <= q)%Q.
Proof.
  intros Hq. unfold ilog2.
  set (a := Z.log2 (Qnum q)). set (b := Z.log2 (Zpos (Qden q))).
  destruct (Qle_bool (pow2 (a - b)) q) eqn:Hb; [now apply Qle_bool_iff|].
  assert (Hn : 0 < Qnum q) by (unfold Qlt in Hq; simpl in Hq; lia).
  destruct (Z.log2_spec _ Hn) as [Ha _]. fold a in Ha.
  destruct (Z.log2_spec (Zpos (Qden q)) eq_refl) as [_ Hd]. fold b in Hd.
  assert (Ha0 : 0 <= a) by apply Z.log2_nonneg.
  assert (Hb0 : 0 <= b) by apply Z.log2_nonneg.
  replace (a - b - 1) with (a + - (b + 1)) by lia.
  rewrite pow2_plus.
  assert (Hinv : (pow2 (- (b + 1)) == / pow2 (b + 1))%Q)
    by (unfold pow2; apply Qpower_opp).
  rewrite Hinv, (pow2_Z a Ha0), (pow2_Z (b + 1)) by lia.
  rewrite Z.add_1_r in *.
  apply Qle_shift_div_r.
  - change 0%Q with (inject_Z 0). rewrite <- Zlt_Qlt. lia.
  - unfold Qle. cbn [Qnum Qden inject_Z Qmult]. rewrite Z.mul_1_r.
    destruct q as [n d]. cbn [Qnum Qden] in *.
    transitivity (n * Zpos d); [|nia].
    rewrite Pos.mul_1_r. nia.
Qed.

Lemma ilog2_below q k : (0 < q)%Q -> (q < pow2 k)%Q -> ilog2 q < k.
Proof.
  intros Hq Hk. pose proof (ilog2_lower q Hq) as Hl.
  apply (Qpower_lt_compat_l_inv (2 # 1)); [|reflexivity].
  apply Qle_lt_trans with q; assumption.
Qed.

Lemma nearest_even_near y :
  (y - (1 # 2) <= inject_Z (nearest_even y) <= y + (1 # 2))%Q.
Proof.
  unfold nearest_even. pose proof (Qfloor_le y) as Hlo. pose proof (Qlt_floor y) as Hhi.
  rewrite inject_Z_plus in Hhi. change (inject_Z 1) with 1%Q in Hhi.
  assert (Hup : (inject_Z (Qfloor y + 1) == inject_Z (Qfloor y) + 1)%Q)
    by (rewrite inject_Z_plus; reflexivity).
  destruct (Qcompare_spec (y - inject_Z (Qfloor y)) (1 # 2)) as [He|Hl|Hg].
  - destruct (Z.even (Qfloor y)); [|rewrite Hup]; lra.
  - lra.
  - rewrite Hup. lra.
Qed.

Lemma nearest_even_nonpos x : (x < 0)%Q -> nearest_even x <= 0.
Proof.
  intros Hx. unfold nearest_even.
  assert (Hf : Qfloor x < 0).
  { pose proof (Qfloor_le x) as Hle.
    assert (H : (inject_Z (Qfloor x) < inject_Z 0)%Q) by (change (inject_Z 0) with 0%Q; lra).
    now rewrite <- Zlt_Qlt in H. }
  destruct (Qcompare _ _); [destruct (Z.even _)| |]; lia.
Qed.

Lemma nearest_even_nonneg x : (0 <= x)%Q -> 0 <= nearest_even x.
Proof.
  intros Hx. unfold nearest_even.
  assert (Hf : 0 <= Qfloor x).
  { change 0 with (Qfloor (inject_Z 0)). now apply Qfloor_resp_le. }
  destruct (Qcompare _ _); [destruct (Z.even _)| |]; lia.
Qed.

(** The rounded value as a multiple of the unit in the last place. *)
Lemma round_cases q :
  (Qred q == 0)%Q /\ round q = PFin 0
  \/ ~ (Qred q == 0)%Q
     /\ exists r : Q,
         (r == inject_Z (nearest_even (Qred q / pow2 (quantum (Qred q))))
               * pow2 (quantum (Qred q)))%Q
         /\ (round q = PFin r
             \/ (pow2 1024 <= Qabs r)%Q
                /\ round q = (if Qle_bool 0 (Qred q) then PInf else PNegInf)).
Proof.
  unfold round. destruct (Qeq_bool (Qred q) 0) eqn:Hz.
  - left. split; [now apply Qeq_bool_eq | reflexivity].
  - right. split; [now apply Qeq_bool_neq|].
    eexists. split; [apply Qred_correct|].
    destruct (Qle_bool (pow2 1024) _) eqn:Ho; [right | left; reflexivity].
    split; [now apply Qle_bool_iff | reflexivity].
Qed.

Lemma round_proper q q' : (q == q')%Q -> round q = round q'.
Proof. intros H. unfold round. now rewrite (Qred_complete _ _ H). Qed.

(** A number below 2^k in magnitude is rounded to a finite float, off
    by half a unit in the last place of that magnitude at most. *)
Lemma round_error q k :
  - 1021 <= k <= 1023 -> (Qabs q < pow2 k)%Q ->
  exists r : Q,
    round q = PFin r
    /\ (q - pow2 (k - 54) <= r <= q + pow2 (k - 54))%Q
    /\ ((0 <= q)%Q -> (0 <= r)%Q) /\ ((q <= 0)%Q -> (r <= 0)%Q).
Proof.
  intros Hk Hq. pose proof (Qred_correct q) as Hred.
  pose proof (pow2_pos (k - 54)) as Heta.
  destruct (round_cases q) as [[Hz ->]|(Hz & r & Hr & Hround)].
  - exists 0%Q. split; [reflexivity|]. rewrite Hz in Hred. split; [|split]; intros; lra.
  - set (q0 := Qred q) in *. set (e := quantum q0) in *.
    pose proof (pow2_pos e) as He.
    assert (Hqabs : (0 < Qabs q0)%Q).
    { apply Qabs_case; intros H.
      - apply Qle_lteq in H as [H|H]; [exact H | exfalso; apply Hz; now symmetry].
      - apply Qle_lteq in H as [H|H]; [lra | exfalso; apply Hz; exact H]. }
    assert (Hq0 : (Qabs q0 < pow2 k)%Q).
    { apply Qabs_Qlt_condition. apply Qabs_Qlt_condition in Hq. lra. }
    assert (Hek : e <= k - 53).
    { subst e. unfold quantum. pose proof (ilog2_below _ _ Hqabs Hq0). lia. }
    pose proof (nearest_even_near (q0 / pow2 e)) as [Hn1 Hn2].
    set (n := inject_Z (nearest_even (q0 / pow2 e))) in *.
    assert (Hdiv : (q0 / pow2 e * pow2 e == q0)%Q) by (field; lra).
    assert (Hhalf : (pow2 e <= 2 * pow2 (k - 54))%Q).
    { rewrite <- pow2_double. apply pow2_le. lia. }
    assert (Hlo : (q0 - pow2 (k - 54) <= n * pow2 e)%Q) by nra.
    assert (Hhi : (n * pow2 e <= q0 + pow2 (k - 54))%Q) by nra.
    assert (Hsign1 : (0 <= q0)%Q -> (0 <= n * pow2 e)%Q).
    { intros H0. assert (Hy : (0 <= q0 / pow2 e)%Q).
      { apply Qle_shift_div_l; [exact He | lra]. }
      pose proof (nearest_even_nonneg _ Hy) as Hnn.
      assert ((0 <= n)%Q) by (subst n; change 0%Q with (inject_Z 0); now rewrite <- Zle_Qle).
      nra. }
    assert (Hsign2 : (q0 <= 0)%Q -> (n * pow2 e <= 0)%Q).
    { intros H0. assert (Hy : (q0 / pow2 e < 0)%Q).
      { apply Qlt_shift_div_r; [exact He|].
        apply Qle_lteq in H0 as [H0|H0]; [lra | exfalso; now apply Hz]. }
      pose proof (nearest_even_nonpos _ Hy) as Hnn.
      assert ((n <= 0)%Q) by (subst n; change 0%Q with (inject_Z 0); now rewrite <- Zle_Qle).
      nra. }
    exists r. split; [|split; [rewrite Hr; lra|split; intros; rewrite Hr; [apply Hsign1|apply Hsign2]; lra]].
    destruct Hround as [H|[Hover _]]; [exact H|]. exfalso.
    assert (Hsmall : (pow2 k + pow2 (k - 54) < pow2 1024)%Q).
    { apply Qlt_le_trans with (pow2 (k + 1)); [|apply pow2_le; lia].
      rewrite pow2_double.
      assert ((pow2 (k - 54) < pow2 k)%Q)
        by (unfold pow2; apply Qpower_lt_compat_l; [lia | reflexivity]).
      lra. }
    apply Qabs_Qlt_condition in Hq0.
    assert (Hrabs : (Qabs r < pow2 1024)%Q).
    { apply Qabs_Qlt_condition. rewrite Hr. lra. }
    lra.
Qed.


Lemma representableb_spec q : representableb q = true -> representable q.
Proof.
  unfold representableb, representable. destruct (round q) as [r| | |]; try discriminate.
  intros H. exists r. split; [reflexivity | now apply Qeq_bool_eq].
Qed.

Lemma representable_round q q' :
  representable q -> (q' == q)%Q -> exists r, round q' = PFin r /\ (r == q)%Q.
Proof. intros (r & Hr & Hq) H. exists r. now rewrite (round_proper _ _ H). Qed.

(** Rounding does not turn a number that is not above 0 into one that
    is. *)
Lemma round_nonpos q : (q <= 0)%Q -> gt (round q) (PFin 0) = false.
Proof.
  intros Hq. pose proof (Qred_correct q) as Hred.
  destruct (round_cases q) as [[_ ->]|(Hz & r & Hr & [->|[_ ->]])].
  - reflexivity.
  - cbn [gt]. apply negb_false_iff, Qle_bool_iff. rewrite Hr.
    pose proof (pow2_pos (quantum (Qred q))) as Hp.
    assert (Hx : (Qred q / pow2 (quantum (Qred q)) < 0)%Q).
    { apply Qlt_shift_div_r; [exact Hp|].
      apply Qle_lteq in Hq as [Hq|Hq]; [lra | exfalso; apply Hz; lra]. }
    pose proof (nearest_even_nonpos _ Hx) as Hn.
    assert ((inject_Z (nearest_even (Qred q / pow2 (quantum (Qred q)))) <= 0)%Q)
      by (change 0%Q with (inject_Z 0); now rewrite <- Zle_Qle).
    nra.
  - assert (Hs : Qle_bool 0 (Qred q) = false).
    { destruct (Qle_bool 0 (Qred q)) eqn:Hb; [|reflexivity].
      apply Qle_bool_iff in Hb. exfalso. apply Hz. lra. }
    now rewrite Hs.
Qed.

End Binary64Facts.

Section ThrottleFacts.
Import Throttle.

Variable d : Q.
Hypothesis d_pos : (0 < d)%Q.

Lemma last_of_insert_eq (reg : gmap string pyfloat) h t :
  last_of (<[h := t]> reg) h = t.
Proof. unfold last_of. now rewrite lookup_insert_eq. Qed.

Lemma last_of_insert_ne (reg : gmap string pyfloat) h h' t :
  h <> h' -> last_of (<[h := t]> reg) h' = last_of reg h'.
Proof. intros H. unfold last_of. now rewrite lookup_insert_ne. Qed.

(** A reservation without rounding, in qr_crawler.py: the wait and the
    instant reserved are those of exact arithmetic. *)
Lemma reserve_exact h now reg l :
  last_of reg h = PFin l -> exact_reservation d now (PFin l) ->
  exists w t : Q,
    reserve d h now reg = (PFin w, <[h := PFin t]> reg)
    /\ (((l + d <= now)%Q /\ (w == 0)%Q /\ (t == now)%Q)
        \/ ((now < l + d)%Q /\ (w == l + d - now)%Q /\ (t == l + d)%Q)).
Proof.
  intros Hl (Hnow & Hsum & Hleft). unfold reserve. rewrite Hl. cbn [Binary64.add].
  destruct Hsum as (a & Ha & Hal). rewrite Ha.
  unfold Binary64.sub. cbn [PyFloat.neg Binary64.add].
  assert (Hdiff : (a + Qred (- now) == l + d - now)%Q) by (rewrite Qred_correct; lra).
  destruct (Qlt_le_dec now (l + d)) as [Hlt|Hle].
  - destruct (representable_round _ _ (Hleft Hlt) Hdiff) as (w & Hw & Hwq). rewrite Hw.
    unfold max0. cbn [Binary64.gt].
    assert (Hpos : negb (Qle_bool w 0) = true).
    { apply negb_true_iff. destruct (Qle_bool w 0) eqn:Hb; [|reflexivity].
      apply Qle_bool_iff in Hb. lra. }
    rewrite Hpos. cbn [Binary64.add].
    assert (Hback : (now + w == l + d)%Q) by lra.
    destruct (representable_round (l + d) (now + w) (ex_intro _ a (conj Ha Hal)) Hback)
      as (t & Ht & Htq).
    rewrite Ht. exists w, t. split; [reflexivity|]. right. auto.
  - assert (Hneg : (a + Qred (- now) <= 0)%Q) by lra.
    unfold max0. rewrite (round_nonpos _ Hneg). cbn [Binary64.add].
    assert (Hback : (now + 0 == now)%Q) by lra.
    destruct (representable_round now (now + 0) Hnow Hback) as (t & Ht & Htq).
    rewrite Ht. exists 0%Q, t. split; [reflexivity|]. left. repeat split; auto; try reflexivity.
Qed.

(** The same in tests/crawler.py. *)
Lemma reserve_scheduled_exact h now reg l :
  last_of reg h = PFin l -> exact_reservation d now (PFin l) ->
  exists w t : Q,
    reserve_scheduled d h now reg = (PFin w, <[h := PFin t]> reg)
    /\ (((l + d <= now)%Q /\ (w == 0)%Q /\ (t == now)%Q)
        \/ ((now < l + d)%Q /\ (w == l + d - now)%Q /\ (t == l + d)%Q)).
Proof.
  intros Hl (Hnow & Hsum & Hleft). unfold reserve_scheduled. rewrite Hl. cbn [Binary64.add].
  destruct Hsum as (a & Ha & Hal). rewrite Ha. cbn [Binary64.gt].
  destruct (Qlt_le_dec now (l + d)) as [Hlt|Hle].
  - assert (Hgt : negb (Qle_bool a now) = true).
    { apply negb_true_iff. destruct (Qle_bool a now) eqn:Hb; [|reflexivity].
      apply Qle_bool_iff in Hb. lra. }
    rewrite Hgt. unfold Binary64.sub. cbn [PyFloat.neg Binary64.add].
    assert (Hdiff : (a + Qred (- now) == l + d - now)%Q) by (rewrite Qred_correct; lra).
    destruct (representable_round _ _ (Hleft Hlt) Hdiff) as (w & Hw & Hwq). rewrite Hw.
    exists w, a. split; [reflexivity|]. right. auto.
  - assert (Hgt : negb (Qle_bool a now) = false).
    { apply negb_false_iff, Qle_bool_iff. lra. }
    rewrite Hgt. exists 0%Q, now. split; [reflexivity|]. left. repeat split; auto; try reflexivity.
Qed.

Section Bounded.
Variable k : Z.
Hypothesis k_range : - 1022 <= k <= 1022.

Let eta := rounding_error k.

Lemma eta_pos : (0 < eta)%Q.
Proof. apply pow2_pos. Qed.

Lemma eta_small : (2 * eta < Binary64.pow2 k)%Q.
Proof.
  subst eta. unfold rounding_error.
  replace (k - 53) with ((k - 54) + 1) by lia. rewrite pow2_double.
  assert (H : (Binary64.pow2 (k - 54 + 3) <= Binary64.pow2 k)%Q) by (apply pow2_le; lia).
  replace (k - 54 + 3) with (((k - 54 + 1) + 1) + 1) in H by lia.
  rewrite !pow2_double in H. pose proof (pow2_pos (k - 54)). lra.
Qed.

(** Rounding below 2^(k+1). *)
Lemma round_near q :
  (- (2 * Binary64.pow2 k) < q)%Q -> (q < 2 * Binary64.pow2 k)%Q ->
  exists r : Q,
    Binary64.round q = PFin r
    /\ (q - eta <= r <= q + eta)%Q
    /\ ((0 <= q)%Q -> (0 <= r)%Q) /\ ((q <= 0)%Q -> (r <= 0)%Q).
Proof.
  intros Hlo Hhi.
  assert (Hq : (Qabs q < Binary64.pow2 (k + 1))%Q).
  { apply Qabs_Qlt_condition. rewrite pow2_double. lra. }
  destruct (round_error q (k + 1) ltac:(lia) Hq) as (r & Hr & Hnear & Hs).
  exists r. split; [exact Hr|]. split; [|exact Hs].
  subst eta. unfold rounding_error. replace (k - 53) with (k + 1 - 54) by lia. exact Hnear.
Qed.

(** A reservation below 2^k, in qr_crawler.py: three roundings lie
    between the instant reserved and the last instant plus the delay. *)
Lemma reserve_bounded h now reg l :
  last_of reg h = PFin l -> bounded_reservation d k now (PFin l) ->
  exists t : Q,
    last_of (snd (reserve d h now reg)) h = PFin t
    /\ (l + d - 3 * eta <= t)%Q.
Proof.
  intros Hl (Hn0 & Hn & Hl0 & Hsum). pose proof eta_pos as He. pose proof eta_small as Hs.
  unfold reserve. rewrite Hl. cbn [snd Binary64.add]. rewrite last_of_insert_eq.
  destruct (round_near (l + d)) as (a & Ha & [Ha1 Ha2] & Ha0 & _); [lra | lra |].
  rewrite Ha. unfold Binary64.sub. cbn [PyFloat.neg Binary64.add].
  pose proof (Qred_correct (- now)) as Hred.
  assert (Ha0' : (0 <= a)%Q) by (apply Ha0; lra).
  destruct (round_near (a + Qred (- now))) as (w & Hw & [Hw1 Hw2] & _); [lra | lra |].
  rewrite Hw. unfold max0. cbn [Binary64.gt].
  destruct (Qle_bool w 0) eqn:Hsign; cbn [negb Binary64.add].
  - apply Qle_bool_iff in Hsign.
    destruct (round_near (now + 0)) as (t & Ht & [Ht1 Ht2] & _); [lra | lra |].
    rewrite Ht. exists t. split; [reflexivity | lra].
  - assert (Hpos : (0 < w)%Q).
    { apply Qnot_le_lt. intros Hle. apply Qle_bool_iff in Hle. congruence. }
    destruct (round_near (now + w)) as (t & Ht & [Ht1 Ht2] & _); [lra | lra |].
    rewrite Ht. exists t. split; [reflexivity | lra].
Qed.

(** The same in tests/crawler.py, where one rounding lies between
    them. *)
Lemma reserve_scheduled_bounded h now reg l :
  last_of reg h = PFin l -> bounded_reservation d k now (PFin l) ->
  exists t : Q,
    last_of (snd (reserve_scheduled d h now reg)) h = PFin t
    /\ (l + d - eta <= t)%Q.
Proof.
  intros Hl (Hn0 & Hn & Hl0 & Hsum). pose proof eta_pos as He. pose proof eta_small as Hs.
  unfold reserve_scheduled. rewrite Hl. cbn [Binary64.add].
  destruct (round_near (l + d)) as (a & Ha & [Ha1 Ha2] & _); [lra | lra |].
  rewrite Ha. cbn [Binary64.gt].
  destruct (Qle_bool a now) eqn:Hcmp; cbn [negb snd]; rewrite last_of_insert_eq.
  - apply Qle_bool_iff in Hcmp. exists now. split; [reflexivity | lra].
  - exists a. split; [reflexivity | lra].
Qed.

End Bounded.

Lemma reserve_other h h' now reg :
  h <> h' -> last_of (snd (reserve d h now reg)) h' = last_of reg h'.
Proof. intros Hne. unfold reserve. cbn [snd]. now apply last_of_insert_ne. Qed.

Lemma reserve_scheduled_other h h' now reg :
  h <> h' -> last_of (snd (reserve_scheduled d h now reg)) h' = last_of reg h'.
Proof.
  intros Hne. unfold reserve_scheduled.
  destruct (Binary64.gt _ _); cbn [snd]; now apply last_of_insert_ne.
Qed.

(** A run all of whose reservations for a host advance its instant by
    [gap] at least. *)
Section Runs.
Variable step : string -> Q -> gmap string pyfloat -> pyfloat * gmap string pyfloat.
Variable P : Q -> pyfloat -> Prop.
Variable gap : Q.
Hypothesis gap_nonneg : (0 <= gap)%Q.
Hypothesis step_advances : forall h now reg,
  P now (last_of reg h) ->
  exists l t : Q,
    last_of reg h = PFin l /\ last_of (snd (step h now reg)) h = PFin t
    /\ (l + gap <= t)%Q.
Hypothesis step_other : forall h h' now reg,
  h <> h' -> last_of (snd (step h now reg)) h' = last_of reg h'.

Lemma reservations_after host reqs reg t :
  run_where P step host reqs reg ->
  In (host, t) (reservations step reqs reg) ->
  exists l q : Q, last_of reg host = PFin l /\ t = PFin q /\ (l + gap <= q)%Q.
Proof.
  revert reg. induction reqs as [|[h0 now] reqs IH]; intros reg Hex Hin; [destruct Hin|].
  cbn [reservations] in Hin. cbn [run_where] in Hex. destruct Hex as [Hhere Hrest].
  destruct Hin as [[= -> <-]|Hin].
  - destruct (step_advances host now reg (Hhere eq_refl)) as (l & q & Hl & Hq & Hle).
    exists l, q. auto.
  - destruct (IH _ Hrest Hin) as (l' & q & Hl' & Hq & Hle).
    destruct (decide (h0 = host)) as [->|Hne].
    + destruct (step_advances host now reg (Hhere eq_refl)) as (l & t' & Hl & Ht' & Hlt).
      rewrite Ht' in Hl'. injection Hl' as <-.
      exists l, q. repeat split; auto. lra.
    + rewrite (step_other _ _ now reg Hne) in Hl'. exists l', q. auto.
Qed.

Lemma reservations_spaced host reqs reg (i j : nat) ti tj :
  run_where P step host reqs reg ->
  (i < j)%nat ->
  reservations step reqs reg !! i = Some (host, ti) ->
  reservations step reqs reg !! j = Some (host, tj) ->
  apart gap ti tj.
Proof.
  revert reg i j. induction reqs as [|[h0 now] reqs IH]; intros reg i j Hex Hij Hi Hj;
    [discriminate|].
  cbn [reservations] in Hi, Hj. cbn [run_where] in Hex. destruct Hex as [Hhere Hrest].
  destruct j as [|j]; [lia|].
  rewrite lookup_cons_ne_0 in Hj by lia. cbn [pred] in Hj.
  destruct i as [|i].
  - injection Hi as -> <-.
    destruct (step_advances host now reg (Hhere eq_refl)) as (l & t & Hl & Ht & _).
    assert (Hin : In (host, tj) (reservations step reqs (snd (step host now reg)))).
    { apply list_elem_of_In, list_elem_of_lookup. eauto. }
    destruct (reservations_after _ _ _ _ Hrest Hin) as (l' & q & Hl' & -> & Hle).
    rewrite Ht in Hl' |- *. injection Hl' as <-. exact Hle.
  - rewrite lookup_cons_ne_0 in Hi by lia. cbn [pred] in Hi.
    apply (IH (snd (step h0 now reg)) i j); [exact Hrest | lia | exact Hi | exact Hj].
Qed.

End Runs.

Variable step : string -> Q -> gmap string pyfloat -> pyfloat * gmap string pyfloat.
Hypothesis step_is : step = reserve d \/ step = reserve_scheduled d.

Lemma step_other h h' now reg :
  h <> h' -> last_of (snd (step h now reg)) h' = last_of reg h'.
Proof.
  destruct step_is as [-> | ->];
    [apply reserve_other | apply reserve_scheduled_other].
Qed.

(** A reservation without rounding advances the instant of its host by
    the delay at least. *)
Lemma step_exact h now reg :
  exact_reservation d now (last_of reg h) ->
  exists l t : Q,
    last_of reg h = PFin l
    /\ last_of (snd (step h now reg)) h = PFin t
    /\ (l + d <= t)%Q.
Proof.
  intros He. destruct (last_of reg h) as [l| | |] eqn:Hl; try contradiction.
  assert (H : exists w t : Q,
             step h now reg = (PFin w, <[h := PFin t]> reg)
             /\ (((l + d <= now)%Q /\ (w == 0)%Q /\ (t == now)%Q)
                 \/ ((now < l + d)%Q /\ (w == l + d - now)%Q /\ (t == l + d)%Q))).
  { destruct step_is as [-> | ->];
      [now apply reserve_exact | now apply reserve_scheduled_exact]. }
  destruct H as (w & t & Hs & Hcase). exists l, t. rewrite Hs. cbn [snd].
  rewrite last_of_insert_eq. split; [reflexivity|]. split; [reflexivity|].
  destruct Hcase as [(H1 & _ & H2)|(H1 & _ & H2)]; lra.
Qed.

(** A reservation below 2^k advances it by the delay less three
    roundings at least. *)
Lemma step_bounded k h now reg :
  - 1022 <= k <= 1022 ->
  bounded_reservation d k now (last_of reg h) ->
  exists l t : Q,
    last_of reg h = PFin l
    /\ last_of (snd (step h now reg)) h = PFin t
    /\ (l + (d - 3 * rounding_error k) <= t)%Q.
Proof.
  intros Hk Hb. destruct (last_of reg h) as [l| | |] eqn:Hl; try contradiction.
  pose proof (eta_pos k) as He.
  destruct step_is as [-> | ->].
  - destruct (reserve_bounded k Hk h now reg l Hl Hb) as (t & Ht & Hle).
    exists l, t. repeat split; auto. lra.
  - destruct (reserve_scheduled_bounded k Hk h now reg l Hl Hb) as (t & Ht & Hle).
    exists l, t. repeat split; auto. lra.
Qed.

End ThrottleFacts.

(** C8, as the code has it.  The throttle, in qr_crawler.py and in
    tests/crawler.py: in every sequence of reservations made one critical
    section at a time, with a per-host delay [d] above 0 and whatever the
    clock reads in each, any two instants reserved for the same host are
    at least [d] apart when nothing is rounded in the reservations of
    that host; and when these stay below 2^k (clock readings and last
    instants not negative, readings and sums below 2^k) and [d] is three
    rounding errors at least, the instants are at least [d] less three
    rounding errors apart, a rounding error being 2^(k-53).  The later
    reservation holds the later instant. *)
Theorem throttle_reservations_spaced
        (d : Q)
        (step : string -> Q -> gmap string pyfloat -> pyfloat * gmap string pyfloat)
        (reqs : list (string * Q)) (reg : gmap string pyfloat)
        (i j : nat) (host : string) (ti tj : pyfloat) :
  step = Throttle.reserve d \/ step = Throttle.reserve_scheduled d ->
  (0 < d)%Q ->
  (i < j)%nat ->
  Throttle.reservations step reqs reg !! i = Some (host, ti) ->
  Throttle.reservations step reqs reg !! j = Some (host, tj) ->
  (exact_run step d host reqs reg -> apart d ti tj)
  /\ (forall k : Z,
         - 1022 <= k <= 1022 ->
         (3 * rounding_error k <= d)%Q ->
         bounded_run step d k host reqs reg ->
         apart (d - 3 * rounding_error k) ti tj).
Proof.
  intros Hstep Hd Hij Hi Hj. split.
  - intros Hrun.
    apply (reservations_spaced step (exact_reservation d) d) with host reqs reg i j;
      try assumption.
    + now apply Qlt_le_weak.
    + intros h now reg0. now apply step_exact.
    + intros h h' now reg0. now apply (step_other d).
  - intros k Hk Hsmall Hrun.
    apply (reservations_spaced step (bounded_reservation d k)
                               (d - 3 * rounding_error k)) with host reqs reg i j;
      try assumption.
    + lra.
    + intros h now reg0. now apply step_bounded.
    + intros h h' now reg0. now apply (step_other d).
Qed.

Lemma throttle_reservations_spaced_witness :
  apart (1 # 2) (PFin (1700000000 # 1)) (PFin (3400000001 # 2))
  /\ apart ((2476979795053773 # 4503599627370496) - 3 * rounding_error 31)
           (PFin (1700000000 # 1)) (PFin (7130316802306867 # 4194304)).
Proof.
  split.
  - destruct (throttle_reservations_spaced
                (1 # 2) (Throttle.reserve (1 # 2))
                [("example.com", 1700000000 # 1); ("other.org", 13600000001 # 8);
                 ("example.com", 6800000001 # 4)]
                (empty : gmap string pyfloat) 0 2 "example.com"
                (PFin (1700000000 # 1)) (PFin (3400000001 # 2))) as [H _];
      [left; reflexivity | reflexivity | lia | reflexivity | reflexivity |].
    apply H.
    split; [intros _|split; [intros E; discriminate E|split; [intros _|exact I]]].
    + change (exact_reservation (1 # 2) (1700000000 # 1) (PFin 0)).
      repeat split; try intros _; apply representableb_spec; reflexivity.
    + change (exact_reservation (1 # 2) (6800000001 # 4) (PFin (1700000000 # 1))).
      repeat split; try intros _; apply representableb_spec; reflexivity.
  - destruct (throttle_reservations_spaced
                (2476979795053773 # 4503599627370496)
                (Throttle.reserve_scheduled (2476979795053773 # 4503599627370496))
                [("example.com", 1700000000 # 1); ("example.com", 6800000001 # 4)]
                (empty : gmap string pyfloat) 0 1 "example.com"
                (PFin (1700000000 # 1)) (PFin (7130316802306867 # 4194304))) as [_ H];
      [right; reflexivity | reflexivity | lia | reflexivity | reflexivity |].
    apply (H 31); [lia | vm_compute; discriminate |].
    split; [intros _|split; [intros _|exact I]].
    + change (bounded_reservation (2476979795053773 # 4503599627370496) 31
                (1700000000 # 1) (PFin 0)).
      repeat split; vm_compute; first [reflexivity | discriminate].
    + change (bounded_reservation (2476979795053773 # 4503599627370496) 31
                (6800000001 # 4) (PFin (1700000000 # 1))).
      repeat split; vm_compute; first [reflexivity | discriminate].
Defined.

(** C8, as the specification words it, fails: the sums are rounded.  The
    delay 0.55 is the float 2476979795053773 / 2^52; after a reservation
    at the clock reading 1700000000, where floats lie 2^-22 apart, a
    reservation a quarter of a second later is given the instant
    1700000000 + 2306867 / 2^22, which is less than the delay after the
    first, in qr_crawler.py and in tests/crawler.py. *)
Lemma throttle_rounding_breaks_spacing :
  Binary64.round (55 # 100) = PFin (2476979795053773 # 4503599627370496)
  /\ Throttle.reservations
       (Throttle.reserve (2476979795053773 # 4503599627370496))
       [("example.com", 1700000000 # 1); ("example.com", 6800000001 # 4)] ∅
     = [("example.com", PFin (1700000000 # 1));
        ("example.com", PFin (7130316802306867 # 4194304))]
  /\ Throttle.reservations
       (Throttle.reserve_scheduled (2476979795053773 # 4503599627370496))
       [("example.com", 1700000000 # 1); ("example.com", 6800000001 # 4)] ∅
     = [("example.com", PFin (1700000000 # 1));
        ("example.com", PFin (7130316802306867 # 4194304))]
  /\ ((7130316802306867 # 4194304)
      < (1700000000 # 1) + (2476979795053773 # 4503599627370496))%Q
  /\ ~ apart (2476979795053773 # 4503599627370496)
             (PFin (1700000000 # 1)) (PFin (7130316802306867 # 4194304)).
Proof.
  split; [vm_compute; reflexivity|]. split; [vm_compute; reflexivity|].
  split; [vm_compute; reflexivity|]. split; [reflexivity|].
  intros H. vm_compute in H. apply H. reflexivity.
Qed.

(** The sum that is rounded there and other sums, rounded up, down and
    to the even neighbour, among the least numbers and beyond the
    greatest: addition as it is defined here agrees with the Standard
    Library's specification of binary64. *)
Lemma addition_agrees_with_SpecFloat :
  sum_agrees (SpecFloat.S754_finite false 1700000000 0)
             (SpecFloat.S754_finite false 4953959590107546 (-53))
  /\ sum_agrees (SpecFloat.S754_finite false 1 0) (SpecFloat.S754_finite false 1 (-53))
  /\ sum_agrees (SpecFloat.S754_finite false 4503599627370497 (-52))
                (SpecFloat.S754_finite false 1 (-53))
  /\ sum_agrees (SpecFloat.S754_finite false 3602879701896397 (-55))
                (SpecFloat.S754_finite false 3602879701896397 (-54))
  /\ sum_agrees (SpecFloat.S754_finite false 1 (-1074))
                (SpecFloat.S754_finite false 1 (-1074))
  /\ sum_agrees (SpecFloat.S754_finite false 9007199254740991 971)
                (SpecFloat.S754_finite false 9007199254740991 971)
  /\ sum_agrees (SpecFloat.S754_finite false 9007199254740991 971)
                (SpecFloat.S754_finite false 1 917)
  /\ sum_agrees (SpecFloat.S754_finite false 9007199254740991 971)
                (SpecFloat.S754_finite false 1 918)
  /\ sum_agrees (SpecFloat.S754_finite true 3 (-1)) (SpecFloat.S754_finite false 1 (-60))
  /\ sum_agrees (SpecFloat.S754_finite false 7130316802306867 (-22))
                (SpecFloat.S754_finite true 6800000001 (-2))
  /\ sum_agrees (SpecFloat.S754_infinity false) (SpecFloat.S754_finite true 1 0)
  /\ sum_agrees (SpecFloat.S754_infinity false) (SpecFloat.S754_infinity true).
Proof. repeat split; vm_compute; reflexivity. Qed.

(** ** The key of the throttle *)

Section UrlFacts.
Import PyStr Urllib.

Lemma host_char_lacks x s :
  host_char x = false -> all_chars host_char s = true -> contains_char x s = false.
Proof.
  intros Hx. induction s as [|c r IH]; simpl; [reflexivity|].
  intros H. apply andb_true_iff in H as [Hc Hr]. rewrite (IH Hr), orb_false_r.
  apply Ascii.eqb_neq. intros ->. congruence.
Qed.

Lemma host_char_spec c :
  host_char c = true -> netloc_end c = false /\ unsafe c = false.
Proof.
  unfold host_char. destruct (netloc_end c), (unsafe c); simpl; intros H;
    try discriminate; auto.
Qed.

Lemma partition_absent x s :
  contains_char x s = false -> partition x s = (s, false, EmptyString).
Proof.
  induction s as [|c r IH]; simpl; [reflexivity|].
  intros H. apply orb_false_iff in H as [-> Hr]. now rewrite (IH Hr).
Qed.

Lemma after_last_absent x s : contains_char x s = false -> after_last x s = s.
Proof.
  destruct s as [|c r]; simpl; [reflexivity|].
  intros H. apply orb_false_iff in H as [-> ->]. reflexivity.
Qed.

Lemma lower_nonempty s : s <> EmptyString -> truthy (lower s) = true.
Proof. destruct s; [congruence | reflexivity]. Qed.

Lemma string_app_empty s : s +:+ EmptyString = s.
Proof.
  induction s as [|c r IH]; [reflexivity|].
  change (String c (r +:+ EmptyString) = String c r). now rewrite IH.
Qed.

End UrlFacts.

Section KeyFacts.
Import PyStr Urllib.

Lemma any_char_app p s t : any_char p (s +:+ t) = any_char p s || any_char p t.
Proof.
  induction s as [|c r IH]; [reflexivity|].
  change (any_char p (String c (r +:+ t)) = any_char p (String c r) || any_char p t).
  cbn [any_char]. now rewrite IH, orb_assoc.
Qed.

Lemma any_char_false_all p s :
  any_char p s = false -> all_chars (fun c => negb (p c)) s = true.
Proof.
  induction s as [|c r IH]; simpl; [reflexivity|].
  intros H. apply orb_false_iff in H as [-> Hr]. now rewrite IH.
Qed.

Lemma any_char_lacks p x s :
  any_char p s = false -> p x = true -> contains_char x s = false.
Proof.
  intros Hs Hx. induction s as [|c r IH]; simpl in *; [reflexivity|].
  apply orb_false_iff in Hs as [Hc Hr]. rewrite (IH Hr), orb_false_r.
  apply Ascii.eqb_neq. intros ->. congruence.
Qed.

Lemma all_chars_any (p q : ascii -> bool) s :
  (forall c, p c = true -> q c = false) -> all_chars p s = true -> any_char q s = false.
Proof.
  intros Hpq. induction s as [|c r IH]; simpl; [reflexivity|].
  intros H. apply andb_true_iff in H as [Hc Hr]. now rewrite (Hpq c Hc), IH.
Qed.

Lemma all_chars_lacks (p : ascii -> bool) x s :
  p x = false -> all_chars p s = true -> contains_char x s = false.
Proof.
  intros Hx. induction s as [|c r IH]; simpl; [reflexivity|].
  intros H. apply andb_true_iff in H as [Hc Hr]. rewrite (IH Hr), orb_false_r.
  apply Ascii.eqb_neq. intros ->. congruence.
Qed.

Lemma remove_unsafe_absent s : any_char unsafe s = false -> remove_unsafe s = s.
Proof.
  induction s as [|c r IH]; simpl; [reflexivity|].
  intros H. apply orb_false_iff in H as [-> Hr]. now rewrite IH.
Qed.

Lemma unsafe_is_space c : unsafe c = true -> isspace c = true.
Proof.
  unfold unsafe, isspace, code. intros H.
  destruct c as [[] [] [] [] [] [] [] []]; try discriminate; reflexivity.
Qed.

Lemma no_space_no_unsafe s : any_char isspace s = false -> any_char unsafe s = false.
Proof.
  induction s as [|c r IH]; simpl; [reflexivity|].
  intros H. apply orb_false_iff in H as [Hc Hr]. rewrite (IH Hr), orb_false_r.
  destruct (unsafe c) eqn:Hu; [|reflexivity]. apply unsafe_is_space in Hu. congruence.
Qed.

Lemma partition_found x h r :
  contains_char x h = false ->
  partition x (h +:+ String x r) = (h, true, r).
Proof.
  induction h as [|c h IH]; intros H.
  - change (partition x (String x r) = (EmptyString, true, r)).
    cbn [partition]. now rewrite Ascii.eqb_refl.
  - cbn [contains_char] in H. apply orb_false_iff in H as [Hc Hh].
    change (partition x (String c (h +:+ String x r)) = (String c h, true, r)).
    cbn [partition]. rewrite Hc. now rewrite (IH Hh).
Qed.

Lemma after_last_found x p t :
  contains_char x t = false -> after_last x (p +:+ String x t) = t.
Proof.
  intros Ht. induction p as [|c p IH].
  - change (after_last x (String x t) = t). cbn [after_last].
    now rewrite Ht, Ascii.eqb_refl.
  - change (after_last x (String c (p +:+ String x t)) = t). cbn [after_last].
    rewrite contains_char_app. cbn [contains_char]. rewrite Ascii.eqb_refl.
    now rewrite orb_true_l, orb_true_r.
Qed.

Lemma take_while_app p a rest :
  all_chars p a = true ->
  match rest with String c _ => p c = false | EmptyString => True end ->
  take_while p (a +:+ rest) = a.
Proof.
  intros Ha Hr. induction a as [|c a IH].
  - destruct rest as [|c r]; [reflexivity|]. change (take_while p (String c r) = EmptyString).
    cbn [take_while]. now rewrite Hr.
  - cbn [all_chars] in Ha. apply andb_true_iff in Ha as [Hc Ha].
    change (take_while p (String c (a +:+ rest)) = String c a).
    cbn [take_while]. now rewrite Hc, (IH Ha).
Qed.

Lemma userinfo_char_spec c :
  userinfo_char c = true ->
  netloc_end c = false /\ isspace c = false /\ Ascii.eqb c "@" = false
  /\ Ascii.eqb c "[" = false /\ Ascii.eqb c "]" = false.
Proof.
  unfold userinfo_char.
  destruct (netloc_end c), (isspace c), (Ascii.eqb c "@"), (Ascii.eqb c "["),
    (Ascii.eqb c "]"); simpl; intros H; try discriminate; auto.
Qed.

(** What holds of every character of the network location. *)
Lemma authority_chars scheme userinfo host port rest (p : ascii -> bool) :
  well_formed scheme userinfo host port rest ->
  (forall c, userinfo_char c = true -> p c = false) ->
  (forall c, host_char c = true -> isspace c = false -> p c = false) ->
  (forall c, isdecimal c = true -> p c = false) ->
  p "@"%char = false -> p ":"%char = false ->
  any_char p (authority userinfo host port) = false.
Proof.
  intros (_ & Hui & Hhost & Hsp & _ & Hport & _) Hu Hh Hd Hat Hcolon.
  unfold authority.
  rewrite !any_char_app. apply orb_false_iff. split; [|apply orb_false_iff; split].
  - destruct userinfo as [u|]; [|reflexivity].
    rewrite any_char_app. cbn [any_char]. rewrite Hat, orb_false_r.
    apply (all_chars_any userinfo_char); [exact Hu | now apply Hui].
  - clear Hui Hport. induction host as [|c h IH]; [reflexivity|].
    cbn [all_chars any_char] in *. apply andb_true_iff in Hhost as [Hc Hhost].
    apply orb_false_iff in Hsp as [Hs Hsp]. now rewrite (Hh c Hc Hs), IH.
  - destruct port as [p0|]; [|reflexivity].
    change (":" +:+ p0) with (String ":" p0). cbn [any_char]. rewrite Hcolon.
    apply (all_chars_any isdecimal); [exact Hd | now apply Hport].
Qed.

Section Target.
Variables (ok : string -> bool) (scheme : string) (userinfo : option string)
          (host : string) (port : option string) (rest : string).
Hypothesis wf : well_formed scheme userinfo host port rest.

Let auth := authority userinfo host port.
Let target := network_target scheme userinfo host port rest.

Lemma authority_no_space : any_char isspace auth = false.
Proof.
  apply (authority_chars scheme userinfo host port rest isspace wf); try reflexivity.
  - intros c Hc. now destruct (userinfo_char_spec c Hc) as (_ & -> & _).
  - auto.
  - apply isdecimal_not_space.
Qed.

Lemma authority_no_end : all_chars (fun c => negb (netloc_end c)) auth = true.
Proof.
  apply any_char_false_all.
  apply (authority_chars scheme userinfo host port rest netloc_end wf); try reflexivity.
  - intros c Hc. now destruct (userinfo_char_spec c Hc) as (-> & _).
  - intros c Hc _. now destruct (host_char_spec c Hc) as [-> _].
  - intros c Hc. unfold netloc_end.
    destruct (Ascii.eqb_spec c "/") as [->|_]; [discriminate|].
    destruct (Ascii.eqb_spec c "?") as [->|_]; [discriminate|].
    destruct (Ascii.eqb_spec c "#") as [->|_]; [discriminate|]. reflexivity.
Qed.

Lemma authority_no_bracket x :
  x = "["%char \/ x = "]"%char -> contains_char x auth = false.
Proof.
  intros Hx.
  assert (H : any_char (Ascii.eqb x) auth = false).
  { apply (authority_chars scheme userinfo host port rest (Ascii.eqb x) wf).
    - intros c Hc. destruct (userinfo_char_spec c Hc) as (_ & _ & _ & Ho & Hcl).
      rewrite Ascii.eqb_sym. destruct Hx as [-> | ->]; assumption.
    - intros c Hc _. apply Ascii.eqb_neq. intros <-.
      destruct Hx as [-> | ->]; discriminate.
    - intros c Hc. apply Ascii.eqb_neq. intros <-.
      destruct Hx as [-> | ->]; discriminate.
    - destruct Hx as [-> | ->]; reflexivity.
    - destruct Hx as [-> | ->]; reflexivity. }
  clear -H. induction auth as [|c a IH]; [reflexivity|].
  cbn [any_char contains_char] in *. apply orb_false_iff in H as [Hc Ha].
  rewrite Ascii.eqb_sym, Hc. now apply IH.
Qed.

Lemma target_no_space : any_char isspace target = false.
Proof.
  subst target. unfold network_target. destruct wf as (Hs & _ & _ & _ & _ & _ & _ & Hrest).
  rewrite !any_char_app. fold auth. rewrite authority_no_space, Hrest.
  destruct Hs as [-> | ->]; reflexivity.
Qed.

End Target.

Lemma append_cons_assoc u x t : (u +:+ String x EmptyString) +:+ t = u +:+ String x t.
Proof.
  induction u as [|c u IH]; [reflexivity|].
  change (String c ((u +:+ String x EmptyString) +:+ t) = String c (u +:+ String x t)).
  now rewrite IH.
Qed.

Lemma hostname_of_authority scheme userinfo host port rest :
  well_formed scheme userinfo host port rest ->
  hostname_of_netloc (authority userinfo host port) = Some (lower host).
Proof.
  intros (_ & Hui & Hhost & Hsp & Hne & Hport & _).
  set (tail := match port with Some p => ":" +:+ p | None => EmptyString end).
  assert (Hdigits : forall x, isdecimal x = false -> Ascii.eqb ":" x = false ->
                              contains_char x tail = false).
  { intros x Hx Hcx. subst tail. destruct port as [p|]; [|reflexivity].
    change (":" +:+ p) with (String ":" p). cbn [contains_char]. rewrite Hcx.
    apply (all_chars_lacks isdecimal); [exact Hx | now apply Hport]. }
  assert (Htail_at : contains_char "@" (host +:+ tail) = false).
  { rewrite contains_char_app, (host_char_lacks "@" host eq_refl Hhost).
    now apply Hdigits. }
  assert (Hinfo : after_last "@" (authority userinfo host port) = host +:+ tail).
  { unfold authority. fold tail. destruct userinfo as [u|].
    - change (u +:+ "@") with (u +:+ String "@" EmptyString).
      rewrite append_cons_assoc. now apply after_last_found.
    - change (after_last "@" (host +:+ tail) = host +:+ tail).
      now apply after_last_absent. }
  unfold hostname_of_netloc. rewrite Hinfo.
  assert (Hbr : contains_char "[" (host +:+ tail) = false).
  { rewrite contains_char_app, (host_char_lacks "[" host eq_refl Hhost).
    now apply Hdigits. }
  rewrite (partition_absent "[" _ Hbr).
  assert (Hcol : fst (fst (partition ":" (host +:+ tail))) = host).
  { subst tail. destruct port as [p|].
    - change (":" +:+ p) with (String ":" p).
      now rewrite (partition_found ":" host p (host_char_lacks ":" host eq_refl Hhost)).
    - rewrite string_app_empty.
      now rewrite (partition_absent ":" host (host_char_lacks ":" host eq_refl Hhost)). }
  rewrite Hcol. destruct host as [|c r] eqn:E; [congruence|]. cbn [truthy].
  rewrite <- E in *. rewrite (partition_absent "%") by (now apply host_char_lacks).
  now rewrite !string_app_empty.
Qed.

(** The key of a well-formed target as it stands. *)
Lemma throttle_key_of_target ok scheme userinfo host port rest :
  well_formed scheme userinfo host port rest ->
  Throttle.throttle_key ok (network_target scheme userinfo host port rest) = lower host.
Proof.
  intros wf. pose proof (target_no_space scheme userinfo host port rest wf) as Hsp.
  pose proof (hostname_of_authority scheme userinfo host port rest wf) as Hhost.
  pose proof (authority_no_end scheme userinfo host port rest wf) as Hend.
  pose proof (authority_no_bracket scheme userinfo host port rest wf) as Hbr.
  destruct wf as (Hs & _ & _ & _ & Hne & _ & Hrest & _).
  set (target := network_target scheme userinfo host port rest) in *.
  set (auth := authority userinfo host port) in *.
  unfold Throttle.throttle_key, urlparse_hostname.
  assert (Hdrop : drop_while c0_or_space target = target)
    by (subst target; unfold network_target; destruct Hs as [-> | ->]; reflexivity).
  rewrite Hdrop, (remove_unsafe_absent _ (no_space_no_unsafe _ Hsp)).
  assert (Hnet : netloc_of (after_scheme target) = auth).
  { transitivity (take_while (fun c => negb (netloc_end c)) (auth +:+ rest)).
    - subst target. unfold network_target. fold auth.
      destruct Hs as [-> | ->]; reflexivity.
    - apply take_while_app; [exact Hend|].
      destruct rest as [|c r]; [exact I|]. cbn [path_like] in Hrest. now rewrite Hrest. }
  rewrite Hnet.
  rewrite (Hbr "["%char (or_introl eq_refl)), (Hbr "]"%char (or_intror eq_refl)).
  cbn [andb orb negb]. rewrite Hhost.
  now rewrite (lower_nonempty _ Hne).
Qed.

(** [normalize_url] leaves a well-formed target as it is, unless it
    cuts it. *)
Lemma normalize_url_of_target scheme userinfo host port rest :
  well_formed scheme userinfo host port rest ->
  uncut (network_target scheme userinfo host port rest) ->
  QrCrawler.normalize_url (network_target scheme userinfo host port rest)
  = network_target scheme userinfo host port rest.
Proof.
  intros wf Hcut. pose proof (target_no_space scheme userinfo host port rest wf) as Hsp.
  destruct wf as (Hs & _).
  set (target := network_target scheme userinfo host port rest) in *.
  unfold QrCrawler.normalize_url.
  assert (Hclean : QrCrawler.without_invisible (strip target) = target).
  { rewrite (strip_no_space _ (any_char_false_all _ _ Hsp)).
    unfold QrCrawler.without_invisible, QrCrawler.invisible.
    cbn [fold_left QrCrawler.delete].
    apply remove_char_absent. now apply (any_char_lacks isspace). }
  rewrite Hclean.
  assert (Htruthy : truthy target = true)
    by (subst target; unfold network_target; destruct Hs as [-> | ->]; reflexivity).
  rewrite Htruthy. cbn [negb].
  assert (Hkeep : QrCrawler.cut_to_scheme target = target).
  { unfold QrCrawler.cut_to_scheme.
    destruct (find "http://" (lower target)) as [[|i]|] eqn:H1;
      [| exfalso; apply (Hcut "http://" i); [simpl; auto | exact H1] |];
      (destruct (find "https://" (lower target)) as [[|j]|] eqn:H2;
       [| exfalso; apply (Hcut "https://" j); [simpl; auto | exact H2] |]);
      (destruct (find "file://" (lower target)) as [[|k]|] eqn:H3;
       [| exfalso; apply (Hcut "file://" k); [simpl; auto | exact H3] |]);
      reflexivity. }
  rewrite Hkeep.
  subst target. unfold network_target. destruct Hs as [-> | ->]; reflexivity.
Qed.

Lemma throttle_key_of_normalized ok scheme userinfo host port rest :
  well_formed scheme userinfo host port rest ->
  uncut (network_target scheme userinfo host port rest) ->
  Throttle.throttle_key ok
    (QrCrawler.normalize_url (network_target scheme userinfo host port rest))
  = lower host.
Proof.
  intros wf Hcut. rewrite (normalize_url_of_target _ _ _ _ _ wf Hcut).
  now apply throttle_key_of_target.
Qed.

End KeyFacts.

(** C9, as the code has it.  The throttle keys a reservation by the host
    name alone, in lower case.  For a well-formed target (the scheme http
    or https in lower case, a network location with a non-empty host name
    and, if any, user information and a port, then nothing or a path, a
    query or a fragment, no white space) that [normalize_url] does not
    cut, the key computed from the normalized target is the host in lower
    case, so two such targets have the same key exactly when their hosts
    agree up to case, whatever their schemes, user information and ports;
    when the parser finds no host or raises, the key is the whole
    normalized target. *)
Theorem throttle_key_is_host :
  (forall (ok : string -> bool) (scheme : string) (userinfo : option string)
          (host : string) (port : option string) (rest : string),
      well_formed scheme userinfo host port rest ->
      uncut (network_target scheme userinfo host port rest) ->
      Throttle.throttle_key ok
        (QrCrawler.normalize_url (network_target scheme userinfo host port rest))
      = PyStr.lower host)
  /\ (forall (ok : string -> bool) (s1 s2 : string) (u1 u2 : option string)
             (h1 h2 : string) (p1 p2 : option string) (r1 r2 : string),
         well_formed s1 u1 h1 p1 r1 -> well_formed s2 u2 h2 p2 r2 ->
         uncut (network_target s1 u1 h1 p1 r1) ->
         uncut (network_target s2 u2 h2 p2 r2) ->
         (Throttle.throttle_key ok (QrCrawler.normalize_url (network_target s1 u1 h1 p1 r1))
          = Throttle.throttle_key ok (QrCrawler.normalize_url (network_target s2 u2 h2 p2 r2))
          <-> PyStr.lower h1 = PyStr.lower h2))
  /\ (forall (ok : string -> bool) (target : string),
         Urllib.urlparse_hostname ok (QrCrawler.normalize_url target) = Ok None
         \/ (exists m, Urllib.urlparse_hostname ok (QrCrawler.normalize_url target) = Raise m) ->
         Throttle.throttle_key ok (QrCrawler.normalize_url target)
         = QrCrawler.normalize_url target)
  /\ (forall ok : string -> bool,
         Throttle.throttle_key ok (QrCrawler.normalize_url "[::1") = "http://[::1"
         /\ Throttle.throttle_key ok (QrCrawler.normalize_url "http:///nota")
            = "http:///nota").
Proof.
  split; [|split; [|split]].
  - intros ok scheme userinfo host port rest Hwf Hcut.
    now apply throttle_key_of_normalized.
  - intros ok s1 s2 u1 u2 h1 h2 p1 p2 r1 r2 Hw1 Hw2 Hc1 Hc2.
    now rewrite (throttle_key_of_normalized ok s1 u1 h1 p1 r1 Hw1 Hc1),
                (throttle_key_of_normalized ok s2 u2 h2 p2 r2 Hw2 Hc2).
  - intros ok u [H|[m H]]; unfold Throttle.throttle_key; now rewrite H.
  - intros ok. split; reflexivity.
Qed.

Lemma throttle_key_is_host_witness :
  Throttle.throttle_key (fun _ => true)
    (QrCrawler.normalize_url
       (network_target "https" (Some "user:secret") "Example.COM" (Some "8443")
                       "/nota?p=1"))
  = "example.com".
Proof.
  apply (proj1 throttle_key_is_host (fun _ => true) "https" (Some "user:secret")
               "Example.COM" (Some "8443") "/nota?p=1").
  - split; [right; reflexivity|]. split; [intros u [= <-]; reflexivity|].
    split; [reflexivity|]. split; [reflexivity|]. split; [discriminate|].
    split; [intros p [= <-]; reflexivity|]. split; reflexivity.
  - intros m i [<-|[<-|[<-|[]]]]; vm_compute; discriminate.
Defined.

(** C9, as the specification words it, fails: two targets that differ in
    their scheme only are throttled under one key, the host.  Nor do two
    hosts always have two keys: a scheme in upper case is taken for a
    host named http, whatever host follows, and a target that holds a
    second marker is cut to it and keyed by the host that follows the
    second marker. *)
Lemma throttle_key_same_across_schemes :
  (Throttle.throttle_key (fun _ => true)
     (QrCrawler.normalize_url "http://example.com/nota") = "example.com"
   /\ Throttle.throttle_key (fun _ => true)
        (QrCrawler.normalize_url "https://example.com/nota") = "example.com")
  /\ (Throttle.throttle_key (fun _ => true)
        (QrCrawler.normalize_url "HTTP://a.com/nota") = "http"
      /\ Throttle.throttle_key (fun _ => true)
           (QrCrawler.normalize_url "HTTP://b.com/nota") = "http")
  /\ (Throttle.throttle_key (fun _ => true)
        (QrCrawler.normalize_url "https://a.com/r?next=http://b.com") = "b.com"
      /\ Throttle.throttle_key (fun _ => true)
           (QrCrawler.normalize_url "http://b.com") = "b.com").
Proof. repeat split; reflexivity. Qed.

(** ** The elapsed time of a fetch *)

Section FetchFacts.
Import PyStr Fetch.

Lemma except_finally_time e start c st :
  fetch_time (fst (except_finally e start c st))
  = Some (round3 (clock e (reads st) - start)).
Proof. unfold except_finally. now destruct c. Qed.

Lemma throttle_reads e d u st :
  (reads st <= reads (QrCrawler.throttle e d u st))%nat.
Proof.
  unfold QrCrawler.throttle. destruct (negb (Qle_bool d 0)); [|lia].
  cbn [read_clock]. destruct (Throttle.reserve _ _ _ _). cbn [reads]. lia.
Qed.

Lemma qr_attempt_reads e d u o st :
  (reads st <= reads (snd (QrCrawler.attempt e d u o st)))%nat.
Proof.
  unfold QrCrawler.attempt.
  destruct (startswith "file://" u).
  - destruct (path_exists e _); [destruct (read_text e _)|]; cbn [snd]; lia.
  - pose proof (throttle_reads e d u st).
    destruct (http_get e u) as [r|m]; [destruct (truthy _)|]; cbn [snd]; lia.
Qed.

Lemma crawler_attempt_reads e start u o st :
  (reads st <= reads (snd (Crawler.attempt e start u o st)))%nat.
Proof.
  unfold Crawler.attempt.
  destruct (startswith "file://" u).
  - destruct (path_exists e _); [destruct (read_text e _)|]; cbn [snd read_clock reads]; lia.
  - destruct (http_get e u) as [r|m]; [destruct (truthy _)|]; cbn [snd]; lia.
Qed.

(** A fetch of a non-empty target stores the rounded difference of a
    later and of the first reading of the clock. *)
Lemma qr_fetch_time_nonempty e url d st :
  url <> EmptyString ->
  exists n, (reads st < n)%nat
            /\ fetch_time (fst (QrCrawler.fetch_url e url d st))
               = Some (round3 (clock e n - clock e (reads st))).
Proof.
  intros Hne. unfold QrCrawler.fetch_url. cbn [read_clock].
  destruct url as [|c r]; [congruence|]. cbn [truthy negb].
  set (st1 := mk_state _ _ _).
  pose proof (qr_attempt_reads e d (QrCrawler.normalize_url (String c r))
                               (blank (String c r)) st1) as Hr.
  destruct (QrCrawler.attempt _ _ _ _ _) as [cpl st2]. cbn [snd] in Hr.
  exists (reads st2). split; [subst st1; cbn [reads] in Hr; lia|].
  apply except_finally_time.
Qed.

Lemma crawler_fetch_time_nonempty e url st :
  url <> EmptyString ->
  exists n, (reads st < n)%nat
            /\ fetch_time (fst (Crawler.fetch_url e url st))
               = Some (round3 (clock e n - clock e (reads st))).
Proof.
  intros Hne. unfold Crawler.fetch_url. cbn [read_clock].
  destruct url as [|c r]; [congruence|]. cbn [truthy negb].
  set (st1 := mk_state _ _ _).
  pose proof (crawler_attempt_reads e (clock e (reads st))
                (Crawler.normalize_url (String c r)) (blank (String c r)) st1) as Hr.
  destruct (Crawler.attempt _ _ _ _ _) as [cpl st2]. cbn [snd] in Hr.
  exists (reads st2). split; [subst st1; cbn [reads] in Hr; lia|].
  apply except_finally_time.
Qed.

End FetchFacts.

(** C7. The elapsed time of a fetch, in qr_crawler.py and in crawler.py:
    for the empty target [fetch_url] returns at once with the error
    "empty url" and leaves [fetch_time] as empty as it was created; for
    every other target, whether the fetch succeeds, fails in transport or
    finds no file, [fetch_time] holds the rounded time between the first
    reading of the clock and a later one. *)
Theorem fetch_time_left_empty_for_empty_url :
  (forall (e : env) (d : Q) (st : state),
      fetch_time (fst (QrCrawler.fetch_url e EmptyString d st)) = None
      /\ error (fst (QrCrawler.fetch_url e EmptyString d st)) = "empty url")
  /\ (forall (e : env) (st : state),
         fetch_time (fst (Crawler.fetch_url e EmptyString st)) = None
         /\ error (fst (Crawler.fetch_url e EmptyString st)) = "empty url")
  /\ (forall (e : env) (url : string) (d : Q) (st : state),
         url <> EmptyString ->
         exists n, (reads st < n)%nat
                   /\ fetch_time (fst (QrCrawler.fetch_url e url d st))
                      = Some (Fetch.round3 (clock e n - clock e (reads st))))
  /\ (forall (e : env) (url : string) (st : state),
         url <> EmptyString ->
         exists n, (reads st < n)%nat
                   /\ fetch_time (fst (Crawler.fetch_url e url st))
                      = Some (Fetch.round3 (clock e n - clock e (reads st)))).
Proof.
  repeat split.
  - apply qr_fetch_time_nonempty.
  - apply crawler_fetch_time_nonempty.
Qed.

(** ** The rows of the comparison *)

Section DictFacts.
Context {V : Type}.
Implicit Types (d e : list (string * V)) (k : string) (v : V).

Lemma get_set_eq d k v : PyDict.get (PyDict.set d k v) k = Some v.
Proof.
  induction d as [|[k' v'] d IH]; simpl.
  - now rewrite String.eqb_refl.
  - destruct (String.eqb_spec k' k) as [->|Hne]; simpl.
    + now rewrite String.eqb_refl.
    + apply String.eqb_neq in Hne. now rewrite Hne.
Qed.

Lemma get_set_ne d k k' v : k <> k' -> PyDict.get (PyDict.set d k v) k' = PyDict.get d k'.
Proof.
  intros Hne. induction d as [|[k0 v0] d IH]; simpl.
  - apply String.eqb_neq in Hne. now rewrite Hne.
  - destruct (String.eqb_spec k0 k) as [->|Hk]; simpl.
    + apply String.eqb_neq in Hne. now rewrite Hne.
    + now rewrite IH.
Qed.

Lemma get_update_other e d k :
  ~ In k (map fst e) -> PyDict.get (PyDict.update d e) k = PyDict.get d k.
Proof.
  unfold PyDict.update. revert d. induction e as [|[k0 v0] e IH]; intros d Hk; simpl.
  - reflexivity.
  - rewrite IH by (intros H; apply Hk; now right).
    apply get_set_ne. intros ->. apply Hk. now left.
Qed.

Lemma get_set_some d k k' v :
  is_Some (PyDict.get d k') -> is_Some (PyDict.get (PyDict.set d k v) k').
Proof.
  intros H. destruct (String.eqb_spec k k') as [->|Hne].
  - rewrite get_set_eq. eauto.
  - now rewrite get_set_ne.
Qed.

Lemma get_update_some e d k :
  is_Some (PyDict.get d k) -> is_Some (PyDict.get (PyDict.update d e) k).
Proof.
  unfold PyDict.update. revert d. induction e as [|[k0 v0] e IH]; intros d H; simpl.
  - exact H.
  - apply IH. now apply get_set_some.
Qed.

Lemma get_update_in e d k :
  In k (map fst e) -> is_Some (PyDict.get (PyDict.update d e) k).
Proof.
  unfold PyDict.update. revert d. induction e as [|[k0 v0] e IH]; intros d H; simpl.
  - destruct H.
  - destruct (String.eqb_spec k0 k) as [->|Hne].
    + apply (get_update_some e). rewrite get_set_eq. eauto.
    + destruct H as [H|H]; [contradiction|]. now apply IH.
Qed.

Lemma get_update_inv e d k :
  is_Some (PyDict.get (PyDict.update d e) k) ->
  is_Some (PyDict.get d k) \/ In k (map fst e).
Proof.
  destruct (in_dec String.string_dec k (map fst e)) as [Hin|Hnin]; [now right|].
  rewrite (get_update_other e d k Hnin). now left.
Qed.

End DictFacts.

Section PipelineFacts.
Import ComparePlanilha.

Lemma get_dict_of_row c k : PyDict.get (dict_of_row c) k = of_field <$> PyDict.get c k.
Proof.
  induction c as [|[k' v'] c IH]; simpl; [reflexivity|].
  destruct (String.eqb k' k); [reflexivity | exact IH].
Qed.

Lemma scan_exact_in {Row} (num : Row -> option Z) t rs r :
  scan_exact num t rs = Some r -> In r rs.
Proof.
  induction rs as [|x rs IH]; simpl; [discriminate|].
  destruct (num x) as [n|]; [destruct (n =? t)|]; intros H;
    [injection H as <-; now left | right; auto | right; auto].
Qed.

Lemma scan_nearest_in {Row} (num : Row -> option Z) t rs r dd :
  scan_nearest num t rs = Some (r, dd) -> In r rs.
Proof.
  intros H. pose proof (nearest_loop_inv num t rs [] None) as Hinv.
  simpl in Hinv. specialize (Hinv (fun _ (F : False) => match F with end)).
  unfold scan_nearest in H. rewrite H in Hinv.
  destruct Hinv as (pre & post & n & -> & _). apply in_or_app. right. now left.
Qed.

Lemma best_of_in {Row} (num : Row -> option Z) target rs maxdiff r dd :
  best_of num target rs maxdiff = (Some r, dd) -> In r rs.
Proof.
  unfold best_of. destruct target as [t|]; [|discriminate].
  destruct (scan_exact num t rs) as [x|] eqn:He.
  - intros [= <- _]. now apply (scan_exact_in num t).
  - destruct (scan_nearest num t rs) as [[b bd]|] eqn:Hn; [|discriminate].
    destruct (bd <=? maxdiff); [|discriminate].
    intros [= <- _]. now apply (scan_nearest_in num t rs b bd).
Qed.

Lemma classify_string_ok v e : exists l, classify v (Some e) = Ok l.
Proof.
  unfold classify. destruct v as [v|]; [|eauto].
  destruct (PyFloat.gt_int v 100); [eauto|].
  destruct (PyFloat.int_le 40 v && PyFloat.le_int v 55); [|eauto].
  destruct (search_hh_mm e) as [g|] eqn:Hs; [|eauto].
  destruct (search_hh_mm_hour _ _ Hs) as (h & -> & _). eauto.
Qed.

(** With an issuance field in every result, the body of the loop ends
    normally and its row is the reference row updated with the five
    added columns. *)
Lemma compare_row_ok resultados c :
  (forall r, In r resultados -> row_get_default r "emissao" <> None) ->
  exists cl mn mv me note,
    compare_row resultados c
    = Ok (PyDict.update (dict_of_row c)
            [("classificacao", VStr cl); ("matched_num", mn);
             ("matched_valor", mv); ("matched_emissao", me);
             ("observacao", VStr note)]).
Proof.
  intros Hem. unfold compare_row.
  destruct (find_best _ resultados default_tolerance) as [matched diff] eqn:Hf.
  destruct matched as [m|]; cbn [result_bind]; [|repeat eexists].
  pose proof (Hem m (best_of_in _ _ _ _ _ _ Hf)) as Hm.
  destruct (row_get_default m "emissao") as [e|]; [|congruence].
  destruct (classify_string_ok (parse_currency (row_get m "valor_pagar")) e) as [l ->].
  cbn [result_bind]. repeat eexists.
Qed.

Lemma compare_row_fields resultados c out :
  (forall r, In r resultados -> row_get_default r "emissao" <> None) ->
  compare_row resultados c = Ok out ->
  (forall k, ~ In k extra_columns -> PyDict.get out k = of_field <$> PyDict.get c k)
  /\ (forall k, In k extra_columns -> is_Some (PyDict.get out k))
  /\ (forall k, is_Some (PyDict.get out k) ->
                is_Some (PyDict.get c k) \/ In k extra_columns).
Proof.
  intros Hem Hrow.
  destruct (compare_row_ok resultados c Hem) as (cl & mn & mv & me & note & Heq).
  set (upd := PyDict.update _ _) in Heq.
  rewrite Heq in Hrow. injection Hrow as Hrow. subst out. unfold upd. repeat split.
  - intros k Hk. rewrite get_update_other by exact Hk. apply get_dict_of_row.
  - intros k Hk. now apply get_update_in.
  - intros k Hk. apply get_update_inv in Hk as [Hk|Hk]; [left | now right].
    rewrite get_dict_of_row in Hk. destruct (PyDict.get c k); [eauto|].
    destruct Hk as [? [=]].
Qed.

Lemma compare_loop_rows resultados comps acc :
  (forall r, In r resultados -> row_get_default r "emissao" <> None) ->
  exists outs,
    compare_loop resultados comps acc = Ok (acc ++ outs)
    /\ Forall2 (fun c out => compare_row resultados c = Ok out) comps outs.
Proof.
  intros Hem. revert acc. induction comps as [|c comps IH]; intros acc;
    cbn [compare_loop].
  - exists []. now rewrite app_nil_r.
  - destruct (compare_row_ok resultados c Hem) as (cl & mn & mv & me & note & Heq).
    rewrite Heq. cbv beta iota. destruct (IH (acc ++ [PyDict.update (dict_of_row c)
            [("classificacao", VStr cl); ("matched_num", mn);
             ("matched_valor", mv); ("matched_emissao", me);
             ("observacao", VStr note)]])) as (outs & Hloop & Hall).
    eexists (_ :: outs). split.
    + rewrite <- app_assoc in Hloop. exact Hloop.
    + constructor; [exact Heq | exact Hall].
Qed.

Lemma written_row_lookup hdr out p k :
  hdr !! p = Some k ->
  written_row hdr out !! p
  = Some (match PyDict.get out k with Some v => v | None => VStr EmptyString end).
Proof. intros H. unfold written_row. now rewrite list_lookup_fmap, H. Qed.

End PipelineFacts.

(** C6, as the code has it. For every list of reference rows and every
    table of results in which each row has an issuance field, the
    comparison ends with exactly one output row per reference row, in the
    input order, whatever the order of the table of results; each output
    row keeps unchanged every field of its reference row whose name is
    not one of classificacao, matched_num, matched_valor, matched_emissao
    and observacao, holds these five columns, and holds no other column;
    the lines written are these rows laid out along the header. *)
Theorem pipeline_rows_follow_references (comps resultados : list csv_row) :
  (forall r, In r resultados -> row_get_default r "emissao" <> None) ->
  rows_follow_references comps resultados.
Proof.
  intros Hem.
  destruct (compare_loop_rows resultados comps [] Hem) as (outs & Hloop & Hall).
  simpl in Hloop. exists outs. split; [exact Hloop|]. split; [|split].
  - symmetry. exact (Forall2_length _ _ _ Hall).
  - intros i c Hc.
    destruct (Forall2_lookup_l _ _ _ _ _ Hall Hc) as (out & Hout & Hrow).
    exists out. split; [exact Hout|]. split; [exact Hrow|].
    destruct (compare_row_fields resultados c out Hem Hrow) as (Hkeep & Hadd & Honly).
    repeat split; try assumption.
    intros p k Hp Hk. rewrite (written_row_lookup _ _ _ _ Hp), (Hkeep k Hk).
    now destruct (PyDict.get c k).
  - unfold ComparePlanilha.main. now rewrite Hloop.
Qed.

Lemma pipeline_rows_follow_references_witness :
  rows_follow_references
    [[("numNotaFiscal", Some "00101"); ("Data", Some "05-11-25"); ("Valor", Some "45,00")];
     [("numNotaFiscal", Some "230"); ("Data", Some "06-11-25"); ("Valor", Some "150,00")]]
    [result_line "229" "06/11/2025" "150,00";
     result_line "101" "05/11/2025 12:30:00" "45,00"].
Proof.
  apply pipeline_rows_follow_references.
  intros r [<-|[<-|[]]]; discriminate.
Defined.

(** C6, as the specification words it, fails: a field of a reference row
    that bears the name of an added column is overwritten. *)
Lemma pipeline_overwrites_field_named_as_added_column :
  exists out : ComparePlanilha.out_row,
    ComparePlanilha.compare_loop
      [] [[("numNotaFiscal", Some "00101"); ("observacao", Some "conferido")]] []
    = Ok [out]
    /\ PyDict.get [("numNotaFiscal", Some "00101"); ("observacao", Some "conferido")]
         "observacao" = Some (Some "conferido")
    /\ PyDict.get out "observacao" = Some (ComparePlanilha.VStr "NAO_ENCONTRADO").
Proof. eexists. split; [reflexivity|]. split; reflexivity. Qed.

(** * Further properties *)

#[local] Set Warnings "-clear-no-such-hyp".

(** ** Sequential file names *)

Section SeqFileFacts.
Import PyStr SeqFile.

Lemma digits_acc_app acc p q :
  digits_acc acc (p +:+ q) = digits_acc (digits_acc acc p) q.
Proof.
  revert acc. induction p as [|c r IH]; intros acc; [reflexivity|].
  change (String c r +:+ q) with (String c (r +:+ q)). cbn [digits_acc]. apply IH.
Qed.

Lemma app_assoc_str a b c : (a +:+ b) +:+ c = a +:+ b +:+ c.
Proof.
  induction a as [|x a IH]; [reflexivity|].
  change (String x ((a +:+ b) +:+ c) = String x (a +:+ b +:+ c)). now rewrite IH.
Qed.

Lemma length_app_str a b :
  String.length (a +:+ b) = (String.length a + String.length b)%nat.
Proof.
  induction a as [|x a IH]; [reflexivity|].
  change (S (String.length (a +:+ b)) = S (String.length a + String.length b)).
  now rewrite IH.
Qed.

Lemma pretty_N_char_digit x :
  (x < 10)%N ->
  isdecimal (pretty_N_char x) = true /\ digit_value (pretty_N_char x) = Z.of_N x.
Proof.
  intros H.
  assert (x = 0 \/ x = 1 \/ x = 2 \/ x = 3 \/ x = 4 \/ x = 5 \/ x = 6 \/ x = 7
          \/ x = 8 \/ x = 9)%N as Hx by lia.
  repeat destruct Hx as [->|Hx]; try subst x; split; reflexivity.
Qed.

(** The digits [pretty] writes in front of a string. *)
Lemma pretty_N_go_digits x :
  exists p, (forall s, pretty_N_go x s = p +:+ s)
            /\ all_chars isdecimal p = true
            /\ digits_value p = Z.of_N x
            /\ ((0 < x)%N -> p <> EmptyString).
Proof.
  induction (N.lt_wf_0 x) as [x _ IH].
  destruct (N.eq_dec x 0%N) as [->|Hne].
  - exists EmptyString. split; [reflexivity|]. split; [reflexivity|].
    split; [reflexivity | lia].
  - assert (Hpos : (0 < x)%N) by lia.
    destruct (IH (x `div` 10)%N) as (p & Hgo & Hdig & Hval & _).
    { now apply N.div_lt. }
    destruct (pretty_N_char_digit (x `mod` 10)%N) as [Hc Hv].
    { now apply N.mod_lt. }
    exists (p +:+ String (pretty_N_char (x `mod` 10)) EmptyString). repeat split.
    + intros s. rewrite (pretty_N_go_step x s Hpos), Hgo. now rewrite app_assoc_str.
    + rewrite all_chars_app, Hdig. simpl. now rewrite Hc.
    + unfold digits_value in *. rewrite digits_acc_app, Hval. simpl. rewrite Hv.
      rewrite (N.div_mod x 10) at 3 by lia. lia.
    + intros _. destruct p; discriminate.
Qed.

Lemma pretty_Z_digits n :
  0 < n ->
  all_chars isdecimal (pretty n) = true
  /\ pretty n <> EmptyString
  /\ digits_value (pretty n) = n.
Proof.
  intros Hn. destruct n as [|x|x]; try lia.
  unfold pretty, pretty_Z, pretty, pretty_positive, pretty, pretty_N.
  destruct (decide (N.pos x = 0%N)) as [|_]; [discriminate|].
  destruct (pretty_N_go_digits (N.pos x)) as (p & Hgo & Hdig & Hval & Hne).
  rewrite Hgo, string_app_empty. repeat split; [exact Hdig | apply Hne; lia | exact Hval].
Qed.

Lemma span_digits_join s : fst (span_digits s) +:+ snd (span_digits s) = s.
Proof.
  induction s as [|c r IH]; [reflexivity|]. cbn [span_digits].
  destruct (isdecimal c); [|reflexivity].
  destruct (span_digits r) as [d rest]. cbn [fst snd] in *.
  change (String c (d +:+ rest) = String c r). now rewrite IH.
Qed.

Lemma span_digits_fst_digits s : all_chars isdecimal (fst (span_digits s)) = true.
Proof.
  induction s as [|c r IH]; [reflexivity|]. simpl.
  destruct (isdecimal c) eqn:Hc; [|reflexivity].
  destruct (span_digits r) as [d rest]. simpl in *. now rewrite Hc.
Qed.

Lemma span_digits_app p t :
  all_chars isdecimal p = true ->
  span_digits (p +:+ t) = (p +:+ fst (span_digits t), snd (span_digits t)).
Proof.
  induction p as [|c r IH]; intros H.
  - change (EmptyString +:+ t) with t. now destruct (span_digits t).
  - simpl in H. apply andb_true_iff in H as [Hc Hr].
    change (String c r +:+ t) with (String c (r +:+ t)).
    cbn [span_digits]. now rewrite Hc, (IH Hr).
Qed.

Lemma eqb_length_false a b :
  String.length a <> String.length b -> String.eqb a b = false.
Proof. intros H. apply String.eqb_neq. intros ->. congruence. Qed.

Lemma longest_group_short ext ds rest :
  (String.length (ds +:+ rest) <= String.length ext)%nat ->
  longest_group ext ds rest = None.
Proof.
  induction ds as [|c ds IH]; intros H; [reflexivity|].
  change (String c ds +:+ rest) with (String c (ds +:+ rest)) in H. cbn [String.length] in H.
  cbn [longest_group]. rewrite IH by lia. unfold tail_ok.
  rewrite !eqb_length_false; [reflexivity | | lia].
  rewrite (length_app_str ext). simpl. lia.
Qed.

Lemma longest_group_name ext p e1 e2 :
  p <> EmptyString -> e1 +:+ e2 = ext ->
  longest_group ext (p +:+ e1) e2 = Some p.
Proof.
  intros Hp He. induction p as [|c p IH]; [congruence|].
  change (String c p +:+ e1) with (String c (p +:+ e1)). cbn [longest_group].
  destruct p as [|c' p'].
  - change (EmptyString +:+ e1) with e1. rewrite longest_group_short by (rewrite He; lia).
    unfold tail_ok. now rewrite He, String.eqb_refl.
  - now rewrite IH.
Qed.

Lemma longest_group_digits ext ds rest g :
  all_chars isdecimal ds = true -> longest_group ext ds rest = Some g ->
  all_chars isdecimal g = true /\ g <> EmptyString.
Proof.
  revert g. induction ds as [|c ds IH]; intros g Hds H; [discriminate|].
  simpl in Hds. apply andb_true_iff in Hds as [Hc Hds].
  cbn [longest_group] in H. destruct (longest_group ext ds rest) as [g'|].
  - injection H as <-. destruct (IH g' Hds eq_refl) as [Hg _].
    split; [simpl; now rewrite Hc | discriminate].
  - destruct (tail_ok ext _); [|discriminate]. injection H as <-.
    split; [simpl; now rewrite Hc | discriminate].
Qed.

Lemma match_here_digits prefix ext s g :
  match_here prefix ext s = Some g -> all_chars isdecimal g = true /\ g <> EmptyString.
Proof.
  unfold match_here. destruct (startswith _ _); [|discriminate].
  pose proof (span_digits_fst_digits (drop (String.length prefix + 1) s)) as Hd.
  destruct (span_digits _) as [ds rest]. cbn [fst] in Hd.
  now apply longest_group_digits.
Qed.

Lemma search_digits prefix ext s g :
  search prefix ext s = Some g -> all_chars isdecimal g = true /\ g <> EmptyString.
Proof.
  induction s as [|c r IH]; cbn [search].
  - destruct (match_here prefix ext EmptyString) as [g'|] eqn:Hm; [|discriminate].
    intros [= <-]. now apply (match_here_digits prefix ext EmptyString).
  - destruct (match_here prefix ext (String c r)) as [g'|] eqn:Hm; [|exact IH].
    intros [= <-]. now apply (match_here_digits prefix ext (String c r)).
Qed.

Lemma startswith_app p t : startswith p (p +:+ t) = true.
Proof.
  induction p as [|c p IH]; [reflexivity|].
  change (String c p +:+ t) with (String c (p +:+ t)). simpl.
  now rewrite Ascii.eqb_refl, IH.
Qed.

Lemma drop_app p t : drop (String.length p) (p +:+ t) = t.
Proof. induction p as [|c p IH]; [reflexivity | exact IH]. Qed.

Lemma search_seq_name prefix ext n :
  0 < n -> search prefix ext (seq_name prefix n ext) = Some (pretty n).
Proof.
  intros Hn. destruct (pretty_Z_digits n Hn) as (Hdig & Hne & _).
  assert (Hm : match_here prefix ext (seq_name prefix n ext) = Some (pretty n)).
  { unfold match_here, seq_name.
    rewrite <- (app_assoc_str prefix "-"), startswith_app.
    replace (String.length prefix + 1)%nat with (String.length (prefix +:+ "-"))
      by (rewrite length_app_str; reflexivity).
    rewrite drop_app, (span_digits_app _ _ Hdig).
    apply longest_group_name; [exact Hne | apply span_digits_join]. }
  destruct (seq_name prefix n ext); cbn [search]; now rewrite Hm.
Qed.

Lemma numbers_in prefix ext existing name g v :
  In name existing -> search prefix ext name = Some g -> py_int g = Some v ->
  In v (numbers prefix ext existing).
Proof.
  intros Hin Hs Hv. induction existing as [|x existing IH]; [destruct Hin|].
  cbn [numbers]. destruct Hin as [->|Hin].
  - rewrite Hs, Hv. now left.
  - destruct (search prefix ext x) as [g'|]; [destruct (py_int g')|]; auto.
    right. auto.
Qed.

Lemma numbers_nonneg prefix ext existing v :
  In v (numbers prefix ext existing) -> 0 <= v.
Proof.
  induction existing as [|x existing IH]; [intros []|].
  cbn [numbers]. destruct (search prefix ext x) as [g|] eqn:Hs; [|exact IH].
  destruct (search_digits _ _ _ _ Hs) as [Hg Hne].
  rewrite (py_int_digits _ Hg Hne). intros [<-|H]; [|auto].
  now apply digits_value_nonneg.
Qed.

Lemma fold_max_ge ns n : n <= fold_left Z.max ns n.
Proof.
  revert n. induction ns as [|m ns IH]; intros n; simpl; [lia|].
  specialize (IH (Z.max n m)). lia.
Qed.

Lemma fold_max_in ns n v : In v ns -> v <= fold_left Z.max ns n.
Proof.
  revert n. induction ns as [|m ns IH]; intros n; [intros []|].
  simpl. intros [->|H]; [|auto].
  pose proof (fold_max_ge ns (Z.max n v)). lia.
Qed.

Lemma next_number_above nums v : In v nums -> v < next_number nums.
Proof.
  destruct nums as [|n ns]; [intros []|]. unfold next_number.
  intros [<-|H].
  - pose proof (fold_max_ge ns n). lia.
  - pose proof (fold_max_in ns n v H). lia.
Qed.

Lemma next_number_positive prefix ext existing :
  1 <= next_number (numbers prefix ext existing).
Proof.
  destruct (numbers prefix ext existing) as [|n ns] eqn:Hn; [unfold next_number; lia|].
  assert (0 <= n) by (apply (numbers_nonneg prefix ext existing); rewrite Hn; now left).
  pose proof (next_number_above (n :: ns) n (or_introl eq_refl)). lia.
Qed.

End SeqFileFacts.

(** X1. The sequential file name of [next_seq_file]: the number chosen is
    at least 1 and above the number of every existing name that matches
    the pattern, it is 1 when no name matches, and the name built from it
    is none of the existing names, so an earlier output is never
    overwritten. *)
Theorem next_seq_file_is_fresh (existing : list string) (directory prefix ext : string) :
  let n := SeqFile.next_number (SeqFile.numbers prefix ext existing) in
  SeqFile.next_seq_file existing directory prefix ext
  = SeqFile.path_join directory (SeqFile.seq_name prefix n ext)
  /\ 1 <= n
  /\ ~ In (SeqFile.seq_name prefix n ext) existing
  /\ (forall v, In v (SeqFile.numbers prefix ext existing) -> 0 <= v < n)
  /\ ((forall name, In name existing -> SeqFile.search prefix ext name = None) -> n = 1).
Proof.
  intros n. pose proof (next_number_positive prefix ext existing) as Hpos. fold n in Hpos.
  split; [reflexivity|]. split; [exact Hpos|]. split; [|split].
  - intros Hin.
    pose proof (search_seq_name prefix ext n ltac:(lia)) as Hs.
    destruct (pretty_Z_digits n ltac:(lia)) as (Hdig & Hne & Hval).
    pose proof (numbers_in prefix ext existing _ _ n Hin Hs) as Hnum.
    rewrite (py_int_digits _ Hdig Hne), Hval in Hnum. specialize (Hnum eq_refl).
    pose proof (next_number_above _ _ Hnum). fold n in H. lia.
  - intros v Hv. split; [now apply (numbers_nonneg prefix ext existing)|].
    now apply next_number_above.
  - intros Hnone. subst n.
    assert (Hn : SeqFile.numbers prefix ext existing = []).
    { clear Hpos. induction existing as [|x existing IH]; [reflexivity|].
      cbn [SeqFile.numbers]. rewrite (Hnone x (or_introl eq_refl)).
      apply IH. intros name Hname. apply Hnone. now right. }
    now rewrite Hn.
Qed.

(** ** The targets read from the input table *)

Section InputFacts.
Import PyStr.

Lemma dedupe_fold l seen uniq :
  snd (fold_left QrCrawler.dedupe_step l (seen, uniq))
  = uniq ++ filter (fun y => y ∉ seen) (first_occurrences l).
Proof.
  revert seen uniq. induction l as [|x l IH]; intros seen uniq.
  - simpl. now rewrite app_nil_r.
  - cbn [fold_left first_occurrences]. unfold QrCrawler.dedupe_step at 2. cbn [fst snd].
    destruct (decide (x ∈ seen)) as [Hin|Hnin].
    + rewrite IH. f_equal. rewrite filter_cons_False by (intros H; auto).
      rewrite list_filter_filter. apply list_filter_iff.
      intros y. set_solver.
    + rewrite IH, <- app_assoc. f_equal. rewrite filter_cons_True by exact Hnin.
      cbn [app]. f_equal. rewrite list_filter_filter. apply list_filter_iff.
      intros y. set_solver.
Qed.

Lemma dedupe_first_occurrences l : QrCrawler.dedupe l = first_occurrences l.
Proof.
  unfold QrCrawler.dedupe. rewrite dedupe_fold. cbn [app].
  induction (first_occurrences l) as [|y k IH]; [reflexivity|].
  rewrite filter_cons_True by set_solver. now rewrite IH.
Qed.

Lemma first_occurrences_elem l x : x ∈ first_occurrences l <-> x ∈ l.
Proof.
  induction l as [|y l IH]; [reflexivity|]. cbn [first_occurrences].
  rewrite !elem_of_cons, list_elem_of_filter, IH.
  destruct (decide (x = y)); tauto.
Qed.

Lemma first_occurrences_NoDup l : NoDup (first_occurrences l).
Proof.
  induction l as [|y l IH]; [constructor|]. cbn [first_occurrences].
  constructor.
  - rewrite list_elem_of_filter. tauto.
  - now apply NoDup_filter.
Qed.

Lemma first_occurrences_sublist l : sublist (first_occurrences l) l.
Proof.
  induction l as [|y l IH]; [constructor|]. cbn [first_occurrences].
  constructor. etransitivity; [apply sublist_filter | exact IH].
Qed.

(** Stripping leaves nothing to strip. *)

Lemma lstrip_idem s : lstrip (lstrip s) = lstrip s.
Proof.
  induction s as [|c r IH]; [reflexivity|]. simpl.
  destruct (isspace c) eqn:Hc; [exact IH|]. simpl. now rewrite Hc.
Qed.

Lemma rstrip_cons_fixed c r : rstrip (String c r) = String c r -> r = EmptyString \/ rstrip r = r.
Proof.
  cbn [rstrip]. destruct (rstrip r) as [|c' r'] eqn:Hr.
  - destruct (isspace c); [discriminate|]. intros [= <-]. now left.
  - intros [= <-]. now right.
Qed.

Lemma rstrip_idem s : rstrip (rstrip s) = rstrip s.
Proof.
  induction s as [|c r IH]; [reflexivity|]. cbn [rstrip].
  destruct (rstrip r) as [|c' r'] eqn:Hr.
  - destruct (isspace c) eqn:Hc; [reflexivity|]. simpl. now rewrite Hc.
  - change (rstrip (String c (String c' r'))) with
      (match rstrip (String c' r') with
       | EmptyString => if isspace c then EmptyString else String c EmptyString
       | r'' => String c r''
       end).
    now rewrite IH.
Qed.

Lemma rstrip_lstrip_fixed s : rstrip s = s -> rstrip (lstrip s) = lstrip s.
Proof.
  induction s as [|c r IH]; [reflexivity|]. intros H. cbn [lstrip].
  destruct (isspace c) eqn:Hc; [|exact H].
  destruct (rstrip_cons_fixed c r H) as [->|Hr]; [reflexivity | auto].
Qed.

Lemma strip_idem s : strip (strip s) = strip s.
Proof.
  unfold strip. rewrite (rstrip_lstrip_fixed (rstrip s)) by apply rstrip_idem.
  apply lstrip_idem.
Qed.

Lemma collect_elem rows u :
  u ∈ QrCrawler.collect rows <->
  u <> EmptyString
  /\ exists row v, row ∈ rows /\ QrCrawler.data_cell row = Some v
                   /\ QrCrawler.clean_cell v = u.
Proof.
  induction rows as [|row rows IH]; cbn [QrCrawler.collect].
  - split; [intros H; inversion H | intros (_ & row & v & H & _); inversion H].
  - destruct (QrCrawler.data_cell row) as [v|] eqn:Hv;
      [destruct (QrCrawler.clean_cell v) as [|c r] eqn:Hc; cbn [truthy]|];
      rewrite ?elem_of_cons, IH; setoid_rewrite elem_of_cons; naive_solver.
Qed.

Lemma crawler_collect_elem rows u :
  u ∈ Crawler.collect rows <->
  exists row, row ∈ rows /\ QrCrawler.data_cell row = Some u.
Proof.
  induction rows as [|row rows IH]; cbn [Crawler.collect].
  - split; [intros H; inversion H | intros (row & H & _); inversion H].
  - destruct (QrCrawler.data_cell row) as [v|] eqn:Hv;
      rewrite ?elem_of_cons, IH; setoid_rewrite elem_of_cons; naive_solver.
Qed.

End InputFacts.

(** X2. [read_input_csv] of qr_crawler.py (and of tests/crawler.py): the
    targets returned are the first occurrences, in order, of the cleaned
    data cells of the rows after the header; no target occurs twice, none
    is empty, none has a blank at either end, and every non-empty cleaned
    data cell is among them. *)
Theorem qr_read_input_csv_unique_clean (rows : list (list string)) :
  QrCrawler.read_input_csv rows = first_occurrences (QrCrawler.collect (tail rows))
  /\ NoDup (QrCrawler.read_input_csv rows)
  /\ sublist (QrCrawler.read_input_csv rows) (QrCrawler.collect (tail rows))
  /\ (forall u,
         u ∈ QrCrawler.read_input_csv rows <->
         u <> EmptyString
         /\ exists row v, row ∈ tail rows /\ QrCrawler.data_cell row = Some v
                          /\ QrCrawler.clean_cell v = u)
  /\ (forall u, u ∈ QrCrawler.read_input_csv rows -> PyStr.strip u = u).
Proof.
  unfold QrCrawler.read_input_csv. rewrite dedupe_first_occurrences.
  split; [reflexivity|]. split; [apply first_occurrences_NoDup|].
  split; [apply first_occurrences_sublist|]. split.
  - intros u. rewrite first_occurrences_elem. apply collect_elem.
  - intros u Hu. apply first_occurrences_elem, collect_elem in Hu
      as (_ & row & v & _ & _ & <-).
    apply strip_idem.
Qed.

(** X3. [read_input_csv] of crawler.py: the targets returned are the
    first occurrences, in order, of the data cells of the rows after the
    header, taken as they are; no target occurs twice, and every data
    cell, an empty one included, is among them. *)
Theorem crawler_read_input_csv_unique (rows : list (list string)) :
  Crawler.read_input_csv rows = first_occurrences (Crawler.collect (tail rows))
  /\ NoDup (Crawler.read_input_csv rows)
  /\ sublist (Crawler.read_input_csv rows) (Crawler.collect (tail rows))
  /\ (forall u,
         u ∈ Crawler.read_input_csv rows <->
         exists row, row ∈ tail rows /\ QrCrawler.data_cell row = Some u).
Proof.
  unfold Crawler.read_input_csv. rewrite dedupe_first_occurrences.
  split; [reflexivity|]. split; [apply first_occurrences_NoDup|].
  split; [apply first_occurrences_sublist|].
  intros u. rewrite first_occurrences_elem. apply crawler_collect_elem.
Qed.

(** ** More on the matcher *)

Section MatcherMore.
Context {Row : Type}.
Variable num : Row -> option Z.

Lemma scan_exact_some t rs r :
  scan_exact num t rs = Some r -> In r rs /\ num r = Some t.
Proof.
  induction rs as [|x rs IH]; simpl; [discriminate|].
  destruct (num x) as [n|] eqn:Hn.
  - destruct (Z.eqb_spec n t) as [->|_].
    + intros [= <-]. auto.
    + intros H. destruct (IH H). auto.
  - intros H. destruct (IH H). auto.
Qed.

Lemma scan_nearest_some t rs r d :
  scan_nearest num t rs = Some (r, d) ->
  In r rs /\ exists n, num r = Some n /\ d = Z.abs (n - t).
Proof.
  intros H. pose proof (nearest_loop_inv num t rs [] None) as Hinv.
  simpl in Hinv. specialize (Hinv (fun _ (F : False) => match F with end)).
  unfold scan_nearest in H. rewrite H in Hinv.
  destruct Hinv as (pre & post & n & -> & Hn & -> & _).
  split; [apply in_or_app; right; now left | eauto].
Qed.

Lemma best_of_sound target rs maxdiff :
  sound_match num target rs maxdiff (best_of num target rs maxdiff).
Proof.
  unfold best_of, sound_match. destruct target as [t|]; [|now left].
  destruct (scan_exact num t rs) as [r|] eqn:He.
  - destruct (scan_exact_some _ _ _ He) as [Hin Hn].
    right. exists r, t, t. rewrite Z.sub_diag. simpl. auto 10.
  - destruct (scan_nearest num t rs) as [[b d]|] eqn:Hs; [|now left].
    destruct (Z.leb_spec d maxdiff); [|now left].
    destruct (scan_nearest_some _ _ _ _ Hs) as (Hin & n & Hn & ->).
    right. exists b, t, n. auto 10.
Qed.

End MatcherMore.

Section MatcherMap.
Context {A B : Type}.
Variables (num : A -> option Z) (num' : B -> option Z) (f : A -> B).
Hypothesis num_f : forall r, num' (f r) = num r.

Lemma scan_exact_map t rs :
  scan_exact num' t (map f rs) = f <$> scan_exact num t rs.
Proof.
  induction rs as [|r rs IH]; [reflexivity|]. cbn [map scan_exact].
  rewrite num_f. destruct (num r) as [n|]; [destruct (n =? t)|]; auto.
Qed.

Lemma nearest_step_map t st r :
  nearest_step num' t (prod_map f id <$> st) (f r)
  = prod_map f id <$> nearest_step num t st r.
Proof.
  unfold nearest_step. rewrite num_f. destruct (num r) as [n|]; [|reflexivity].
  destruct st as [[b bd]|]; [|reflexivity]. simpl.
  now destruct (Z.abs (n - t) <? bd).
Qed.

Lemma scan_nearest_map t rs :
  scan_nearest num' t (map f rs) = prod_map f id <$> scan_nearest num t rs.
Proof.
  unfold scan_nearest. change (@None (B * Z)) with (prod_map f id <$> @None (A * Z)).
  generalize (@None (A * Z)). induction rs as [|r rs IH]; intros st; [reflexivity|].
  cbn [map fold_left]. now rewrite nearest_step_map, IH.
Qed.

Lemma best_of_map target rs maxdiff :
  best_of num' target (map f rs) maxdiff
  = (f <$> fst (best_of num target rs maxdiff), snd (best_of num target rs maxdiff)).
Proof.
  unfold best_of. destruct target as [t|]; [|reflexivity].
  rewrite scan_exact_map, scan_nearest_map.
  destruct (scan_exact num t rs); [reflexivity|]. simpl.
  destruct (scan_nearest num t rs) as [[b d]|]; [|reflexivity]. simpl.
  now destruct (d <=? maxdiff).
Qed.

End MatcherMap.

Lemma load_row_numero r : MakePlanilha.numero (MakePlanilha.load_row r) = candidate_number r.
Proof.
  unfold MakePlanilha.load_row, candidate_number, row_get_default, row_get.
  cbn [MakePlanilha.numero].
  destruct (PyDict.get r "numero") as [[s|]|].
  - now rewrite normalize_num_for_compare_value, normalize_num_value.
  - reflexivity.
  - reflexivity.
Qed.

(** X4. What [find_best] and [find_best_match] never do: for any target,
    candidates and tolerance, the result is (none, none), or a candidate
    taken from the list with the distance of its normalized number to the
    target, where the number is the target itself or lies within the
    tolerance; a candidate without a number, a candidate beyond the
    tolerance, or a row with no distance is never returned. *)
Theorem matcher_result_is_sound :
  (forall (target : option Z) (resultados : list csv_row) (maxdiff : Z),
      sound_match candidate_number target resultados maxdiff
                  (ComparePlanilha.find_best target resultados maxdiff))
  /\ (forall (target : option Z) (resultados : list MakePlanilha.resultado) (max_diff : Z),
         sound_match MakePlanilha.numero target resultados max_diff
                     (MakePlanilha.find_best_match target resultados max_diff)).
Proof. split; intros; apply best_of_sound. Qed.

(** X5. The two scripts match alike: on the rows [load_resultados] builds
    from the lines of a table, [find_best_match] of make_planilha.py
    returns the row built from the line [find_best] of compare_planilha.py
    returns on the lines themselves, with the same distance. *)
Theorem matchers_agree_on_loaded_rows
        (target : option Z) (lines : list csv_row) (tolerance : Z) :
  MakePlanilha.find_best_match target (map MakePlanilha.load_row lines) tolerance
  = (MakePlanilha.load_row <$> fst (ComparePlanilha.find_best target lines tolerance),
     snd (ComparePlanilha.find_best target lines tolerance)).
Proof.
  unfold MakePlanilha.find_best_match, ComparePlanilha.find_best.
  apply (best_of_map candidate_number MakePlanilha.numero MakePlanilha.load_row).
  apply load_row_numero.
Qed.

(** ** More on the currency parsers *)

Section CurrencyMore.
Import PyStr.

Lemma replace_char_app x y s t :
  replace_char x y (s +:+ t) = replace_char x y s +:+ replace_char x y t.
Proof.
  induction s as [|c r IH]; [reflexivity|].
  change (String c r +:+ t) with (String c (r +:+ t)). cbn [replace_char].
  now rewrite IH.
Qed.

(** A numeral in the Brazilian convention: groups of digits, the first
    two optionally separated by a dot, and a comma before the last. *)
Lemma parse_currency_comma_form (a b c : string) (dot : bool) :
  all_chars isdecimal a = true -> a <> EmptyString ->
  all_chars isdecimal b = true ->
  all_chars isdecimal c = true -> c <> EmptyString ->
  (dot = true -> b <> EmptyString) ->
  ComparePlanilha.parse_currency
    (Some (a +:+ (if dot then "." else EmptyString) +:+ b +:+ "," +:+ c))
  = Some (PFin (PyFloat.decimal (a +:+ b) c 0)).
Proof.
  intros Ha Hane Hb Hc Hcne Hdot.
  set (sep := if dot then "." else EmptyString).
  set (s := a +:+ sep +:+ b +:+ "," +:+ c).
  assert (Hsep : forall x, x <> "."%char -> contains_char x sep = false).
  { intros x Hx. subst sep. destruct dot; [|reflexivity]. cbn [contains_char].
    apply not_eq_sym, Ascii.eqb_neq in Hx. now rewrite Hx. }
  assert (Hlack : forall x, isdecimal x = false -> x <> "."%char -> x <> ","%char ->
                            contains_char x s = false).
  { intros x Hx Hd Hcm. subst s. rewrite !contains_char_app.
    rewrite (digits_lack x a Hx Ha), (digits_lack x b Hx Hb), (digits_lack x c Hx Hc),
      (Hsep x Hd).
    apply not_eq_sym, Ascii.eqb_neq in Hcm. cbn [contains_char orb]. now rewrite Hcm. }
  assert (Hns : all_chars (fun c => negb (isspace c)) s = true).
  { subst s sep. rewrite !all_chars_app.
    rewrite (digits_no_space _ Ha), (digits_no_space _ Hb), (digits_no_space _ Hc).
    now destruct dot. }
  assert (Hclean : cleaned s = s).
  { unfold cleaned. rewrite (strip_no_space _ Hns).
    rewrite (remove_char_absent dquote) by (apply Hlack; [reflexivity | discriminate..]).
    apply remove_char_absent, Hlack; [reflexivity | discriminate..]. }
  unfold ComparePlanilha.parse_currency. fold (cleaned s). rewrite Hclean.
  assert (Hne : String.eqb s EmptyString = false).
  { subst s. destruct a; [congruence | reflexivity]. }
  rewrite Hne. subst s.
  assert (Hrm : remove_char "." (a +:+ sep +:+ b +:+ "," +:+ c) = a +:+ b +:+ "," +:+ c).
  { rewrite !remove_char_app.
    rewrite (remove_char_absent "." a), (remove_char_absent "." b),
      (remove_char_absent "." c) by (apply digits_lack; [reflexivity | assumption]).
    subst sep. now destruct dot. }
  rewrite Hrm, !replace_char_app.
  rewrite (replace_char_absent "," "." a), (replace_char_absent "," "." b),
    (replace_char_absent "," "." c) by (apply digits_lack; [reflexivity | assumption]).
  change (replace_char "," "." ",") with ".".
  rewrite <- (app_assoc_str a b). apply py_float_dotted.
  - now rewrite all_chars_app, Ha, Hb.
  - destruct a; [congruence | discriminate].
  - exact Hc.
  - exact Hcne.
Qed.

End CurrencyMore.

(** X6. The currency parsers on the Brazilian convention: for non-empty
    groups of digits [a], [b] and [c], the numeral "a,c" parses to the
    decimal number with integer part [a] and fraction [c], and the numeral
    "a.b,c" to the one with integer part [ab] and fraction [c] (the dot
    separates thousands, the comma the decimals). *)
Theorem currency_brazilian_format (a b c : string) :
  PyStr.all_chars PyStr.isdecimal a = true -> a <> EmptyString ->
  PyStr.all_chars PyStr.isdecimal b = true -> b <> EmptyString ->
  PyStr.all_chars PyStr.isdecimal c = true -> c <> EmptyString ->
  ComparePlanilha.parse_currency (Some (a +:+ "," +:+ c))
  = Some (PFin (PyFloat.decimal a c 0))
  /\ MakePlanilha.parse_brazil_currency (Some (a +:+ "," +:+ c))
     = Some (PFin (PyFloat.decimal a c 0))
  /\ ComparePlanilha.parse_currency (Some (a +:+ "." +:+ b +:+ "," +:+ c))
     = Some (PFin (PyFloat.decimal (a +:+ b) c 0))
  /\ MakePlanilha.parse_brazil_currency (Some (a +:+ "." +:+ b +:+ "," +:+ c))
     = Some (PFin (PyFloat.decimal (a +:+ b) c 0))
  /\ (PyFloat.decimal a c 0 * Qpower (10 # 1) (Z.of_nat (String.length c))
      == inject_Z (PyStr.digits_value (a +:+ c)))%Q
  /\ (PyFloat.decimal (a +:+ b) c 0 * Qpower (10 # 1) (Z.of_nat (String.length c))
      == inject_Z (PyStr.digits_value ((a +:+ b) +:+ c)))%Q.
Proof.
  intros Ha Hane Hb Hbne Hc Hcne.
  pose proof (parse_currency_comma_form a EmptyString c false Ha Hane eq_refl Hc Hcne
                ltac:(discriminate)) as H1.
  pose proof (parse_currency_comma_form a b c true Ha Hane Hb Hc Hcne (fun _ => Hbne)) as H2.
  cbv iota in H1, H2.
  change (a +:+ EmptyString +:+ EmptyString +:+ "," +:+ c) with (a +:+ "," +:+ c) in H1.
  rewrite string_app_empty in H1.
  split; [exact H1|]. split; [exact H1|]. split; [exact H2|]. split; [exact H2|].
  split; apply decimal_scaled.
Qed.

Lemma currency_brazilian_format_witness :
  ComparePlanilha.parse_currency (Some ("1" +:+ "," +:+ "56"))
  = Some (PFin (PyFloat.decimal "1" "56" 0))
  /\ MakePlanilha.parse_brazil_currency (Some ("1" +:+ "," +:+ "56"))
     = Some (PFin (PyFloat.decimal "1" "56" 0))
  /\ ComparePlanilha.parse_currency (Some ("1" +:+ "." +:+ "234" +:+ "," +:+ "56"))
     = Some (PFin (PyFloat.decimal ("1" +:+ "234") "56" 0))
  /\ MakePlanilha.parse_brazil_currency (Some ("1" +:+ "." +:+ "234" +:+ "," +:+ "56"))
     = Some (PFin (PyFloat.decimal ("1" +:+ "234") "56" 0))
  /\ (PyFloat.decimal "1" "56" 0 * Qpower (10 # 1) (Z.of_nat (String.length "56"))
      == inject_Z (PyStr.digits_value ("1" +:+ "56")))%Q
  /\ (PyFloat.decimal ("1" +:+ "234") "56" 0 * Qpower (10 # 1) (Z.of_nat (String.length "56"))
      == inject_Z (PyStr.digits_value (("1" +:+ "234") +:+ "56")))%Q.
Proof.
  apply (currency_brazilian_format "1" "234" "56");
    [reflexivity | discriminate | reflexivity | discriminate | reflexivity | discriminate].
Defined.

Section FloatAlphabet.
Import PyStr.

Variable x : ascii.
Hypothesis x_out : outside_numerals x = true.

Lemma x_facts :
  isspace x = false /\ isdecimal x = false
  /\ contains_char x "+-._eE" = false
  /\ contains_char (lower_char x) "infinityan" = false.
Proof.
  pose proof x_out as H. unfold outside_numerals in H.
  destruct (isspace x), (isdecimal x), (contains_char x "+-._eE"),
    (contains_char (lower_char x) "infinityan"); try discriminate H; auto.
Qed.

Lemma x_not (c : ascii) : contains_char x (String c EmptyString) = true -> c = x.
Proof. cbn [contains_char]. rewrite orb_false_r. apply Ascii.eqb_eq. Qed.

Lemma x_neq c : contains_char c "+-._eE" = true -> Ascii.eqb c x = false.
Proof.
  intros H. apply Ascii.eqb_neq. intros ->.
  destruct x_facts as (_ & _ & H' & _). congruence.
Qed.

Lemma contains_lstrip s : contains_char x (lstrip s) = contains_char x s.
Proof.
  induction s as [|c r IH]; [reflexivity|]. cbn [lstrip].
  destruct (isspace c) eqn:Hc; [|reflexivity]. rewrite IH. cbn [contains_char].
  replace (Ascii.eqb c x) with false; [reflexivity|].
  symmetry. apply Ascii.eqb_neq. intros ->.
  destruct x_facts as (H & _). congruence.
Qed.

Lemma contains_rstrip s : contains_char x (rstrip s) = contains_char x s.
Proof.
  induction s as [|c r IH]; [reflexivity|]. cbn [rstrip].
  destruct (rstrip r) as [|c' r'].
  - cbn [contains_char] in *. rewrite <- IH.
    destruct (isspace c) eqn:Hc; [|reflexivity]. cbn [contains_char].
    rewrite orb_false_r. symmetry. apply Ascii.eqb_neq. intros ->.
    destruct x_facts as (H & _). congruence.
  - change (contains_char x (String c (String c' r')))
      with (Ascii.eqb c x || contains_char x (String c' r')).
    rewrite IH. reflexivity.
Qed.

Lemma contains_split_sign s :
  contains_char x (snd (split_sign s)) = contains_char x s.
Proof.
  destruct s as [|c r]; [reflexivity|].
  destruct (Ascii.eqb_spec c "+") as [->|Hp].
  - cbn [split_sign snd contains_char]. now rewrite (x_neq "+" eq_refl).
  - destruct (Ascii.eqb_spec c "-") as [->|Hm].
    + cbn [split_sign snd contains_char]. now rewrite (x_neq "-" eq_refl).
    + replace (split_sign (String c r)) with (false, String c r); [reflexivity|].
      unfold split_sign. destruct c as [[] [] [] [] [] [] [] []]; try reflexivity; congruence.
Qed.

Lemma contains_lower s :
  contains_char x s = true -> contains_char (lower_char x) (lower s) = true.
Proof.
  induction s as [|c r IH]; [discriminate|]. cbn [contains_char lower].
  intros H. apply orb_true_iff in H as [H|H].
  - apply Ascii.eqb_eq in H as ->. now rewrite Ascii.eqb_refl.
  - rewrite (IH H). apply orb_true_r.
Qed.

Lemma contains_digit c : isdecimal c = true -> Ascii.eqb c x = false.
Proof.
  intros H. apply Ascii.eqb_neq. intros ->.
  destruct x_facts as (_ & H' & _). congruence.
Qed.

Lemma contains_digitpart_tail s :
  contains_char x (snd (digitpart_tail s)) = contains_char x s.
Proof.
  revert s. fix IH 1. intros [|c r]; [reflexivity|]. cbn [digitpart_tail contains_char].
  destruct (isdecimal c) eqn:Hc.
  - specialize (IH r). destruct (digitpart_tail r) as [d rest]. cbn [snd] in *.
    now rewrite IH, (contains_digit c Hc).
  - destruct (Ascii.eqb_spec c "_") as [->|Hu]; [|reflexivity].
    destruct r as [|c' r']; [reflexivity|].
    destruct (isdecimal c') eqn:Hc'; [|reflexivity].
    specialize (IH r'). destruct (digitpart_tail r') as [d rest]. cbn [snd contains_char] in *.
    now rewrite IH, (contains_digit c' Hc'), (x_neq "_" eq_refl).
Qed.

Lemma contains_digitpart s d rest :
  digitpart s = Some (d, rest) -> contains_char x rest = contains_char x s.
Proof.
  destruct s as [|c r]; [discriminate|]. cbn [digitpart].
  destruct (isdecimal c) eqn:Hc; [|discriminate].
  pose proof (contains_digitpart_tail r) as Ht.
  destruct (digitpart_tail r) as [d' rest']. intros [= _ <-]. cbn [snd contains_char] in *.
  now rewrite Ht, (contains_digit c Hc).
Qed.

Lemma contains_number s ip fp r :
  PyFloat.number s = Some (ip, fp, r) -> contains_char x r = contains_char x s.
Proof.
  unfold PyFloat.number. destruct (digitpart s) as [[d rest]|] eqn:Hd.
  - pose proof (contains_digitpart _ _ _ Hd) as H1.
    destruct rest as [|c rest'].
    + intros [= _ _ <-]. exact H1.
    + destruct (Ascii.eqb_spec c ".") as [->|Hne].
      * destruct (digitpart rest') as [[fp' r']|] eqn:Hf.
        -- intros [= _ _ <-]. rewrite (contains_digitpart _ _ _ Hf), <- H1.
           cbn [contains_char]. now rewrite (x_neq "." eq_refl).
        -- intros [= _ _ <-]. rewrite <- H1. cbn [contains_char].
           now rewrite (x_neq "." eq_refl).
      * assert (Hgo : match String c rest' with
                      | String "." r0 =>
                          match digitpart r0 with
                          | Some (fp0, r'0) => Some (d, fp0, r'0)
                          | None => Some (d, EmptyString, r0)
                          end
                      | _ => Some (d, EmptyString, String c rest')
                      end = Some (d, EmptyString, String c rest')).
        { destruct c as [[] [] [] [] [] [] [] []]; try reflexivity; congruence. }
        rewrite Hgo. intros [= _ _ <-]. exact H1.
  - destruct s as [|c s']; [discriminate|].
    destruct (Ascii.eqb_spec c ".") as [->|Hne].
    + destruct (digitpart s') as [[fp' r']|] eqn:Hf; [|discriminate].
      intros [= _ _ <-]. rewrite (contains_digitpart _ _ _ Hf).
      cbn [contains_char]. now rewrite (x_neq "." eq_refl).
    + intros H. exfalso.
      destruct c as [[] [] [] [] [] [] [] []]; try discriminate; congruence.
Qed.

Lemma contains_exponent s ex :
  PyFloat.exponent s = Some ex -> contains_char x s = false.
Proof.
  destruct s as [|c r]; [reflexivity|]. cbn [PyFloat.exponent].
  destruct (Ascii.eqb c "e" || Ascii.eqb c "E") eqn:He; [|discriminate].
  pose proof (contains_split_sign r) as Hs.
  destruct (split_sign r) as [sg body]. cbn [snd] in Hs.
  destruct (digitpart body) as [[d rest]|] eqn:Hd; [|discriminate].
  destruct rest; [|discriminate]. intros _.
  pose proof (contains_digitpart _ _ _ Hd) as H1. cbn [contains_char] in *.
  rewrite <- Hs, <- H1, orb_false_r.
  apply orb_true_iff in He as [He|He]; apply Ascii.eqb_eq in He as ->.
  - apply (x_neq "e" eq_refl).
  - apply (x_neq "E" eq_refl).
Qed.

(** [float()] raises on a string that contains such a character. *)
Lemma py_float_alien s :
  contains_char x s = true -> PyFloat.py_float s = None.
Proof.
  intros Hs. unfold PyFloat.py_float.
  assert (Hb : contains_char x (snd (split_sign (strip s))) = true).
  { rewrite contains_split_sign. unfold strip. now rewrite contains_lstrip, contains_rstrip. }
  destruct (split_sign (strip s)) as [sg body]. cbn [snd] in Hb.
  pose proof (contains_lower _ Hb) as Hl.
  destruct x_facts as (_ & _ & _ & Hkw).
  destruct (String.eqb_spec (lower body) "inf") as [E|_].
  { exfalso. rewrite E in Hl. cbn [contains_char] in *.
    repeat (apply orb_false_iff in Hkw as [? Hkw]).
    repeat (apply orb_true_iff in Hl as [Hl|Hl]); congruence. }
  destruct (String.eqb_spec (lower body) "infinity") as [E|_].
  { exfalso. rewrite E in Hl. cbn [contains_char] in *.
    repeat (apply orb_false_iff in Hkw as [? Hkw]).
    repeat (apply orb_true_iff in Hl as [Hl|Hl]); congruence. }
  destruct (String.eqb_spec (lower body) "nan") as [E|_].
  { exfalso. rewrite E in Hl. cbn [contains_char] in *.
    repeat (apply orb_false_iff in Hkw as [? Hkw]).
    repeat (apply orb_true_iff in Hl as [Hl|Hl]); congruence. }
  cbn [orb]. destruct (PyFloat.number body) as [[[ip fp] r]|] eqn:Hn; [|reflexivity].
  destruct (PyFloat.exponent r) as [ex|] eqn:He; [|reflexivity].
  pose proof (contains_number _ _ _ _ Hn) as H1.
  pose proof (contains_exponent _ _ He) as H2. congruence.
Qed.

Lemma contains_remove_other y s :
  x <> y -> contains_char x (remove_char y s) = contains_char x s.
Proof.
  intros Hne. induction s as [|c r IH]; [reflexivity|]. cbn [remove_char contains_char].
  destruct (Ascii.eqb_spec c y) as [->|Hc].
  - rewrite IH. apply not_eq_sym, Ascii.eqb_neq in Hne. now rewrite Hne.
  - cbn [contains_char]. now rewrite IH.
Qed.

Lemma contains_replace_other y z s :
  x <> y -> contains_char x s = true -> contains_char x (replace_char y z s) = true.
Proof.
  intros Hne. induction s as [|c r IH]; [discriminate|]. cbn [replace_char contains_char].
  intros H. apply orb_true_iff in H as [H|H].
  - apply Ascii.eqb_eq in H as ->. apply Ascii.eqb_neq in Hne. now rewrite Hne, Ascii.eqb_refl.
  - rewrite (IH H). apply orb_true_r.
Qed.

Lemma parse_currency_alien s :
  x <> dquote -> x <> ","%char ->
  contains_char x s = true -> ComparePlanilha.parse_currency (Some s) = None.
Proof.
  intros Hq Hc Hs. unfold ComparePlanilha.parse_currency.
  destruct x_facts as (Hsp & _ & Hsym & _).
  assert (Hdot : x <> "."%char).
  { intros E. rewrite E in Hsym. discriminate. }
  assert (Hblank : x <> " "%char).
  { intros E. rewrite E in Hsp. discriminate. }
  destruct (String.eqb _ EmptyString); [reflexivity|].
  apply py_float_alien, contains_replace_other; [exact Hc|].
  rewrite !contains_remove_other by assumption.
  unfold strip. now rewrite contains_lstrip, contains_rstrip.
Qed.

End FloatAlphabet.

(** X7. The currency parsers strip no currency symbol: an amount string
    that contains a character no numeral can contain (such as the dollar
    sign of "R$", or a letter outside inf, infinity and nan), other than a
    double quote or a comma, parses to absent. *)
Theorem currency_symbol_is_not_stripped (s : string) (x : ascii) :
  outside_numerals x = true ->
  x <> PyStr.dquote -> x <> ","%char ->
  PyStr.contains_char x s = true ->
  ComparePlanilha.parse_currency (Some s) = None
  /\ MakePlanilha.parse_brazil_currency (Some s) = None.
Proof.
  intros Hx Hq Hc Hs. split; exact (parse_currency_alien x Hx s Hq Hc Hs).
Qed.

Lemma currency_symbol_is_not_stripped_witness :
  ComparePlanilha.parse_currency (Some "R$ 45,00") = None
  /\ MakePlanilha.parse_brazil_currency (Some "R$ 45,00") = None.
Proof.
  apply (currency_symbol_is_not_stripped "R$ 45,00" "$");
    [reflexivity | discriminate | discriminate | reflexivity].
Defined.

(** ** More on the rows of the comparison *)

Section RowFacts.
Import ComparePlanilha.

Lemma added_columns_update d cl mn mv me note :
  added_columns
    (PyDict.update d
       [("classificacao", VStr cl); ("matched_num", mn); ("matched_valor", mv);
        ("matched_emissao", me); ("observacao", VStr note)])
    cl mn mv me note.
Proof.
  unfold added_columns, PyDict.update. cbn [fold_left fst snd].
  repeat split;
    repeat first [ rewrite get_set_eq; reflexivity
                 | rewrite get_set_ne by discriminate ].
Qed.

Lemma scan_exact_of_first {Row} (num : Row -> option Z) t rs r :
  first_exact num t rs r -> scan_exact num t rs = Some r.
Proof.
  intros (pre & post & -> & Hr & Hpre).
  induction pre as [|x pre IH]; cbn [app scan_exact].
  - now rewrite Hr, Z.eqb_refl.
  - assert (Hx : num x <> Some t) by (apply Hpre; now left).
    rewrite IH by (intros y Hy; apply Hpre; now right).
    destruct (num x) as [n|]; [|reflexivity].
    destruct (Z.eqb_spec n t); [congruence | reflexivity].
Qed.

Lemma find_best_of_first target resultados r maxdiff :
  first_exact candidate_number target resultados r ->
  find_best (Some target) resultados maxdiff = (Some r, Some 0).
Proof.
  intros H. apply scan_exact_of_first in H. unfold candidate_number in H.
  unfold find_best, best_of. now rewrite H.
Qed.

Lemma compare_loop_raises resultados comps acc :
  (exists c m, In c comps /\ compare_row resultados c = Raise m) ->
  exists m, compare_loop resultados comps acc = Raise m.
Proof.
  revert acc. induction comps as [|x comps IH]; intros acc (c & m & Hin & Hc);
    [destruct Hin|].
  cbn [compare_loop]. destruct (compare_row resultados x) as [out|m'] eqn:Hx; [|eauto].
  apply IH. destruct Hin as [->|Hin]; [congruence | eauto].
Qed.

End RowFacts.

(** X8. The row of an exact match in [main] of compare_planilha.py: when
    the number of the reference row is the number of a result and [r] is
    the first such result, with an issuance field, the row ends with the
    note OK, the label [classify] gives for the amount and issuance of
    [r], the issuance of [r], its parsed amount, and its number written
    in decimal, a number 0 being written as the empty string. *)
Theorem compare_row_exact_match
        (resultados : list csv_row) (c r : csv_row) (n : Z) (e : string) :
  ComparePlanilha.normalize_num (row_get c "numNotaFiscal") = Some n ->
  first_exact candidate_number n resultados r ->
  row_get_default r "emissao" = Some e ->
  exists (out : ComparePlanilha.out_row) (label : string),
    ComparePlanilha.compare_row resultados c = Ok out
    /\ ComparePlanilha.classify
         (ComparePlanilha.parse_currency (row_get r "valor_pagar")) (Some e) = Ok label
    /\ added_columns out label
         (ComparePlanilha.VStr (written_number n))
         (ComparePlanilha.of_float (ComparePlanilha.parse_currency (row_get r "valor_pagar")))
         (ComparePlanilha.VStr e)
         "OK".
Proof.
  intros Hn Hfirst He.
  destruct (classify_string_ok
              (ComparePlanilha.parse_currency (row_get r "valor_pagar")) e) as [label Hl].
  assert (Hnum : candidate_number r = Some n).
  { destruct Hfirst as (pre & post & _ & H & _). exact H. }
  unfold ComparePlanilha.compare_row.
  rewrite Hn, (find_best_of_first n resultados r _ Hfirst).
  fold (candidate_number r). rewrite Hnum, He, Hl. cbn [result_bind ComparePlanilha.of_field].
  eexists _, label. split; [reflexivity|]. split; [reflexivity|].
  apply added_columns_update.
Qed.

Lemma compare_row_exact_match_witness :
  exists (out : ComparePlanilha.out_row) (label : string),
    ComparePlanilha.compare_row
      [result_line "100" "05/11/2025 12:30:00" "45,00";
       result_line "0101" "05/11/2025 19:30:00" "45,00"]
      [("numNotaFiscal", Some "NF 101")] = Ok out
    /\ ComparePlanilha.classify
         (ComparePlanilha.parse_currency
            (row_get (result_line "0101" "05/11/2025 19:30:00" "45,00") "valor_pagar"))
         (Some "05/11/2025 19:30:00") = Ok label
    /\ added_columns out label
         (ComparePlanilha.VStr (written_number 101))
         (ComparePlanilha.of_float
            (ComparePlanilha.parse_currency
               (row_get (result_line "0101" "05/11/2025 19:30:00" "45,00") "valor_pagar")))
         (ComparePlanilha.VStr "05/11/2025 19:30:00")
         "OK".
Proof.
  apply (compare_row_exact_match _ _ (result_line "0101" "05/11/2025 19:30:00" "45,00")).
  - reflexivity.
  - exists [result_line "100" "05/11/2025 12:30:00" "45,00"], [].
    split; [reflexivity|]. split; [reflexivity|].
    intros x [<-|[]]. vm_compute. discriminate.
  - reflexivity.
Defined.

(** X9. The row of a near match in [main] of compare_planilha.py: when no
    result has the number of the reference row, some result has a number
    and every result has an issuance field, there is a nearest result at
    a distance [d] above 0; if [d] is at most 5 the row carries the fields
    of that result and the note VERIFICAR_NUMNOTA with [d] in decimal, and
    otherwise it is the row of a reference without a match. *)
Theorem compare_row_near_match (resultados : list csv_row) (c : csv_row) (t : Z) :
  ComparePlanilha.normalize_num (row_get c "numNotaFiscal") = Some t ->
  (forall r, In r resultados -> candidate_number r <> Some t) ->
  (exists r, In r resultados /\ candidate_number r <> None) ->
  (forall r, In r resultados -> row_get_default r "emissao" <> None) ->
  exists (best : csv_row) (d n : Z) (out : ComparePlanilha.out_row),
    nearest_candidate candidate_number t resultados best d
    /\ candidate_number best = Some n
    /\ 0 < d
    /\ ComparePlanilha.compare_row resultados c = Ok out
    /\ (d <= default_tolerance ->
        exists (label e : string),
          row_get_default best "emissao" = Some e
          /\ ComparePlanilha.classify
               (ComparePlanilha.parse_currency (row_get best "valor_pagar")) (Some e)
             = Ok label
          /\ added_columns out label
               (ComparePlanilha.VStr (written_number n))
               (ComparePlanilha.of_float
                  (ComparePlanilha.parse_currency (row_get best "valor_pagar")))
               (ComparePlanilha.VStr e)
               ("VERIFICAR_NUMNOTA (dif=" +:+ pretty d +:+ ")"))
    /\ (default_tolerance < d -> not_found_row out).
Proof.
  intros Ht Hex Hdef Hem.
  destruct (best_of_nearest candidate_number t resultados default_tolerance Hex Hdef)
    as (best & d & Hnear & Hle & Hgt).
  pose proof Hnear as (pre & post & n & Hrs & Hn & Hd & _).
  assert (Hin : In best resultados) by (rewrite Hrs; apply in_or_app; right; now left).
  assert (Hpos : 0 < d).
  { assert (n <> t) by (intros ->; now apply (Hex best Hin)). lia. }
  destruct (row_get_default best "emissao") as [e|] eqn:He; [|now destruct (Hem best Hin)].
  destruct (classify_string_ok
              (ComparePlanilha.parse_currency (row_get best "valor_pagar")) e) as [label Hl].
  destruct (Z_le_gt_dec d default_tolerance) as [Hd5|Hd5].
  - eexists best, d, n, _. split; [exact Hnear|]. split; [exact Hn|]. split; [exact Hpos|].
    split; [|split; [|lia]].
    + unfold ComparePlanilha.compare_row. rewrite Ht.
      change (best_of candidate_number (Some t) resultados default_tolerance)
        with (ComparePlanilha.find_best (Some t) resultados default_tolerance) in Hle.
      rewrite (Hle Hd5). fold (candidate_number best). rewrite Hn, He, Hl.
      cbn [result_bind ComparePlanilha.of_field]. reflexivity.
    + intros _. exists label, e. split; [exact He|]. split; [exact Hl|].
      destruct d as [|p|p]; try lia. apply added_columns_update.
  - eexists best, d, n, _. split; [exact Hnear|]. split; [exact Hn|]. split; [exact Hpos|].
    split; [|split; [lia|]].
    + unfold ComparePlanilha.compare_row. rewrite Ht.
      change (best_of candidate_number (Some t) resultados default_tolerance)
        with (ComparePlanilha.find_best (Some t) resultados default_tolerance) in Hgt.
      rewrite (Hgt ltac:(lia)). cbn [result_bind]. reflexivity.
    + intros _. apply added_columns_update.
Qed.

Lemma compare_row_near_match_witness :
  exists (best : csv_row) (d n : Z) (out : ComparePlanilha.out_row),
    nearest_candidate candidate_number 103
      [result_line "100" "05/11/2025 12:30:00" "45,00";
       result_line "0101" "05/11/2025 19:30:00" "45,00"] best d
    /\ candidate_number best = Some n
    /\ 0 < d
    /\ ComparePlanilha.compare_row
         [result_line "100" "05/11/2025 12:30:00" "45,00";
          result_line "0101" "05/11/2025 19:30:00" "45,00"]
         [("numNotaFiscal", Some "103")] = Ok out
    /\ (d <= default_tolerance ->
        exists (label e : string),
          row_get_default best "emissao" = Some e
          /\ ComparePlanilha.classify
               (ComparePlanilha.parse_currency (row_get best "valor_pagar")) (Some e)
             = Ok label
          /\ added_columns out label
               (ComparePlanilha.VStr (written_number n))
               (ComparePlanilha.of_float
                  (ComparePlanilha.parse_currency (row_get best "valor_pagar")))
               (ComparePlanilha.VStr e)
               ("VERIFICAR_NUMNOTA (dif=" +:+ pretty d +:+ ")"))
    /\ (default_tolerance < d -> not_found_row out).
Proof.
  apply compare_row_near_match.
  - reflexivity.
  - intros r [<-|[<-|[]]]; vm_compute; discriminate.
  - exists (result_line "100" "05/11/2025 12:30:00" "45,00").
    split; [left; reflexivity | vm_compute; discriminate].
  - intros r [<-|[<-|[]]]; discriminate.
Defined.

(** X10. The row of a reference without a match in [main] of
    compare_planilha.py: when every numbered result is farther than 5 from
    the number of the reference row (in particular when the reference has
    no digit, or the table of results is empty), the label and the note
    are NAO_ENCONTRADO and the three matched columns are empty. *)
Theorem compare_row_not_found (resultados : list csv_row) (c : csv_row) :
  (forall r n t,
      ComparePlanilha.normalize_num (row_get c "numNotaFiscal") = Some t ->
      In r resultados -> candidate_number r = Some n ->
      default_tolerance < Z.abs (n - t)) ->
  exists out : ComparePlanilha.out_row,
    ComparePlanilha.compare_row resultados c = Ok out /\ not_found_row out.
Proof.
  intros Hfar. unfold ComparePlanilha.compare_row.
  assert (Hs : sound_match candidate_number
                 (ComparePlanilha.normalize_num (row_get c "numNotaFiscal"))
                 resultados default_tolerance
                 (ComparePlanilha.find_best
                    (ComparePlanilha.normalize_num (row_get c "numNotaFiscal"))
                    resultados default_tolerance))
    by apply best_of_sound.
  destruct Hs as [Hs|(row & t & n & Ht & Hin & Hn & _ & Hd)].
  - rewrite Hs. cbn [result_bind]. eexists. split; [reflexivity|].
    apply added_columns_update.
  - exfalso. specialize (Hfar row n t Ht Hin Hn).
    destruct Hd as [->|Hd]; [rewrite Z.sub_diag in Hfar; unfold default_tolerance in Hfar|];
      lia.
Qed.

Lemma compare_row_not_found_witness :
  exists out : ComparePlanilha.out_row,
    ComparePlanilha.compare_row
      [result_line "100" "05/11/2025 12:30:00" "45,00";
       result_line "210" "05/11/2025 19:05:00" "45,00"]
      [("numNotaFiscal", Some "200")] = Ok out
    /\ not_found_row out.
Proof.
  apply compare_row_not_found. intros r n t Ht Hin Hn.
  vm_compute in Ht. injection Ht as <-.
  destruct Hin as [<-|[<-|[]]]; vm_compute in Hn; injection Hn as <-; reflexivity.
Defined.

(** X11. A result line without its issuance field ends the comparison:
    when a reference row matches exactly a result whose emissao is None
    (a line shorter than the header) and whose amount lies from 40 to 55,
    [classify] raises and [main] of compare_planilha.py ends with that
    exception, writing no row at all. *)
Theorem comparison_stops_on_missing_emissao
        (comps resultados : list csv_row) (c r : csv_row) (n : Z) (q : Q) :
  In c comps ->
  ComparePlanilha.normalize_num (row_get c "numNotaFiscal") = Some n ->
  first_exact candidate_number n resultados r ->
  row_get_default r "emissao" = None ->
  ComparePlanilha.parse_currency (row_get r "valor_pagar") = Some (PFin q) ->
  (inject_Z 40 <= q)%Q -> (q <= inject_Z 55)%Q ->
  exists m, ComparePlanilha.main comps resultados = Raise m.
Proof.
  intros Hin Hn Hfirst He Hv H40 H55.
  assert (Hrow : exists m, ComparePlanilha.compare_row resultados c = Raise m).
  { unfold ComparePlanilha.compare_row.
    rewrite Hn, (find_best_of_first n resultados r _ Hfirst), He, Hv.
    unfold ComparePlanilha.classify, PyFloat.gt_int, PyFloat.int_le, PyFloat.le_int.
    assert (H100 : Qle_bool q (inject_Z 100) = true).
    { apply Qle_bool_iff. apply Qle_trans with (inject_Z 55); [exact H55|].
      rewrite <- Zle_Qle. lia. }
    apply Qle_bool_iff in H40, H55. rewrite H100, H40, H55. cbn. eauto. }
  destruct Hrow as [m Hrow].
  destruct (compare_loop_raises resultados comps [] (ex_intro _ c (ex_intro _ m (conj Hin Hrow))))
    as [m' Hloop].
  exists m'. unfold ComparePlanilha.main. now rewrite Hloop.
Qed.

Lemma comparison_stops_on_missing_emissao_witness :
  exists m,
    ComparePlanilha.main
      [[("numNotaFiscal", Some "101")]]
      [[("numero", Some "101"); ("valor_pagar", Some "45,00"); ("emissao", None)]]
    = Raise m.
Proof.
  apply (comparison_stops_on_missing_emissao
           _ _ [("numNotaFiscal", Some "101")]
           [("numero", Some "101"); ("valor_pagar", Some "45,00"); ("emissao", None)]
           101 (45 # 1)).
  - left. reflexivity.
  - reflexivity.
  - exists [], []. split; [reflexivity|]. split; [reflexivity|]. intros x [].
  - reflexivity.
  - reflexivity.
  - discriminate.
  - discriminate.
Defined.

(** ** More on the throttle and the fetch *)

(** X12. A reservation of the throttle in which nothing is rounded: the
    wait is not negative and ends exactly at the instant reserved; when
    the delay since the last reservation of the host has passed, the wait
    is 0 and the instant reserved is the present one, and otherwise the
    instant reserved is the last one plus the delay; the critical section
    of tests/crawler.py computes the same wait and reserves the same
    instant as the one of qr_crawler.py. *)
Theorem throttle_wait_reaches_reserved_instant
        (d : Q) (host : string) (now : Q) (reg : gmap string pyfloat) :
  exact_reservation d now (Throttle.last_of reg host) ->
  exists last wait reserved : Q,
    Throttle.last_of reg host = PFin last
    /\ Throttle.reserve d host now reg = (PFin wait, <[host := PFin reserved]> reg)
    /\ (0 <= wait)%Q
    /\ (reserved == now + wait)%Q
    /\ ((last + d <= now)%Q -> (wait == 0)%Q /\ (reserved == now)%Q)
    /\ ((now < last + d)%Q -> (wait == last + d - now)%Q /\ (reserved == last + d)%Q)
    /\ exists wait' reserved' : Q,
         Throttle.reserve_scheduled d host now reg
         = (PFin wait', <[host := PFin reserved']> reg)
         /\ (wait' == wait)%Q /\ (reserved' == reserved)%Q.
Proof.
  intros He. destruct (Throttle.last_of reg host) as [l| | |] eqn:Hl; try contradiction.
  destruct (reserve_exact d host now reg l Hl He) as (w & t & Hr & Hcase).
  destruct (reserve_scheduled_exact d host now reg l Hl He) as (w' & t' & Hr' & Hcase').
  exists l, w, t. split; [reflexivity|]. split; [exact Hr|].
  assert (Hsame : (w' == w)%Q /\ (t' == t)%Q).
  { destruct Hcase as [(H1 & H2 & H3)|(H1 & H2 & H3)],
             Hcase' as [(H1' & H2' & H3')|(H1' & H2' & H3')]; split; lra. }
  destruct Hcase as [(H1 & H2 & H3)|(H1 & H2 & H3)].
  - split; [lra|]. split; [lra|]. split; [intros _; split; lra|].
    split; [intros H; lra|]. exists w', t'. tauto.
  - split; [lra|]. split; [lra|]. split; [intros H; lra|].
    split; [intros _; split; lra|]. exists w', t'. tauto.
Qed.

Lemma throttle_wait_reaches_reserved_instant_witness :
  exists last wait reserved : Q,
    Throttle.last_of {["example.com" := PFin (1700000000 # 1)]} "example.com" = PFin last
    /\ Throttle.reserve (1 # 2) "example.com" (6800000001 # 4)
         {["example.com" := PFin (1700000000 # 1)]}
       = (PFin wait,
          <["example.com" := PFin reserved]> {["example.com" := PFin (1700000000 # 1)]})
    /\ (0 <= wait)%Q
    /\ (reserved == (6800000001 # 4) + wait)%Q
    /\ ((last + (1 # 2) <= 6800000001 # 4)%Q
        -> (wait == 0)%Q /\ (reserved == 6800000001 # 4)%Q)
    /\ ((6800000001 # 4 < last + (1 # 2))%Q
        -> (wait == last + (1 # 2) - (6800000001 # 4))%Q
           /\ (reserved == last + (1 # 2))%Q)
    /\ exists wait' reserved' : Q,
         Throttle.reserve_scheduled (1 # 2) "example.com" (6800000001 # 4)
           {["example.com" := PFin (1700000000 # 1)]}
         = (PFin wait',
            <["example.com" := PFin reserved']> {["example.com" := PFin (1700000000 # 1)]})
         /\ (wait' == wait)%Q /\ (reserved' == reserved)%Q.
Proof.
  apply (throttle_wait_reaches_reserved_instant
           (1 # 2) "example.com" (6800000001 # 4)
           {["example.com" := PFin (1700000000 # 1)]}).
  change (exact_reservation (1 # 2) (6800000001 # 4) (PFin (1700000000 # 1))).
  repeat split; try intros _; apply representableb_spec; reflexivity.
Defined.

Section FetchMore.
Import PyStr Fetch.

Lemma except_finally_fields e start c st :
  let o := match c with Fell o => o | Returned o => o | Threw m o => with_error m o end in
  let r := fst (except_finally e start c st) in
  orig_url r = orig_url o /\ final_url r = final_url o /\ numero r = numero o
  /\ emissao r = emissao o /\ valor_pagar r = valor_pagar o
  /\ status_code r = status_code o /\ title r = title o /\ emails r = emails o
  /\ error r = error o
  /\ last_request (snd (except_finally e start c st)) = last_request st
  /\ slept (snd (except_finally e start c st)) = slept st.
Proof. unfold except_finally. destruct c; cbn; repeat split. Qed.

End FetchMore.

Section FetchCases.
Import PyStr Fetch.

Lemma truthy_nonempty s : s <> EmptyString -> truthy s = true.
Proof. destruct s; [congruence | reflexivity]. Qed.

Lemma qr_fetch_unfold e url d st :
  url <> EmptyString ->
  QrCrawler.fetch_url e url d st
  = let st1 := snd (read_clock e st) in
    let '(c, st2) := QrCrawler.attempt e d (QrCrawler.normalize_url url) (blank url) st1 in
    except_finally e (clock e (reads st)) c st2.
Proof.
  intros H. unfold QrCrawler.fetch_url. cbn [read_clock snd].
  now rewrite (truthy_nonempty _ H).
Qed.

Lemma crawler_fetch_unfold e url st :
  url <> EmptyString ->
  Crawler.fetch_url e url st
  = let st1 := snd (read_clock e st) in
    let '(c, st2) := Crawler.attempt e (clock e (reads st)) (Crawler.normalize_url url)
                                     (blank url) st1 in
    except_finally e (clock e (reads st)) c st2.
Proof.
  intros H. unfold Crawler.fetch_url. cbn [read_clock snd].
  now rewrite (truthy_nonempty _ H).
Qed.

Lemma throttle_off e d u st :
  (d <= 0)%Q -> QrCrawler.throttle e d u st = st.
Proof.
  intros H. unfold QrCrawler.throttle. apply Qle_bool_iff in H. now rewrite H.
Qed.

Lemma attempt_file_registry e d u o st :
  startswith "file://" u = true \/ (d <= 0)%Q ->
  last_request (snd (QrCrawler.attempt e d u o st)) = last_request st
  /\ slept (snd (QrCrawler.attempt e d u o st)) = slept st.
Proof.
  intros H. unfold QrCrawler.attempt. destruct (startswith "file://" u) eqn:Hf.
  - destruct (path_exists e _); [destruct (read_text e _)|]; cbn [snd]; auto.
  - destruct H as [H|H]; [discriminate|]. rewrite (throttle_off e d u st H).
    destruct (http_get e u); [destruct (truthy _)|]; cbn [snd]; auto.
Qed.

End FetchCases.

(** X13. What [fetch_url] of qr_crawler.py does not throttle: for the empty
    target, for a local-file target and for a delay that is not above 0,
    the registry of the throttle is left as it was and the fetch does not
    sleep. *)
Theorem fetch_bypasses_throttle (e : env) (url : string) (d : Q) (st : state) :
  url = EmptyString
  \/ PyStr.startswith "file://" (QrCrawler.normalize_url url) = true
  \/ (d <= 0)%Q ->
  last_request (snd (QrCrawler.fetch_url e url d st)) = last_request st
  /\ slept (snd (QrCrawler.fetch_url e url d st)) = slept st.
Proof.
  intros H. destruct (String.eqb_spec url EmptyString) as [->|Hne]; [now split|].
  destruct H as [H|H]; [contradiction|].
  rewrite (qr_fetch_unfold e url d st Hne). cbv zeta.
  pose proof (attempt_file_registry e d (QrCrawler.normalize_url url) (Fetch.blank url)
                (snd (Fetch.read_clock e st)) H) as [Hr Hs].
  destruct (QrCrawler.attempt _ _ _ _ _) as [c st2]. cbn [snd] in Hr, Hs.
  destruct (except_finally_fields e (clock e (reads st)) c st2)
    as (_ & _ & _ & _ & _ & _ & _ & _ & _ & Hr' & Hs').
  rewrite Hr', Hs', Hr, Hs. now split.
Qed.

Lemma fetch_bypasses_throttle_witness :
  last_request
    (snd (QrCrawler.fetch_url
            (mk_env (fun n => inject_Z (Z.of_nat n)) (fun _ => false)
                    (fun _ => Raise "unreadable") (fun _ => Raise "unreachable")
                    (fun _ => Raise "unparsable") (fun _ => true))
            "file:///tmp/nota.html" (1 # 2) (mk_state 0 ∅ [])))
  = last_request (mk_state 0 ∅ [])
  /\ slept
       (snd (QrCrawler.fetch_url
               (mk_env (fun n => inject_Z (Z.of_nat n)) (fun _ => false)
                       (fun _ => Raise "unreadable") (fun _ => Raise "unreachable")
                       (fun _ => Raise "unparsable") (fun _ => true))
               "file:///tmp/nota.html" (1 # 2) (mk_state 0 ∅ [])))
     = slept (mk_state 0 ∅ []).
Proof.
  apply fetch_bypasses_throttle. right. left. reflexivity.
Defined.

(** X14. What [fetch_url] of qr_crawler.py does before a request: for a
    non-empty network target and a delay above 0, when nothing is rounded
    in the reservation, the instant it reserves for the host of the
    target is at least the delay after the instant the registry held for
    that host and not before the clock it read, the other hosts keep
    their instants, and the fetch either does not sleep, the instant
    reserved being the present one, or sleeps once, exactly until the
    instant reserved. *)
Theorem fetch_reserves_before_request (e : env) (url : string) (d : Q) (st : state) :
  url <> EmptyString ->
  PyStr.startswith "file://" (QrCrawler.normalize_url url) = false ->
  (0 < d)%Q ->
  let key := Throttle.throttle_key (ip_literal_ok e) (QrCrawler.normalize_url url) in
  let now := clock e (S (reads st)) in
  let st' := snd (QrCrawler.fetch_url e url d st) in
  exact_reservation d now (Throttle.last_of (last_request st) key) ->
  exists last reserved : Q,
    Throttle.last_of (last_request st) key = PFin last
    /\ Throttle.last_of (last_request st') key = PFin reserved
    /\ (last + d <= reserved)%Q
    /\ (now <= reserved)%Q
    /\ (forall h, h <> key ->
                  Throttle.last_of (last_request st') h
                  = Throttle.last_of (last_request st) h)
    /\ (((reserved == now)%Q /\ slept st' = slept st)
        \/ exists w, (0 < w)%Q /\ (now + w == reserved)%Q
                     /\ slept st' = slept st ++ [PFin w]).
Proof.
  intros Hne Hfile Hd key now st' He. subst st'.
  rewrite (qr_fetch_unfold e url d st Hne). cbv zeta.
  unfold QrCrawler.attempt. rewrite Hfile.
  set (st1 := snd (Fetch.read_clock e st)).
  set (st2 := QrCrawler.throttle e d (QrCrawler.normalize_url url) st1).
  assert (Hst : forall c,
             last_request (snd (Fetch.except_finally e (clock e (reads st)) c st2))
             = last_request st2
             /\ slept (snd (Fetch.except_finally e (clock e (reads st)) c st2))
                = slept st2).
  { intros c. destruct (except_finally_fields e (clock e (reads st)) c st2)
      as (_ & _ & _ & _ & _ & _ & _ & _ & _ & Hr' & Hs'). auto. }
  assert (Hgoal :
    exists last reserved : Q,
      Throttle.last_of (last_request st) key = PFin last
      /\ Throttle.last_of (last_request st2) key = PFin reserved
      /\ (last + d <= reserved)%Q
      /\ (now <= reserved)%Q
      /\ (forall h, h <> key ->
                    Throttle.last_of (last_request st2) h
                    = Throttle.last_of (last_request st) h)
      /\ (((reserved == now)%Q /\ slept st2 = slept st)
          \/ exists w, (0 < w)%Q /\ (now + w == reserved)%Q
                       /\ slept st2 = slept st ++ [PFin w])).
  { subst st2 st1. unfold QrCrawler.throttle.
    assert (Hb : Qle_bool d 0 = false).
    { destruct (Qle_bool d 0) eqn:E; [|reflexivity]. apply Qle_bool_iff in E. lra. }
    rewrite Hb. cbn [negb Fetch.read_clock snd fst reads last_request slept]. fold key now.
    destruct (Throttle.last_of (last_request st) key) as [l| | |] eqn:Hl; try contradiction.
    destruct (reserve_exact d key now (last_request st) l Hl He) as (w & t & Hr & Hcase).
    rewrite Hr. cbn [reads last_request slept Binary64.gt].
    exists l, t. split; [reflexivity|]. split; [apply last_of_insert_eq|].
    split; [destruct Hcase as [(H1 & _ & H2)|(H1 & _ & H2)]; lra|].
    split; [destruct Hcase as [(H1 & _ & H2)|(H1 & _ & H2)]; lra|].
    split; [intros h Hh; apply last_of_insert_ne; congruence|].
    destruct Hcase as [(H1 & H2 & H3)|(H1 & H2 & H3)].
    - left. split; [exact H3|].
      assert (Hw : negb (Qle_bool w 0) = false)
        by (apply negb_false_iff, Qle_bool_iff; lra).
      now rewrite Hw.
    - right. exists w.
      assert (Hw : negb (Qle_bool w 0) = true).
      { apply negb_true_iff. destruct (Qle_bool w 0) eqn:E; [|reflexivity].
        apply Qle_bool_iff in E. lra. }
      rewrite Hw. split; [lra|]. split; [lra | reflexivity]. }
  destruct (http_get e (QrCrawler.normalize_url url)) as [r|m].
  - destruct (PyStr.truthy _).
    + destruct (Hst (Fetch.extract_into e
                       (if Fetch.textual (resp_content_type r) then resp_text r
                        else EmptyString)
                       (Fetch.with_response (resp_status r) (resp_url r) (Fetch.blank url))))
        as [-> ->].
      exact Hgoal.
    + destruct (Hst (Fetch.Fell
                       (Fetch.with_response (resp_status r) (resp_url r) (Fetch.blank url))))
        as [-> ->].
      exact Hgoal.
  - destruct (Hst (Fetch.Threw m (Fetch.blank url))) as [-> ->]. exact Hgoal.
Qed.

Lemma fetch_reserves_before_request_witness :
  let e := mk_env (fun n => inject_Z (1700000000 + Z.of_nat n)) (fun _ => false)
                  (fun _ => Raise "unreadable") (fun _ => Raise "unreachable")
                  (fun _ => Raise "unparsable") (fun _ => true) in
  let url := "example.com/nota" in
  let st := mk_state 0 {["example.com" := PFin (1700000001 # 1)]} [] in
  let d := (1 # 2)%Q in
  let key := Throttle.throttle_key (ip_literal_ok e) (QrCrawler.normalize_url url) in
  let now := clock e (S (reads st)) in
  let st' := snd (QrCrawler.fetch_url e url d st) in
  exists last reserved : Q,
    Throttle.last_of (last_request st) key = PFin last
    /\ Throttle.last_of (last_request st') key = PFin reserved
    /\ (last + d <= reserved)%Q
    /\ (now <= reserved)%Q
    /\ (forall h, h <> key ->
                  Throttle.last_of (last_request st') h
                  = Throttle.last_of (last_request st) h)
    /\ (((reserved == now)%Q /\ slept st' = slept st)
        \/ exists w, (0 < w)%Q /\ (now + w == reserved)%Q
                     /\ slept st' = slept st ++ [PFin w]).
Proof.
  intros e url st d.
  apply (fetch_reserves_before_request e url d st);
    [discriminate | reflexivity | reflexivity |].
  change (exact_reservation (1 # 2) (1700000001 # 1) (PFin (1700000001 # 1))).
  repeat split; try intros _; apply representableb_spec; reflexivity.
Defined.

Section FetchOutcomes.
Import PyStr Fetch.

Lemma finally_result e start c st :
  let o := match c with Fell o => o | Returned o => o | Threw m o => with_error m o end in
  forall P : fetch_result -> Prop,
    (forall t, P (with_fetch_time t o)) ->
    P (fst (except_finally e start c st)).
Proof. intros o P H. unfold except_finally. destruct c; apply H. Qed.

Lemma qr_fetch_result e url d st (P : fetch_result -> Prop) :
  url <> EmptyString ->
  (forall st1, let c := fst (QrCrawler.attempt e d (QrCrawler.normalize_url url)
                                               (blank url) st1) in
               forall t, P (with_fetch_time t
                              match c with
                              | Fell o => o | Returned o => o | Threw m o => with_error m o
                              end)) ->
  P (fst (QrCrawler.fetch_url e url d st)).
Proof.
  intros Hne H. rewrite (qr_fetch_unfold e url d st Hne). cbv zeta.
  specialize (H (snd (read_clock e st))).
  destruct (QrCrawler.attempt _ _ _ _ _) as [c st2]. cbn [fst] in H.
  now apply finally_result.
Qed.

Lemma crawler_fetch_result e url st (P : fetch_result -> Prop) :
  url <> EmptyString ->
  (forall st1, let c := fst (Crawler.attempt e (clock e (reads st))
                                             (Crawler.normalize_url url) (blank url) st1) in
               forall t, P (with_fetch_time t
                              match c with
                              | Fell o => o | Returned o => o | Threw m o => with_error m o
                              end)) ->
  P (fst (Crawler.fetch_url e url st)).
Proof.
  intros Hne H. rewrite (crawler_fetch_unfold e url st Hne). cbv zeta.
  specialize (H (snd (read_clock e st))).
  destruct (Crawler.attempt _ _ _ _ _) as [c st2]. cbn [fst] in H.
  now apply finally_result.
Qed.

End FetchOutcomes.

(** X15. A failed fetch, in qr_crawler.py and in crawler.py: when the
    request of a non-empty network target raises, the result carries the
    target and the message of the exception; when the file of a local-file
    target does not exist, it carries the target and the message "file not
    found" with the path; in both cases no status, no final location and
    no field of a page is recorded. *)
Theorem fetch_records_failure :
  (forall (e : env) (url : string) (d : Q) (st : state) (m : string),
      url <> EmptyString ->
      PyStr.startswith "file://" (QrCrawler.normalize_url url) = false ->
      http_get e (QrCrawler.normalize_url url) = Raise m ->
      failure_result url m (fst (QrCrawler.fetch_url e url d st)))
  /\ (forall (e : env) (url : string) (d : Q) (st : state),
         url <> EmptyString ->
         PyStr.startswith "file://" (QrCrawler.normalize_url url) = true ->
         path_exists e (PyStr.drop 7 (QrCrawler.normalize_url url)) = false ->
         failure_result url
           ("file not found: " +:+ PyStr.drop 7 (QrCrawler.normalize_url url))
           (fst (QrCrawler.fetch_url e url d st)))
  /\ (forall (e : env) (url : string) (st : state) (m : string),
         url <> EmptyString ->
         PyStr.startswith "file://" (Crawler.normalize_url url) = false ->
         http_get e (Crawler.normalize_url url) = Raise m ->
         failure_result url m (fst (Crawler.fetch_url e url st)))
  /\ (forall (e : env) (url : string) (st : state),
         url <> EmptyString ->
         PyStr.startswith "file://" (Crawler.normalize_url url) = true ->
         path_exists e (PyStr.drop 7 (Crawler.normalize_url url)) = false ->
         failure_result url
           ("file not found: " +:+ PyStr.drop 7 (Crawler.normalize_url url))
           (fst (Crawler.fetch_url e url st))).
Proof.
  split; [|split; [|split]].
  - intros e url d st m Hne Hf Hg. apply qr_fetch_result; [exact Hne|].
    intros st1. unfold QrCrawler.attempt. rewrite Hf, Hg. cbn. intros t.
    repeat split.
  - intros e url d st Hne Hf Hp. apply qr_fetch_result; [exact Hne|].
    intros st1. unfold QrCrawler.attempt. rewrite Hf, Hp. cbn. intros t.
    repeat split.
  - intros e url st m Hne Hf Hg. apply crawler_fetch_result; [exact Hne|].
    intros st1. unfold Crawler.attempt. rewrite Hf, Hg. cbn. intros t.
    repeat split.
  - intros e url st Hne Hf Hp. apply crawler_fetch_result; [exact Hne|].
    intros st1. unfold Crawler.attempt. rewrite Hf, Hp. cbn. intros t.
    repeat split.
Qed.

(** X16. A body that is not parsed, in qr_crawler.py and in crawler.py:
    when the response to a non-empty network target declares a content
    type that is not textual (for crawler.py: not textual and not empty),
    or has an empty text, the result carries the status and the final
    location of the response, no error and no field of a page. *)
Theorem fetch_skips_non_textual_body :
  (forall (e : env) (url : string) (d : Q) (st : state) (r : response),
      url <> EmptyString ->
      PyStr.startswith "file://" (QrCrawler.normalize_url url) = false ->
      http_get e (QrCrawler.normalize_url url) = Ok r ->
      Fetch.textual (resp_content_type r) = false \/ resp_text r = EmptyString ->
      unparsed_result url r (fst (QrCrawler.fetch_url e url d st)))
  /\ (forall (e : env) (url : string) (st : state) (r : response),
         url <> EmptyString ->
         PyStr.startswith "file://" (Crawler.normalize_url url) = false ->
         http_get e (Crawler.normalize_url url) = Ok r ->
         Crawler.textual_or_unknown (resp_content_type r) = false
         \/ resp_text r = EmptyString ->
         unparsed_result url r (fst (Crawler.fetch_url e url st))).
Proof.
  split.
  - intros e url d st r Hne Hf Hg Hb. apply qr_fetch_result; [exact Hne|].
    intros st1. unfold QrCrawler.attempt. rewrite Hf, Hg.
    assert (Ht : PyStr.truthy (if Fetch.textual (resp_content_type r) then resp_text r
                               else EmptyString) = false).
    { destruct Hb as [->| ->]; [reflexivity | now destruct (Fetch.textual _)]. }
    rewrite Ht. cbn. intros t. repeat split.
  - intros e url st r Hne Hf Hg Hb. apply crawler_fetch_result; [exact Hne|].
    intros st1. unfold Crawler.attempt. rewrite Hf, Hg.
    assert (Ht : PyStr.truthy (if Crawler.textual_or_unknown (resp_content_type r)
                               then resp_text r else EmptyString) = false).
    { destruct Hb as [->| ->]; [reflexivity | now destruct (Crawler.textual_or_unknown _)]. }
    rewrite Ht. cbn. intros t. repeat split.
Qed.

(** ** The normalized target *)

Section UrlShape.
Import PyStr.

Lemma rstrip_app_fixed p s :
  rstrip s = s -> s <> EmptyString -> rstrip (p +:+ s) = p +:+ s.
Proof.
  intros Hs Hne. induction p as [|c p IH]; [exact Hs|].
  change (String c p +:+ s) with (String c (p +:+ s)). cbn [rstrip]. rewrite IH.
  destruct (p +:+ s) eqn:E; [|reflexivity].
  destruct p as [|c' p']; [exfalso; exact (Hne E) | cbn in E; discriminate E].
Qed.

Lemma strip_rstrip_fixed s : rstrip (strip s) = strip s.
Proof. unfold strip. apply rstrip_lstrip_fixed, rstrip_idem. Qed.

Lemma crawler_normalize_fixed u :
  strip u = u -> has_scheme u -> Crawler.normalize_url u = u.
Proof.
  intros Hs Hu. unfold Crawler.normalize_url. rewrite Hs.
  destruct u as [|c r].
  - destruct Hu as [H|[H|H]]; discriminate.
  - cbn [truthy negb]. destruct Hu as [H|[H|H]]; rewrite ?H; try reflexivity.
    + destruct (startswith "file://" (String c r)); reflexivity.
    + destruct (startswith "file://" (String c r)); [reflexivity|].
      destruct (startswith "http://" (String c r)); reflexivity.
Qed.

Lemma strip_prefixed p s :
  strip s = s -> s <> EmptyString ->
  (forall c r, p = String c r -> isspace c = false) -> p <> EmptyString ->
  strip (p +:+ s) = p +:+ s.
Proof.
  intros Hs Hne Hp Hpne. unfold strip.
  assert (Hr : rstrip s = s).
  { rewrite <- Hs. apply strip_rstrip_fixed. }
  rewrite (rstrip_app_fixed p s Hr Hne).
  destruct p as [|c r]; [congruence|].
  change (String c r +:+ s) with (String c (r +:+ s)). cbn [lstrip].
  now rewrite (Hp c r eq_refl).
Qed.

End UrlShape.

(** X17. [normalize_url]: what it returns is empty or begins with
    file://, http:// or https://, in crawler.py and in qr_crawler.py
    alike; it is empty exactly when nothing is left of the target once
    it is stripped (crawler.py) and once, in qr_crawler.py, its invisible
    characters are deleted as well; in crawler.py the function applied to
    its own result changes nothing. *)
Theorem normalize_url_shape (u : string) :
  Crawler.normalize_url (Crawler.normalize_url u) = Crawler.normalize_url u
  /\ (Crawler.normalize_url u = EmptyString \/ has_scheme (Crawler.normalize_url u))
  /\ (Crawler.normalize_url u = EmptyString <-> PyStr.strip u = EmptyString)
  /\ (QrCrawler.normalize_url u = EmptyString \/ has_scheme (QrCrawler.normalize_url u))
  /\ (QrCrawler.normalize_url u = EmptyString
      <-> QrCrawler.without_invisible (PyStr.strip u) = EmptyString).
Proof.
  assert (Hshape : Crawler.normalize_url u = EmptyString
                   \/ has_scheme (Crawler.normalize_url u)).
  { unfold Crawler.normalize_url, has_scheme.
    destruct (PyStr.strip u) as [|c r] eqn:E; [now left|]. cbn [PyStr.truthy negb]. right.
    destruct (PyStr.startswith "file://" (String c r)) eqn:Hf; [auto|].
    destruct (PyStr.startswith "http://" (String c r)) eqn:Hh; [auto|].
    destruct (PyStr.startswith "https://" (String c r)) eqn:Hs; cbn [negb andb]; auto. }
  split; [|split; [exact Hshape|split; [|split]]].
  - destruct Hshape as [->|Hsch]; [reflexivity|].
    apply crawler_normalize_fixed; [|exact Hsch].
    unfold Crawler.normalize_url in *.
    destruct (PyStr.strip u) as [|c r] eqn:E; [reflexivity|]. cbn [PyStr.truthy negb] in *.
    assert (Hfix : PyStr.strip (String c r) = String c r).
    { rewrite <- E. apply strip_idem. }
    destruct (PyStr.startswith "file://" (String c r)); [exact Hfix|].
    destruct (negb (PyStr.startswith "http://" (String c r))
              && negb (PyStr.startswith "https://" (String c r))); [|exact Hfix].
    apply strip_prefixed; [exact Hfix | discriminate | | discriminate].
    intros c' r' [= <- _]. reflexivity.
  - unfold Crawler.normalize_url.
    destruct (PyStr.strip u) as [|c r] eqn:E; [tauto|]. cbn [PyStr.truthy negb].
    split; [|discriminate].
    destruct (PyStr.startswith "file://" (String c r)); [discriminate|].
    destruct (negb _ && negb _); discriminate.
  - unfold QrCrawler.normalize_url, has_scheme.
    destruct (QrCrawler.without_invisible (PyStr.strip u)) as [|c r] eqn:E; [now left|].
    cbn [PyStr.truthy negb]. right.
    destruct (PyStr.startswith "file://" (QrCrawler.cut_to_scheme (String c r))) eqn:Hf; [auto|].
    destruct (PyStr.startswith "http://" (QrCrawler.cut_to_scheme (String c r))) eqn:Hh; [auto|].
    destruct (PyStr.startswith "https://" (QrCrawler.cut_to_scheme (String c r))) eqn:Hs;
      cbn [negb andb]; auto.
  - unfold QrCrawler.normalize_url.
    destruct (QrCrawler.without_invisible (PyStr.strip u)) as [|c r] eqn:E; [tauto|].
    cbn [PyStr.truthy negb]. split; [|discriminate].
    destruct (PyStr.startswith "file://" (QrCrawler.cut_to_scheme (String c r))) eqn:Hf.
    + intros H. rewrite H in Hf. discriminate.
    + destruct (negb _ && negb _) eqn:Hb; [discriminate|].
      intros H. rewrite H in Hb. discriminate.
Qed.

(** ** The fields taken from a page *)

Section RegexFacts.
Import PyStr Regex.

Lemma rep_spec p s : forall lo hi g r,
  In (g, r) (rep p lo hi s) ->
  s = g +:+ r /\ all_chars p g = true
  /\ (lo <= String.length g)%nat
  /\ (forall h, hi = Some h -> (String.length g <= h)%nat).
Proof.
  induction s as [|c s IH]; intros lo hi g r.
  - cbn [rep]. destruct (Nat.eqb_spec lo 0) as [->|]; [|intros []].
    intros [[= <- <-]|[]]. repeat split; simpl; intros; lia.
  - assert (Hstop : In (g, r) (if (lo =? 0)%nat then [(EmptyString, String c s)] else []) ->
                    String c s = g +:+ r /\ all_chars p g = true
                    /\ (lo <= String.length g)%nat
                    /\ (forall h, hi = Some h -> (String.length g <= h)%nat)).
    { destruct (Nat.eqb_spec lo 0) as [->|]; [|intros []].
      intros [[= <- <-]|[]]. repeat split; simpl; intros; lia. }
    cbn [rep].
    destruct (p c && match hi with Some O => false | _ => true end) eqn:Hc; [|exact Hstop].
    intros Hin. apply in_app_or in Hin as [Hin|Hin]; [|exact (Hstop Hin)].
    apply in_map_iff in Hin as ([g' r'] & [= <- <-] & Hin).
    apply andb_true_iff in Hc as [Hpc Hhi].
    destruct (IH _ _ _ _ Hin) as (-> & Hg & Hlo & Hup).
    repeat split.
    + cbn [all_chars]. now rewrite Hpc, Hg.
    + cbn [String.length]. lia.
    + intros h ->. cbn [String.length]. destruct h as [|h]; [discriminate|].
      specialize (Hup h eq_refl). lia.
Qed.

Lemma cls_spec p s g r :
  In (g, r) (cls p s) -> exists c, g = String c EmptyString /\ s = String c r /\ p c = true.
Proof.
  destruct s as [|c s]; [intros []|]. cbn [cls].
  destruct (p c) eqn:Hc; [|intros []]. intros [[= <- <-]|[]]. eauto.
Qed.

Lemma lit_spec x s g r :
  In (g, r) (lit x s) -> g = String x EmptyString /\ s = String x r.
Proof.
  intros H. apply cls_spec in H as (c & -> & -> & Hc).
  apply Ascii.eqb_eq in Hc as ->. auto.
Qed.

Lemma seq_spec a b s g r :
  In (g, r) (seq a b s) ->
  exists g1 r1 g2, In (g1, r1) (a s) /\ In (g2, r) (b r1) /\ g = g1 +:+ g2.
Proof.
  unfold seq. intros H. apply in_flat_map in H as ([g1 r1] & H1 & H).
  apply in_map_iff in H as ([g2 r2] & [= <- <-] & H2). eauto 6.
Qed.

Lemma opt_spec a s g r :
  In (g, r) (opt a s) -> In (g, r) (a s) \/ (g = EmptyString /\ r = s).
Proof.
  unfold opt. intros H. apply in_app_or in H as [H|[[= <- <-]|[]]]; auto.
Qed.

Lemma search_spec m s g :
  search m s = Some g -> exists t r, In (g, r) (m t).
Proof.
  induction s as [|c s IH]; cbn [search].
  - destruct (m EmptyString) as [|[g' r'] l] eqn:E; [discriminate|].
    intros [= <-]. exists EmptyString, r'. rewrite E. now left.
  - destruct (m (String c s)) as [|[g' r'] l] eqn:E; [exact IH|].
    intros [= <-]. exists (String c s), r'. rewrite E. now left.
Qed.

Lemma digits2_spec s g r :
  In (g, r) (QrFields.digits2 s) ->
  exists a b, g = String a (String b EmptyString) /\ isdecimal a = true /\ isdecimal b = true.
Proof.
  intros H. apply rep_spec in H as (_ & Hg & Hlo & Hhi).
  specialize (Hhi _ eq_refl).
  destruct g as [|a [|b [|c g]]]; cbn [String.length] in *; try lia.
  cbn [all_chars] in Hg. apply andb_true_iff in Hg as [Ha Hg].
  apply andb_true_iff in Hg as [Hb _]. eauto.
Qed.

Lemma alt_spec a b s g r :
  In (g, r) (alt a b s) -> In (g, r) (a s) \/ In (g, r) (b s).
Proof. unfold alt. apply in_app_or. Qed.

Lemma before_group_spec a b s g r :
  In (g, r) (before_group a b s) -> exists g1 r1, In (g1, r1) (a s) /\ In (g, r) (b r1).
Proof.
  unfold before_group. intros H. apply in_flat_map in H as ([g1 r1] & H1 & H). eauto.
Qed.

Lemma all_chars_impl (p q : ascii -> bool) s :
  (forall c, p c = true -> q c = true) -> all_chars p s = true -> all_chars q s = true.
Proof.
  intros Hpq. induction s as [|c s IH]; [reflexivity|]. cbn [all_chars].
  intros H. apply andb_true_iff in H as [Hc Hs]. now rewrite (Hpq c Hc), IH.
Qed.

Lemma search_digit_run_whole g :
  all_chars isdecimal g = true -> g <> EmptyString -> search_digit_run g = Some g.
Proof.
  intros Hg Hne.
  pose proof (search_digit_run_first EmptyString g EmptyString eq_refl Hne Hg eq_refl) as H.
  change (EmptyString +:+ g +:+ EmptyString) with (g +:+ EmptyString) in H.
  assert (E : g +:+ EmptyString = g).
  { clear. induction g as [|c g IH]; [reflexivity|].
    change (String c g +:+ EmptyString) with (String c (g +:+ EmptyString)). now rewrite IH. }
  now rewrite E in H.
Qed.

Lemma valor_char_not_space c : QrFields.valor_char c = true -> isspace c = false.
Proof.
  unfold QrFields.valor_char. intros H.
  apply orb_true_iff in H as [H|H]; [apply orb_true_iff in H as [H|H]|].
  - now apply isdecimal_not_space.
  - apply Ascii.eqb_eq in H as ->. reflexivity.
  - apply Ascii.eqb_eq in H as ->. reflexivity.
Qed.

Lemma strip_valor g : all_chars QrFields.valor_char g = true -> strip g = g.
Proof.
  intros Hg. apply strip_no_space.
  apply (all_chars_impl QrFields.valor_char); [|exact Hg].
  intros c Hc. now rewrite (valor_char_not_space c Hc).
Qed.



(** The date of an issuance: it holds no hour, and the search for one
    goes on behind it. *)
Lemma date_spec (X : matcher) t g r :
  In (g, r) (seq QrFields.digits2 (seq (lit "/") (seq QrFields.digits2 (seq (lit "/")
               (seq (rep isdecimal 4 (Some 4%nat)) X)))) t) ->
  exists date g5 r5,
    g = date +:+ g5 /\ In (g5, r) (X r5) /\ String.length date = 10%nat
    /\ forall tail,
         match tail with
         | String x _ => isdecimal x = false /\ Ascii.eqb x ":" = false
         | EmptyString => True
         end ->
         ComparePlanilha.search_hh_mm (date +:+ tail) = ComparePlanilha.search_hh_mm tail.
Proof.
  intros Hin.
  apply seq_spec in Hin as (d1 & r1 & g1 & Hd1 & Hin & ->).
  apply seq_spec in Hin as (s1 & r2 & g2 & Hs1 & Hin & ->).
  apply seq_spec in Hin as (d2 & r3 & g3 & Hd2 & Hin & ->).
  apply seq_spec in Hin as (s2 & r4 & g4 & Hs2 & Hin & ->).
  apply seq_spec in Hin as (d3 & r5 & g5 & Hd3 & Hin & ->).
  apply digits2_spec in Hd1 as (a1 & a2 & -> & Ha1 & Ha2).
  apply digits2_spec in Hd2 as (b1 & b2 & -> & Hb1 & Hb2).
  apply lit_spec in Hs1 as [-> _]. apply lit_spec in Hs2 as [-> _].
  apply rep_spec in Hd3 as (_ & Hy & Hlo & Hhi). specialize (Hhi _ eq_refl).
  destruct d3 as [|y1 [|y2 [|y3 [|y4 [|y5 d3]]]]]; cbn [String.length] in Hlo, Hhi; try lia.
  clear Hlo Hhi. cbn [all_chars] in Hy.
  apply andb_true_iff in Hy as [Hy1 Hy]. apply andb_true_iff in Hy as [Hy2 Hy].
  apply andb_true_iff in Hy as [Hy3 Hy]. apply andb_true_iff in Hy as [Hy4 _].
  exists (String a1 (String a2 (String "/" (String b1 (String b2 (String "/"
            (String y1 (String y2 (String y3 (String y4 EmptyString)))))))))), g5, r5.
  split; [reflexivity|]. split; [exact Hin|]. split; [reflexivity|].
  intros tail Htail.
  now apply search_hh_mm_after_date.
Qed.

(** The time of day of an issuance: white space, then the hour that
    the search finds. *)
Lemma time_spec (X : matcher) t g r :
  In (g, r) (seq (rep isspace 1 None)
               (seq QrFields.digits2 (seq (lit ":") (seq QrFields.digits2 X))) t) ->
  exists ws hh rest x ws',
    g = ws +:+ hh +:+ ":" +:+ rest
    /\ ws = String x ws' /\ all_chars isspace ws = true
    /\ String.length hh = 2%nat /\ all_chars isdecimal hh = true
    /\ ComparePlanilha.search_hh_mm g = Some hh.
Proof.
  intros Hin.
  apply seq_spec in Hin as (ws & r6 & g6 & Hws & Hin & ->).
  apply seq_spec in Hin as (hh & r7 & g7 & Hhh & Hin & ->).
  apply seq_spec in Hin as (c1 & r8 & g8 & Hc1 & Hin & ->).
  apply seq_spec in Hin as (mm & r9 & g9 & Hmm & Hin & ->).
  apply lit_spec in Hc1 as [-> _].
  apply rep_spec in Hws as (_ & Hws & Hwlo & _).
  apply digits2_spec in Hhh as (h1 & h2 & -> & Hh1 & Hh2).
  apply digits2_spec in Hmm as (m1 & m2 & -> & Hm1 & Hm2).
  destruct ws as [|x ws']; [simpl in Hwlo; lia|].
  exists (String x ws'), (String h1 (String h2 EmptyString)),
         (String m1 (String m2 EmptyString) +:+ g9), x, ws'.
  split; [reflexivity|]. split; [reflexivity|]. split; [exact Hws|].
  split; [reflexivity|]. split; [cbn [all_chars]; now rewrite Hh1, Hh2|].
  rewrite search_hh_mm_spaces by exact Hws.
  change (String h1 (String h2 EmptyString) +:+ String ":" EmptyString
          +:+ String m1 (String m2 EmptyString) +:+ g9)
    with (String h1 (String h2 (String ":" (String m1 (String m2 g9))))).
  now apply search_hh_mm_here.
Qed.

Lemma two_digits_value hh :
  String.length hh = 2%nat -> all_chars isdecimal hh = true ->
  py_int hh = Some (digits_value hh) /\ 0 <= digits_value hh <= 99.
Proof.
  intros Hl Hd. split.
  - apply py_int_digits; [exact Hd|]. intros ->. discriminate.
  - destruct hh as [|h1 [|h2 [|h3 hh]]]; try discriminate.
    cbn [all_chars] in Hd. apply andb_true_iff in Hd as [Hh1 Hd].
    apply andb_true_iff in Hd as [Hh2 _].
    pose proof (digit_value_range _ Hh1). pose proof (digit_value_range _ Hh2).
    unfold digits_value. cbn [digits_acc]. lia.
Qed.

End RegexFacts.

Section FieldFacts.
Import PyStr Regex.

Lemma timed_hour (X : matcher) date g5 r r5 :
  String.length date = 10%nat ->
  (forall tail,
      match tail with
      | String x _ => isdecimal x = false /\ Ascii.eqb x ":" = false
      | EmptyString => True
      end ->
      ComparePlanilha.search_hh_mm (date +:+ tail) = ComparePlanilha.search_hh_mm tail) ->
  In (g5, r) (seq (rep isspace 1 None)
                (seq QrFields.digits2 (seq (lit ":") (seq QrFields.digits2 X))) r5) ->
  exists hh, timed (date +:+ g5) hh
             /\ emissao_hour (date +:+ g5) = Some (digits_value hh)
             /\ 0 <= digits_value hh <= 99.
Proof.
  intros Hlen Hskip Hin.
  apply time_spec in Hin as (ws & hh & rest & x & ws' & -> & Hx & Hws & Hl & Hd & Hs).
  destruct (two_digits_value hh Hl Hd) as [Hint Hrange].
  exists hh. split; [|split; [|exact Hrange]].
  - exists date, ws, rest. repeat split; auto. rewrite Hx. discriminate.
  - unfold emissao_hour. rewrite Hskip; [now rewrite Hs|].
    rewrite Hx in Hws |- *. change (String x ws' +:+ ?z) with (String x (ws' +:+ z)).
    cbn [all_chars] in Hws. apply andb_true_iff in Hws as [Hsp _].
    split; [now apply space_not_decimal | now apply space_not_colon].
Qed.

Lemma digits_normalize g :
  all_chars isdecimal g = true -> g <> EmptyString ->
  ComparePlanilha.normalize_num (Some g) = Some (digits_value g)
  /\ MakePlanilha.normalize_num_for_compare (Some g) = Some (digits_value g).
Proof.
  intros Hg Hne. rewrite normalize_num_value, normalize_num_for_compare_value.
  now rewrite (search_digit_run_whole g Hg Hne).
Qed.

End FieldFacts.

(** X18. The document number qr_crawler.py takes from a page is either
    empty, and then both normalizers find no number in it, or a string of
    3 to 44 decimal digits, and then both normalizers return the integer
    those digits denote. *)
Theorem qr_numero_is_normalizable (page_text : string) :
  let g := QrFields.numero_of page_text in
  (g = EmptyString /\ ComparePlanilha.normalize_num (Some g) = None
   /\ MakePlanilha.normalize_num_for_compare (Some g) = None)
  \/ (PyStr.all_chars PyStr.isdecimal g = true
      /\ (3 <= String.length g <= 44)%nat
      /\ ComparePlanilha.normalize_num (Some g) = Some (PyStr.digits_value g)
      /\ MakePlanilha.normalize_num_for_compare (Some g) = Some (PyStr.digits_value g)).
Proof.
  cbv zeta. unfold QrFields.numero_of.
  destruct (Regex.search QrFields.NUMERO_RE page_text) as [g|] eqn:Hs; cbn [from_option id].
  - right. apply search_spec in Hs as (t & r & Hin).
    apply rep_spec in Hin as (_ & Hg & Hlo & Hhi). specialize (Hhi _ eq_refl).
    assert (Hne : g <> EmptyString) by (intros ->; simpl in Hlo; lia).
    destruct (digits_normalize g Hg Hne). repeat split; auto.
  - left. repeat split.
Qed.

(** X19. The issuance qr_crawler.py takes from a page is empty or a
    date of ten characters, and then [classify] finds no hour in it; or
    it is such a date, white space and a time of day, and then the hour
    [classify] reads is the number of the two digits that begin the
    time, which lies between 0 and 99. *)
Theorem qr_emissao_hour (page_text : string) :
  let g := QrFields.emissao_of page_text in
  ((g = EmptyString \/ String.length g = 10%nat) /\ emissao_hour g = None)
  \/ (exists hh, timed g hh
                 /\ emissao_hour g = Some (PyStr.digits_value hh)
                 /\ 0 <= PyStr.digits_value hh <= 99).
Proof.
  cbv zeta. unfold QrFields.emissao_of.
  destruct (Regex.search QrFields.EMISSAO_RE page_text) as [g|] eqn:Hs; cbn [from_option id];
    [|left; split; [now left | reflexivity]].
  apply search_spec in Hs as (t & r & Hin).
  apply date_spec in Hin as (date & g5 & r5 & -> & Hin & Hlen & Hskip).
  apply opt_spec in Hin as [Hin|[-> _]].
  - right. exact (timed_hour _ date g5 r r5 Hlen Hskip Hin).
  - left. split.
    + right. rewrite length_app_str, Hlen. reflexivity.
    + unfold emissao_hour. now rewrite Hskip.
Qed.

(** X20. The amount qr_crawler.py takes from a page holds nothing but
    decimal digits, dots and commas: when the pattern matches it is the
    text of the group that took part, which is not empty and which
    [strip] leaves as it is, and otherwise it is empty. *)
Theorem qr_valor_alphabet (page_text : string) :
  PyStr.all_chars QrFields.valor_char (QrFields.valor_of page_text) = true
  /\ match Regex.search QrFields.VALOR_RE page_text with
     | Some g => QrFields.valor_of page_text = g /\ g <> EmptyString
     | None => QrFields.valor_of page_text = EmptyString
     end.
Proof.
  unfold QrFields.valor_of.
  destruct (Regex.search QrFields.VALOR_RE page_text) as [g|] eqn:Hs; [|split; reflexivity].
  apply search_spec in Hs as (t & r & Hin). unfold QrFields.VALOR_RE in Hin.
  assert (Hg : PyStr.all_chars QrFields.valor_char g = true /\ g <> EmptyString).
  { apply alt_spec in Hin as [Hin|Hin].
    - apply before_group_spec in Hin as (g1 & r1 & _ & Hin).
      apply rep_spec in Hin as (_ & Hg & Hlo & _).
      split; [exact Hg|]. intros ->. simpl in Hlo. lia.
    - apply seq_spec in Hin as (ds & r1 & g1 & Hds & Hin & ->).
      apply seq_spec in Hin as (sp & r2 & g2 & Hsp & Hin & ->).
      apply rep_spec in Hds as (_ & Hds & Hlo & _).
      apply cls_spec in Hsp as (c & -> & _ & Hc).
      apply digits2_spec in Hin as (a & b & -> & Ha & Hb).
      split.
      + rewrite all_chars_app. apply andb_true_iff. split.
        * apply (all_chars_impl PyStr.isdecimal); [|exact Hds].
          intros x Hx. unfold QrFields.valor_char. now rewrite Hx.
        * change (String c EmptyString +:+ String a (String b EmptyString))
            with (String c (String a (String b EmptyString))).
          assert (Hvc : QrFields.valor_char c = true).
          { unfold QrFields.valor_char. unfold QrFields.separator in Hc.
            now rewrite <- orb_assoc, Hc, orb_true_r. }
          assert (Hva : QrFields.valor_char a = true).
          { unfold QrFields.valor_char. now rewrite Ha. }
          assert (Hvb : QrFields.valor_char b = true).
          { unfold QrFields.valor_char. now rewrite Hb. }
          cbn [PyStr.all_chars]. now rewrite Hvc, Hva, Hvb.
      + destruct ds; [simpl in Hlo; lia | discriminate]. }
  destruct Hg as [Hg Hne]. rewrite (strip_valor g Hg). auto.
Qed.

(** X21. The patterns of crawler.py: the document number taken from a
    page is empty, and then both normalizers find no number in it, or a
    non-empty string of decimal digits, and then both return the integer
    the digits denote; the issuance taken from a page is empty or a date,
    white space and a time of day, and then the hour [classify] reads is
    the number of the two digits that begin the time. *)
Theorem crawler_fields_are_usable (page_text : string) :
  (let g := CrawlerFields.numero_of page_text in
   (g = EmptyString /\ ComparePlanilha.normalize_num (Some g) = None
    /\ MakePlanilha.normalize_num_for_compare (Some g) = None)
   \/ (PyStr.all_chars PyStr.isdecimal g = true /\ g <> EmptyString
       /\ ComparePlanilha.normalize_num (Some g) = Some (PyStr.digits_value g)
       /\ MakePlanilha.normalize_num_for_compare (Some g) = Some (PyStr.digits_value g)))
  /\ (let e := CrawlerFields.emissao_of page_text in
      (e = EmptyString /\ emissao_hour e = None)
      \/ (exists hh, timed e hh
                     /\ emissao_hour e = Some (PyStr.digits_value hh)
                     /\ 0 <= PyStr.digits_value hh <= 99)).
Proof.
  cbv zeta. split.
  - unfold CrawlerFields.numero_of.
    destruct (Regex.search CrawlerFields.NUMERO_RE page_text) as [g|] eqn:Hs;
      cbn [from_option id]; [|left; repeat split].
    right. apply search_spec in Hs as (t & r & Hin).
    apply before_group_spec in Hin as (g1 & r1 & _ & Hin).
    apply rep_spec in Hin as (_ & Hg & Hlo & _).
    assert (Hne : g <> EmptyString) by (intros ->; simpl in Hlo; lia).
    destruct (digits_normalize g Hg Hne). repeat split; auto.
  - unfold CrawlerFields.emissao_of.
    destruct (Regex.search CrawlerFields.EMISSAO_RE page_text) as [g|] eqn:Hs;
      cbn [from_option id]; [|left; split; reflexivity].
    right. apply search_spec in Hs as (t & r & Hin).
    apply before_group_spec in Hin as (g1 & r1 & _ & Hin).
    apply date_spec in Hin as (date & g5 & r5 & -> & Hin & Hlen & Hskip).
    exact (timed_hour _ date g5 r r5 Hlen Hskip Hin).
Qed.
